(** * Appointment dashboard: filtering, statistics, calendar and status updates

    A shallow embedding of the appointment management view
    (EMR_Frontend_Assignment.jsx), of the API client it imports
    (appointmentService.js) and of the in-memory mock service
    (appointmentServiceMock.js), followed by the properties proved about
    them.

    Conventions of the embedding:
    - a JavaScript string is a [string]; the characters are taken to be
      ASCII, so that [toLowerCase] is the ASCII case mapping;
    - a JavaScript number is a [Z]; a number that may be [NaN] is an
      [option Z], with [None] for [NaN];
    - a promise is modelled by its settled outcome, [Resolved] or
      [Rejected];
    - React state is threaded explicitly through the handlers. *)

From Stdlib Require Import ZArith List String Ascii Bool Lia.
From Stdlib Require Import Sorting.Sorted Sorting.Permutation.
From Stdlib Require Import Numbers.DecimalString.
Import ListNotations.

Local Open Scope string_scope.
Local Open Scope Z_scope.

(* ===================================================================== *)
(** * Part I: the embedding *)
(* ===================================================================== *)

(** ** The JavaScript built-ins the program relies on *)

Module JS.

(** *** Strings *)

(** [c.toLowerCase()] for one ASCII character. *)
Definition lowerChar (c : ascii) : ascii :=
  let n := N_of_ascii c in
  if ((65 <=? n) && (n <=? 90))%N then ascii_of_N (n + 32) else c.

(** [s.toLowerCase()]. *)
Fixpoint toLowerCase (s : string) : string :=
  match s with
  | EmptyString => EmptyString
  | String c s' => String (lowerChar c) (toLowerCase s')
  end.

(** White space as removed by [trim]: TAB, LF, VT, FF, CR and space. *)
Definition isWhiteSpace (c : ascii) : bool :=
  let n := N_of_ascii c in
  ((9 <=? n) && (n <=? 13) || (n =? 32))%N.

Fixpoint trimStart (s : string) : string :=
  match s with
  | EmptyString => EmptyString
  | String c s' => if isWhiteSpace c then trimStart s' else s
  end.

(** Removes trailing white space: a character is kept when it is not white
    space or when something is left after it. *)
Fixpoint trimEnd (s : string) : string :=
  match s with
  | EmptyString => EmptyString
  | String c s' =>
      match trimEnd s' with
      | EmptyString => if isWhiteSpace c then EmptyString else String c EmptyString
      | r => String c r
      end
  end.

(** [s.trim()]. *)
Definition trim (s : string) : string := trimEnd (trimStart s).

(** Truthiness of a string: only the empty string is falsy. *)
Definition truthy (s : string) : bool :=
  match s with EmptyString => false | _ => true end.

(** [s.includes(q)]: [q] occurs in [s] as a contiguous substring. *)
Fixpoint includes (s q : string) : bool :=
  String.prefix q s ||
  match s with
  | EmptyString => false
  | String _ s' => includes s' q
  end.

(** The weight of a character in the collation that [localeCompare]
    uses, for the characters of a time string: the colon, like all
    punctuation, comes before the digits, and the digits are in their
    order.  (The other characters are given the order of their codes;
    the collation of letters and of the remaining punctuation is not
    modelled, and nothing below relies on it.) *)
Definition collationWeight (c : ascii) : N :=
  if Ascii.eqb c ":" then 95%N else (2 * N_of_ascii c)%N.

(** Strings compared weight by weight, a proper prefix first. *)
Fixpoint collate (a b : string) : comparison :=
  match a, b with
  | EmptyString, EmptyString => Eq
  | EmptyString, String _ _ => Lt
  | String _ _, EmptyString => Gt
  | String x a', String y b' =>
      match N.compare (collationWeight x) (collationWeight y) with
      | Eq => collate a' b'
      | r => r
      end
  end.

(** [a.localeCompare(b)], as a sign.  The program applies it to time
    strings only, made of digits and colons, which is where this model is
    meant to agree with the collation of the engine. *)
Definition localeCompare (a b : string) : Z :=
  match collate a b with
  | Lt => -1
  | Eq => 0
  | Gt => 1
  end.

(** [String(n)] for an integer [n]. *)
Definition numberToString (n : Z) : string :=
  NilZero.string_of_int (Z.to_int n).

Fixpoint repeatChar (c : ascii) (n : nat) : string :=
  match n with
  | O => EmptyString
  | S k => String c (repeatChar c k)
  end.

(** [s.padStart(len, c)] with a one-character filler. *)
Definition padStart (s : string) (len : nat) (c : ascii) : string :=
  repeatChar c (len - String.length s) ++ s.

(** [s.split(c)] for a one-character separator. *)
Fixpoint split (sep : ascii) (s : string) : list string :=
  match s with
  | EmptyString => [EmptyString]
  | String c s' =>
      if Ascii.eqb c sep then EmptyString :: split sep s'
      else match split sep s' with
           | [] => [String c EmptyString]
           | w :: ws => String c w :: ws
           end
  end.

(** [s[0]], with [undefined] rendered as the empty string (which is what
    [join] makes of it). *)
Definition firstChar (s : string) : string :=
  match s with
  | EmptyString => EmptyString
  | String c _ => String c EmptyString
  end.

(** [l.join('')]. *)
Definition join (l : list string) : string :=
  fold_right String.append EmptyString l.

(** *** Dates *)

Definition msPerDay : Z := 86400000.

(** Gregorian leap years. *)
Definition isLeapYear (y : Z) : bool :=
  ((y mod 4 =? 0) && negb (y mod 100 =? 0)) || (y mod 400 =? 0).

(** Length of month [m] (0 = January) of year [y]. *)
Definition daysInMonth (y m : Z) : Z :=
  if m =? 1 then (if isLeapYear y then 29 else 28)
  else if (m =? 3) || (m =? 5) || (m =? 8) || (m =? 10) then 30
  else 31.

(** Day number of 1 January of year [y], counted from 1 January 1970. *)
Definition DayFromYear (y : Z) : Z :=
  365 * (y - 1970) + (y - 1969) / 4 - (y - 1901) / 100 + (y - 1601) / 400.

(** Days of year [y] that precede month [m] (0 = January). *)
Fixpoint daysBeforeMonth (y : Z) (m : nat) : Z :=
  match m with
  | O => 0
  | S k => daysBeforeMonth y k + daysInMonth y (Z.of_nat k)
  end.

(** [MakeDay(year, month, date)]: the day number of the given civil date;
    [month] may lie outside 0..11 and [date] outside the month. *)
Definition MakeDay (year month date : Z) : Z :=
  let ym := year + month / 12 in
  let mn := month mod 12 in
  DayFromYear ym + daysBeforeMonth ym (Z.to_nat mn) + date - 1.

(** [WeekDay]: 0 = Sunday; day 0 (1 January 1970) was a Thursday. *)
Definition WeekDay (day : Z) : Z := (day + 4) mod 7.

(** A [Date] object, by its civil fields in local time.  Every date the
    calendar builds or reads is built and read in local time; the time of
    day is carried along unchanged and never read, so it is left out. *)
Record Date := mkDate {
  getFullYear : Z;
  getMonth : Z;     (* 0 = January *)
  getDate : Z       (* day of the month, from 1 *)
}.

(** Brings a day of the month back into its month, one month at a time. *)
Fixpoint normalizeDay (fuel : nat) (y m d : Z) : Date :=
  match fuel with
  | O => mkDate y m d
  | S k =>
      if d <? 1 then
        let y' := if m =? 0 then y - 1 else y in
        let m' := if m =? 0 then 11 else m - 1 in
        normalizeDay k y' m' (d + daysInMonth y' m')
      else if daysInMonth y m <? d then
        let y' := if m =? 11 then y + 1 else y in
        let m' := if m =? 11 then 0 else m + 1 in
        normalizeDay k y' m' (d - daysInMonth y m)
      else mkDate y m d
  end.

(** The date with the given fields, once month and day overflow are
    resolved (the effect of [MakeDay] followed by reading the fields
    back).  Every step of [normalizeDay] moves the day by at least 28, so
    the fuel suffices. *)
Definition makeDate (year month date : Z) : Date :=
  normalizeDay (Z.to_nat (Z.abs date) + 1)
               (year + month / 12) (month mod 12) date.

(** [new Date(year, month, date)]: years 0..99 denote 1900..1999. *)
Definition newDate (year month date : Z) : Date :=
  let yr := if (0 <=? year) && (year <=? 99) then 1900 + year else year in
  makeDate yr month date.

(** [d.getDay()]. *)
Definition getDay (d : Date) : Z :=
  WeekDay (MakeDay (getFullYear d) (getMonth d) (getDate d)).

(** [d.setMonth(m)] on a copy of [d]. *)
Definition setMonth (d : Date) (m : Z) : Date :=
  makeDate (getFullYear d) m (getDate d).

(** *** Parsing dates *)

Definition digitValue (c : ascii) : option Z :=
  let n := N_of_ascii c in
  if ((48 <=? n) && (n <=? 57))%N then Some (Z.of_N n - 48) else None.

(** The value of a string of digits, [None] if some character is not a
    digit. *)
Fixpoint digitsValue (acc : Z) (s : string) : option Z :=
  match s with
  | EmptyString => Some acc
  | String c s' =>
      match digitValue c with
      | Some v => digitsValue (10 * acc + v) s'
      | None => None
      end
  end.

(** [new Date(s).getTime()] for the date-only form [YYYY-MM-DD] of the
    ECMAScript date format with a month and a day that exist, which is
    read as midnight UTC: the form in which the backend sends dates and
    the calendar builds them.  On such a string the result is that of
    every engine.  [None] is given for every other string; there, engines
    read further forms (a year alone, a year and a month, a date with a
    time) and some carry a day beyond the end of the month over to the
    next, so [None] is not to be read as [NaN] of the code: the
    properties that depend on the value of a date are stated for dates
    that [parseDate] accepts. *)
Definition parseDate (s : string) : option Z :=
  if (String.length s =? 10)%nat
     && match String.get 4 s, String.get 7 s with
        | Some c1, Some c2 => Ascii.eqb c1 "-" && Ascii.eqb c2 "-"
        | _, _ => false
        end
  then
    match digitsValue 0 (String.substring 0 4 s),
          digitsValue 0 (String.substring 5 2 s),
          digitsValue 0 (String.substring 8 2 s) with
    | Some y, Some m, Some d =>
        if (1 <=? m) && (m <=? 12) && (1 <=? d) && (d <=? daysInMonth y (m - 1))
        then Some (MakeDay y (m - 1) d * msPerDay)
        else None
    | _, _, _ => None
    end
  else None.


(** *** Numbers that may be [NaN] *)

(** [a - b]; [NaN] when either side is. *)
Definition numSub (a b : option Z) : option Z :=
  match a, b with
  | Some x, Some y => Some (x - y)
  | _, _ => None
  end.

(** [v > 0], [v >= 0], [v < 0]: every comparison with [NaN] is false. *)
Definition numGt0 (v : option Z) : bool :=
  match v with Some n => 0 <? n | None => false end.

Definition numGe0 (v : option Z) : bool :=
  match v with Some n => 0 <=? n | None => false end.

Definition numLt0 (v : option Z) : bool :=
  match v with Some n => n <? 0 | None => false end.

(** *** Array.prototype.sort *)

(** [sort] is stable and orders [a] after [b] only when the comparator
    gives a positive number for [(a, b)].  On a comparator that is a
    consistent ordering every stable sort yields the same array; it is
    written here as an insertion from the right, each element being
    placed before the elements that followed it unless the comparator
    sends it after them.  When the comparator is not consistent (it
    returns [NaN] for a date that cannot be read) the order the engine
    produces is implementation-defined, and only the fact that the result
    is a permutation of the array carries over from this model; the
    properties about the order are stated for comparators that never
    return [NaN]. *)
Fixpoint sortInsert {A : Type} (cmp : A -> A -> option Z) (x : A) (l : list A)
  : list A :=
  match l with
  | [] => [x]
  | y :: l' => if numGt0 (cmp x y) then y :: sortInsert cmp x l' else x :: l
  end.

Definition sort {A : Type} (cmp : A -> A -> option Z) (l : list A) : list A :=
  fold_right (sortInsert cmp) [] l.

(** *** Promises *)

(** A thrown value: an [Error], by its message. *)
Definition Error := string.

(** The settled outcome of a promise. *)
Inductive Promise (A : Type) : Type :=
| Resolved (a : A)
| Rejected (e : Error).

Arguments Resolved {A} a.
Arguments Rejected {A} e.

End JS.

Export JS (Error, Promise, Resolved, Rejected).

(** ** Appointment identifiers *)

(** An [id] is a number (the database key) or a string (the mock data);
    [===] never identifies the two. *)
Inductive Id : Type :=
| IdNum (n : Z)
| IdStr (s : string).

Definition Id_eqb (a b : Id) : bool :=
  match a, b with
  | IdNum x, IdNum y => x =? y
  | IdStr x, IdStr y => String.eqb x y
  | _, _ => false
  end.

Definition Id_toString (i : Id) : string :=
  match i with
  | IdNum n => JS.numberToString n
  | IdStr s => s
  end.

(** [a || b] where [a] is a string field that may be missing. *)
Definition orElse (a : option string) (b : string) : string :=
  match a with
  | Some s => if JS.truthy s then s else b
  | None => b
  end.

(** ** appointmentService.js: the API client *)

Module Api.

(** An appointment as the backend sends it. *)
Record WireAppointment := {
  id : Id;
  patient_name : string;
  patient_initials : option string;
  appointment_date : string;
  appointment_time : string;
  duration : Z;
  doctor_name : string;
  status : string;
  mode : string;
  reason : option string;
  notes : option string;
  phone : option string;
  email : option string
}.

(** The parts of a JSON response body that the client reads. *)
Record Json := {
  appointments : option (list WireAppointment);
  appointment : option WireAppointment;
  detail : option string
}.

Record Request := {
  method : string;
  path : string;
  query : list (string * string);
  body : option (string * string)
}.

Record Response := {
  ok : bool;
  httpStatus : Z;
  json : Promise Json
}.

(** [fetch], over whatever stands behind it. *)
Class Transport (T : Type) := fetch : Request -> T -> Promise Response * T.

(** The client and what it has written with [console.error]. *)
Record Client (T : Type) := {
  transport : T;
  console : list (string * Error)
}.

Arguments transport {T} c.
Arguments console {T} c.

Definition API_BASE_URL : string := "http://localhost:8000/api".

(** The [catch] clause of every client function: log and rethrow. *)
Definition logAndRethrow {T A : Type} (label : string) (e : Error)
    (t : T) (log : list (string * Error)) : Promise A * Client T :=
  (Rejected e, {| transport := t; console := (log ++ [(label, e)])%list |}).

Definition httpError (r : Response) : Error :=
  "HTTP error! status: " ++ JS.numberToString (httpStatus r).

Definition getAppointments {T : Type} `{Transport T}
    (date status : option string) (c : Client T)
  : Promise (list WireAppointment) * Client T :=
  let params :=
    ((match date with
      | Some d => if JS.truthy d then [("date", d)] else []
      | None => []
      end) ++
     (match status with
      | Some s => if JS.truthy s then [("status", s)] else []
      | None => []
      end))%list in
  let request := {| method := "GET";
                    path := API_BASE_URL ++ "/appointments";
                    query := params;
                    body := None |} in
  let label := "Error fetching appointments:" in
  match fetch request (transport c) with
  | (Rejected e, t) => logAndRethrow label e t (console c)
  | (Resolved response, t) =>
      if negb (ok response) then
        logAndRethrow label (httpError response) t (console c)
      else
        match json response with
        | Rejected e => logAndRethrow label e t (console c)
        | Resolved data =>
            (Resolved (match appointments data with
                       | Some l => l
                       | None => []
                       end),
             {| transport := t; console := console c |})
        end
  end.

Definition updateAppointmentStatus {T : Type} `{Transport T}
    (appointmentId : Id) (newStatus : string) (c : Client T)
  : Promise (option WireAppointment) * Client T :=
  let request := {| method := "PUT";
                    path := API_BASE_URL ++ "/appointments/"
                            ++ Id_toString appointmentId ++ "/status";
                    query := [];
                    body := Some ("status", newStatus) |} in
  let label := "Error updating appointment status:" in
  match fetch request (transport c) with
  | (Rejected e, t) => logAndRethrow label e t (console c)
  | (Resolved response, t) =>
      if negb (ok response) then
        match json response with
        | Rejected e => logAndRethrow label e t (console c)
        | Resolved errorData =>
            logAndRethrow label
              (orElse (detail errorData) (httpError response)) t (console c)
        end
      else
        match json response with
        | Rejected e => logAndRethrow label e t (console c)
        | Resolved data =>
            (Resolved (appointment data),
             {| transport := t; console := console c |})
        end
  end.

(** [new Date(date1).getTime() - new Date(date2).getTime()]. *)
Definition compareDates (date1 date2 : string) : option Z :=
  JS.numSub (JS.parseDate date1) (JS.parseDate date2).

(** A stub [fetch] that plays back prepared outcomes, one per call, and
    fails like an unreachable network once they are used up. *)
Definition Script := list (Promise Response).

#[global] Instance Script_Transport : Transport Script :=
  fun _ script =>
    match script with
    | [] => (Rejected "Failed to fetch", [])
    | r :: rest => (r, rest)
    end.

End Api.

(** ** The service interface the view is written against *)

(** The view imports [getAppointments] and [updateAppointmentStatus] from
    a module; [S] is the state behind that module. *)
Class AppointmentService (S : Type) := {
  getAppointments :
    option string -> option string -> S ->
    Promise (list Api.WireAppointment) * S;
  updateAppointmentStatus :
    Id -> string -> S -> Promise (option Api.WireAppointment) * S
}.

#[export] Instance Api_Service (T : Type) `{Api.Transport T}
  : AppointmentService (Api.Client T) := {
  getAppointments := Api.getAppointments;
  updateAppointmentStatus := Api.updateAppointmentStatus
}.

(** ** appointmentServiceMock.js: the in-memory mock service *)

Module Mock.

Record Appointment := mkAppointment {
  id : Id;
  name : string;
  date : string;
  time : string;
  duration : Z;
  doctorName : string;
  status : string;
  mode : string
}.

(** The module-level array, with its initial contents. *)
Definition APPOINTMENTS : list Appointment := [
  mkAppointment (IdStr "apt001") "John Smith" "2025-12-10" "09:00" 30
                "Dr. Sarah Johnson" "Confirmed" "In-Person";
  mkAppointment (IdStr "apt002") "Emma Wilson" "2025-12-15" "10:30" 45
                "Dr. Michael Chen" "Scheduled" "Video";
  mkAppointment (IdStr "apt003") "Robert Brown" "2025-12-15" "14:00" 30
                "Dr. Sarah Johnson" "Confirmed" "In-Person";
  mkAppointment (IdStr "apt004") "Lisa Anderson" "2025-12-20" "11:00" 60
                "Dr. Emily White" "Upcoming" "Video";
  mkAppointment (IdStr "apt005") "James Taylor" "2025-12-08" "15:30" 30
                "Dr. Michael Chen" "Confirmed" "In-Person";
  mkAppointment (IdStr "apt006") "Maria Garcia" "2025-12-18" "09:30" 45
                "Dr. Sarah Johnson" "Upcoming" "Video";
  mkAppointment (IdStr "apt007") "David Martinez" "2025-12-05" "13:00" 30
                "Dr. Emily White" "Cancelled" "In-Person";
  mkAppointment (IdStr "apt008") "Jennifer Lee" "2025-12-22" "16:00" 30
                "Dr. Michael Chen" "Scheduled" "In-Person";
  mkAppointment (IdStr "apt009") "Christopher Davis" "2025-12-15" "11:30" 45
                "Dr. Emily White" "Confirmed" "Video";
  mkAppointment (IdStr "apt010") "Patricia Moore" "2025-12-03" "10:00" 60
                "Dr. Sarah Johnson" "Confirmed" "In-Person";
  mkAppointment (IdStr "apt011") "Michael Johnson" "2025-12-25" "14:30" 30
                "Dr. Michael Chen" "Upcoming" "Video";
  mkAppointment (IdStr "apt012") "Sarah Thompson" "2025-12-12" "08:30" 45
                "Dr. Emily White" "Cancelled" "In-Person"
].

Definition withStatus (apt : Appointment) (newStatus : string) : Appointment :=
  {| id := id apt; name := name apt; date := date apt; time := time apt;
     duration := duration apt; doctorName := doctorName apt;
     status := newStatus; mode := mode apt |}.

(** [getAppointments(date, status)]: the array filtered by the arguments
    that are given, as fresh copies; it never rejects. *)
Definition getAppointments (date status : option string)
    (store : list Appointment) : Promise (list Appointment) * list Appointment :=
  let result := store in
  let result :=
    match date with
    | Some d => filter (fun apt => String.eqb (Mock.date apt) d) result
    | None => result
    end in
  let result :=
    match status with
    | Some s =>
        filter (fun apt => String.eqb (JS.toLowerCase (Mock.status apt))
                                      (JS.toLowerCase s)) result
    | None => result
    end in
  (Resolved result, store).

(** [APPOINTMENTS.find(...)] followed by the assignment to the [status] of
    the object found: the first appointment with the given id is updated
    in place.  [None] when no appointment has that id. *)
Fixpoint findAndSetStatus (appointmentId : Id) (newStatus : string)
    (store : list Appointment) : option (Appointment * list Appointment) :=
  match store with
  | [] => None
  | apt :: rest =>
      if Id_eqb (id apt) appointmentId then
        Some (withStatus apt newStatus, withStatus apt newStatus :: rest)
      else
        match findAndSetStatus appointmentId newStatus rest with
        | Some (found, rest') => Some (found, apt :: rest')
        | None => None
        end
  end.

(** [updateAppointmentStatus(appointmentId, newStatus)]. *)
Definition updateAppointmentStatus (appointmentId : Id) (newStatus : string)
    (store : list Appointment) : Promise Appointment * list Appointment :=
  match findAndSetStatus appointmentId newStatus store with
  | None =>
      (Rejected ("Appointment with id '" ++ Id_toString appointmentId
                 ++ "' not found"), store)
  | Some (appointment, store') => (Resolved appointment, store')
  end.

(** The array after a sequence of [updateAppointmentStatus] calls. *)
Fixpoint afterUpdates (calls : list (Id * string)) (store : list Appointment)
  : list Appointment :=
  match calls with
  | [] => store
  | (appointmentId, newStatus) :: rest =>
      afterUpdates rest (snd (updateAppointmentStatus appointmentId newStatus store))
  end.

End Mock.

(** ** EMR_Frontend_Assignment.jsx: the appointment management view *)

(** An appointment as the view holds it. *)
Record Appointment := {
  id : Id;
  name : string;
  initials : string;
  date : string;
  time : string;
  duration : Z;
  doctorName : string;
  status : string;
  mode : string;
  reason : string;
  note : string;
  phone : string;
  email : string
}.

(** The sample appointments declared at the top of the view. *)
Definition sample1 : Appointment :=
  {| id := IdStr "apt001"; name := "Sarah Johnson"; initials := "SJ";
     date := "2025-12-15"; time := "09:00"; duration := 30;
     doctorName := "Dr. Michael Chen"; status := "Confirmed";
     mode := "In-Person"; reason := "Diabetes Management Review";
     note := "Patient needs prescription refill.";
     phone := "+1 (555) 123-4567"; email := "sarah.j@email.com" |}.

Definition sample2 : Appointment :=
  {| id := IdStr "apt002"; name := "Robert Brown"; initials := "RB";
     date := "2025-12-15"; time := "14:00"; duration := 45;
     doctorName := "Dr. Emily White"; status := "Confirmed";
     mode := "Video Call"; reason := "Follow-up Consultation";
     note := "Review lab results from previous visit.";
     phone := "+1 (555) 234-5678"; email := "rbrown@email.com" |}.

Definition sample3 : Appointment :=
  {| id := IdStr "apt003"; name := "Emma Wilson"; initials := "EW";
     date := "2025-12-18"; time := "10:30"; duration := 60;
     doctorName := "Dr. Michael Chen"; status := "Scheduled";
     mode := "In-Person"; reason := "Annual Physical Examination";
     note := "Fasting required before appointment.";
     phone := "+1 (555) 345-6789"; email := "emma.w@email.com" |}.

Definition sample4 : Appointment :=
  {| id := IdStr "apt004"; name := "James Taylor"; initials := "JT";
     date := "2025-12-10"; time := "15:30"; duration := 30;
     doctorName := "Dr. Sarah Johnson"; status := "Completed";
     mode := "Video Call"; reason := "Mental Health Check-in";
     note := "Patient doing well on current treatment plan.";
     phone := "+1 (555) 456-7890"; email := "jtaylor@email.com" |}.

Definition sample5 : Appointment :=
  {| id := IdStr "apt005"; name := "Lisa Anderson"; initials := "LA";
     date := "2025-12-08"; time := "11:00"; duration := 30;
     doctorName := "Dr. Emily White"; status := "Cancelled";
     mode := "In-Person"; reason := "Routine Check-up";
     note := "Patient requested to reschedule.";
     phone := "+1 (555) 567-8901"; email := "lisa.a@email.com" |}.

Definition MOCK_APPOINTMENTS : list Appointment :=
  [sample1; sample2; sample3; sample4; sample5].

(** [{ ...apt, status: newStatus }]. *)
Definition withStatus (apt : Appointment) (newStatus : string) : Appointment :=
  {| id := id apt; name := name apt; initials := initials apt;
     date := date apt; time := time apt; duration := duration apt;
     doctorName := doctorName apt; status := newStatus; mode := mode apt;
     reason := reason apt; note := note apt; phone := phone apt;
     email := email apt |}.

(** The mapping from the backend's shape to the view's, applied to every
    fetched appointment. *)
Definition transform (apt : Api.WireAppointment) : Appointment :=
  {| id := Api.id apt;
     name := Api.patient_name apt;
     initials :=
       orElse (Api.patient_initials apt)
              (JS.join (map JS.firstChar (JS.split " " (Api.patient_name apt))));
     date := Api.appointment_date apt;
     time := Api.appointment_time apt;
     duration := Api.duration apt;
     doctorName := Api.doctor_name apt;
     status := Api.status apt;
     mode := Api.mode apt;
     reason := orElse (Api.reason apt) "";
     note := orElse (Api.notes apt) "";
     phone := orElse (Api.phone apt) "";
     email := orElse (Api.email apt) "" |}.

(** The filter controls of the view. *)
Record FilterState := {
  selectedDate : option string;
  activeTab : string;
  searchQuery : string;
  statusFilter : string;
  doctorFilter : string;
  currentMonth : JS.Date
}.

(** The state the component is mounted with, [now] being the date of the
    mount. *)
Definition initialFilterState (now : JS.Date) : FilterState :=
  {| selectedDate := None;
     activeTab := "Upcoming";
     searchQuery := "";
     statusFilter := "All Status";
     doctorFilter := "All Doctors";
     currentMonth := now |}.

(** *** Statistics *)

Record Stats := {
  today : nat;
  confirmed : nat;
  upcoming : nat;
  virtual : nat
}.

Definition stats (appointments : list Appointment) (today : string) : Stats :=
  let todayAppts := filter (fun apt => String.eqb (date apt) today) appointments in
  let confirmed := filter (fun apt => String.eqb (status apt) "Confirmed") appointments in
  let upcoming :=
    filter (fun apt => JS.numGt0 (Api.compareDates (date apt) today)) appointments in
  let virtual := filter (fun apt => String.eqb (mode apt) "Video Call") appointments in
  {| today := List.length todayAppts;
     confirmed := List.length confirmed;
     upcoming := List.length upcoming;
     virtual := List.length virtual |}.

(** *** The visible list *)

(** The comparator handed to [sort]: [dateCompare !== 0] also holds of
    [NaN], which is then returned as it is. *)
Definition byDateThenTime (a b : Appointment) : option Z :=
  let dateCompare := Api.compareDates (date a) (date b) in
  match dateCompare with
  | Some 0 => Some (JS.localeCompare (time a) (time b))
  | _ => dateCompare
  end.

Definition filteredAppointments (appointments : list Appointment)
    (fs : FilterState) (today : string) : list Appointment :=
  let filtered := appointments in
  (* tab-based date filtering; the 'All' tab shows everything *)
  let filtered :=
    if String.eqb (activeTab fs) "Today" then
      filter (fun apt => String.eqb (date apt) today) filtered
    else if String.eqb (activeTab fs) "Upcoming" then
      filter (fun apt => JS.numGe0 (Api.compareDates (date apt) today)) filtered
    else if String.eqb (activeTab fs) "Past" then
      filter (fun apt => JS.numLt0 (Api.compareDates (date apt) today)) filtered
    else filtered in
  (* a specific date, if one is selected *)
  let filtered :=
    match selectedDate fs with
    | Some d =>
        if JS.truthy d then filter (fun apt => String.eqb (date apt) d) filtered
        else filtered
    | None => filtered
    end in
  (* search *)
  let filtered :=
    if JS.truthy (JS.trim (searchQuery fs)) then
      let query := JS.toLowerCase (searchQuery fs) in
      filter (fun apt =>
                JS.includes (JS.toLowerCase (name apt)) query
                || JS.includes (JS.toLowerCase (doctorName apt)) query
                || JS.includes (JS.toLowerCase (reason apt)) query) filtered
    else filtered in
  (* status *)
  let filtered :=
    if negb (String.eqb (statusFilter fs) "All Status") then
      filter (fun apt => String.eqb (status apt) (statusFilter fs)) filtered
    else filtered in
  (* doctor *)
  let filtered :=
    if negb (String.eqb (doctorFilter fs) "All Doctors") then
      filter (fun apt => String.eqb (doctorName apt) (doctorFilter fs)) filtered
    else filtered in
  JS.sort byDateThenTime filtered.

(** *** The calendar *)

(** An entry of the calendar grid; a blank slot is [None] ([null]).
    [dayAppointments] is the field the source calls [appointments]. *)
Record DayInfo := {
  day : Z;
  dateStr : string;
  hasAppointments : bool;
  dayAppointments : list Appointment
}.

Definition dayInfo (year month : Z) (appointments : list Appointment)
    (day : Z) : DayInfo :=
  let dateStr :=
    JS.numberToString year ++ "-"
    ++ JS.padStart (JS.numberToString (month + 1)) 2 "0" ++ "-"
    ++ JS.padStart (JS.numberToString day) 2 "0" in
  let hasAppointments :=
    existsb (fun apt => String.eqb (date apt) dateStr) appointments in
  let appointmentsForDay :=
    filter (fun apt => String.eqb (date apt) dateStr) appointments in
  {| day := day;
     dateStr := dateStr;
     hasAppointments := hasAppointments;
     dayAppointments := appointmentsForDay |}.

(** [for (let i = 0; i < n; i++) days.push(null)]. *)
Fixpoint pushBlanks (n : nat) (days : list (option DayInfo))
  : list (option DayInfo) :=
  match n with
  | O => days
  | S k => pushBlanks k (days ++ [None])%list
  end.

(** [for (let day = first; ...; day++) days.push({...})], [n] iterations
    being left. *)
Fixpoint pushDays (n : nat) (day : Z) (entry : Z -> DayInfo)
    (days : list (option DayInfo)) : list (option DayInfo) :=
  match n with
  | O => days
  | S k => pushDays k (day + 1) entry (days ++ [Some (entry day)])%list
  end.

Definition calendarDays (currentMonth : JS.Date)
    (appointments : list Appointment) : list (option DayInfo) :=
  let year := JS.getFullYear currentMonth in
  let month := JS.getMonth currentMonth in
  let firstDay := JS.newDate year month 1 in
  let lastDay := JS.newDate year (month + 1) 0 in
  let daysInMonth := JS.getDate lastDay in
  let startingDayOfWeek := JS.getDay firstDay in
  let days := [] in
  let days := pushBlanks (Z.to_nat startingDayOfWeek) days in
  pushDays (Z.to_nat daysInMonth) 1 (dayInfo year month appointments) days.

(** *** Handlers of the filter controls *)

Definition handleDateSelect (dateStr : string) (fs : FilterState) : FilterState :=
  let same :=
    match selectedDate fs with
    | Some d => String.eqb dateStr d
    | None => false
    end in
  {| selectedDate := if same then None else Some dateStr;
     activeTab := activeTab fs;
     searchQuery := searchQuery fs;
     statusFilter := statusFilter fs;
     doctorFilter := doctorFilter fs;
     currentMonth := currentMonth fs |}.

Definition handleTabChange (tab : string) (fs : FilterState) : FilterState :=
  {| selectedDate := None;
     activeTab := tab;
     searchQuery := searchQuery fs;
     statusFilter := statusFilter fs;
     doctorFilter := doctorFilter fs;
     currentMonth := currentMonth fs |}.

Definition changeMonth (offset : Z) (fs : FilterState) : FilterState :=
  let prev := currentMonth fs in
  {| selectedDate := selectedDate fs;
     activeTab := activeTab fs;
     searchQuery := searchQuery fs;
     statusFilter := statusFilter fs;
     doctorFilter := doctorFilter fs;
     currentMonth := JS.setMonth prev (JS.getMonth prev + offset) |}.

Definition setSearchQuery (q : string) (fs : FilterState) : FilterState :=
  {| selectedDate := selectedDate fs;
     activeTab := activeTab fs;
     searchQuery := q;
     statusFilter := statusFilter fs;
     doctorFilter := doctorFilter fs;
     currentMonth := currentMonth fs |}.

Definition setStatusFilter (s : string) (fs : FilterState) : FilterState :=
  {| selectedDate := selectedDate fs;
     activeTab := activeTab fs;
     searchQuery := searchQuery fs;
     statusFilter := s;
     doctorFilter := doctorFilter fs;
     currentMonth := currentMonth fs |}.

Definition setDoctorFilter (d : string) (fs : FilterState) : FilterState :=
  {| selectedDate := selectedDate fs;
     activeTab := activeTab fs;
     searchQuery := searchQuery fs;
     statusFilter := statusFilter fs;
     doctorFilter := d;
     currentMonth := currentMonth fs |}.

(** What the user can do to the filter controls: each event is wired to
    the handler of the same name. *)
Inductive Event : Type :=
| DateSelect (dateStr : string)
| TabChange (tab : string)
| MonthChange (offset : Z)
| SearchInput (q : string)
| StatusSelect (s : string)
| DoctorSelect (d : string).

Definition handle (e : Event) (fs : FilterState) : FilterState :=
  match e with
  | DateSelect dateStr => handleDateSelect dateStr fs
  | TabChange tab => handleTabChange tab fs
  | MonthChange offset => changeMonth offset fs
  | SearchInput q => setSearchQuery q fs
  | StatusSelect s => setStatusFilter s fs
  | DoctorSelect d => setDoctorFilter d fs
  end.

(** The filter state after a sequence of events, the earliest first. *)
Definition handleAll (events : list Event) (fs : FilterState) : FilterState :=
  fold_left (fun s e => handle e s) events fs.

(** *** Status updates *)

(** What [handleStatusUpdate] reads and writes: the appointments held by
    the component, the service module behind it, the alerts shown to the
    user and the messages written with [console.error]. *)
Record World (S : Type) := {
  appointments : list Appointment;
  service : S;
  alerts : list string;
  consoleErrors : list (string * Error)
}.

Arguments appointments {S} w.
Arguments service {S} w.
Arguments alerts {S} w.
Arguments consoleErrors {S} w.

(** The optimistic update: the status of every appointment with the given
    id is replaced. *)
Definition applyStatus (appointmentId : Id) (newStatus : string)
    (prev : list Appointment) : list Appointment :=
  map (fun apt => if Id_eqb (id apt) appointmentId
                  then withStatus apt newStatus
                  else apt) prev.

Definition handleStatusUpdate {S : Type} `{AppointmentService S}
    (appointmentId : Id) (newStatus : string) (w : World S)
  : Promise unit * World S :=
  (* optimistic update *)
  let local := applyStatus appointmentId newStatus (appointments w) in
  match updateAppointmentStatus appointmentId newStatus (service w) with
  | (Resolved _, s1) =>
      (Resolved tt,
       {| appointments := local; service := s1;
          alerts := alerts w; consoleErrors := consoleErrors w |})
  | (Rejected err, s1) =>
      let logged :=
        (consoleErrors w ++ [("Failed to update appointment:", err)])%list in
      (* revert on error *)
      match getAppointments None None s1 with
      | (Rejected fetchErr, s2) =>
          (Rejected fetchErr,
           {| appointments := local; service := s2;
              alerts := alerts w; consoleErrors := logged |})
      | (Resolved data, s2) =>
          (Resolved tt,
           {| appointments := map transform data; service := s2;
              alerts := (alerts w ++ ["Failed to update appointment status"])%list;
              consoleErrors := logged |})
      end
  end.

(** ** Notions used to state the properties *)

(** [q] occurs in [s]. *)
Definition isSubstring (q s : string) : Prop :=
  exists pre post, s = pre ++ q ++ post.

(** [q] occurs in [s] when the case of letters is disregarded. *)
Definition matchesIgnoringCase (q s : string) : Prop :=
  isSubstring (JS.toLowerCase q) (JS.toLowerCase s).

(** The calendar day a date string denotes, as a day number. *)
Definition dayOf (d : string) : option Z :=
  match JS.parseDate d with
  | Some t => Some (t / JS.msPerDay)
  | None => None
  end.

(** [d1] is the day [d2] or a later one; [d1] is an earlier day than [d2];
    [d1] is a later day than [d2]. *)
Definition onOrAfter (d1 d2 : string) : Prop :=
  exists n1 n2, dayOf d1 = Some n1 /\ dayOf d2 = Some n2 /\ n2 <= n1.

Definition before (d1 d2 : string) : Prop :=
  exists n1 n2, dayOf d1 = Some n1 /\ dayOf d2 = Some n2 /\ n1 < n2.

Definition after (d1 d2 : string) : Prop :=
  exists n1 n2, dayOf d1 = Some n1 /\ dayOf d2 = Some n2 /\ n2 < n1.

(** The number of elements of [l] that satisfy [p]. *)
Fixpoint countWhere {A : Type} (p : A -> bool) (l : list A) : nat :=
  match l with
  | [] => O
  | x :: l' => if p x then S (countWhere p l') else countWhere p l'
  end.

(** The four statuses of the status enumeration. *)
Definition statusEnum : list string :=
  ["Scheduled"; "Confirmed"; "Completed"; "Cancelled"].

(** A zero-padded time of day [HH:MM]. *)
Definition isTimeOfDay (s : string) : Prop :=
  exists h1 h2 m1 m2 : ascii,
    s = String h1 (String h2 (String ":" (String m1 (String m2 EmptyString))))
    /\ (exists a b c d,
          JS.digitValue h1 = Some a /\ JS.digitValue h2 = Some b /\
          JS.digitValue m1 = Some c /\ JS.digitValue m2 = Some d /\
          10 * a + b <= 23 /\ 10 * c + d <= 59).

(** Minutes since midnight of a time [H:MM] or [HH:MM]; [None] if the
    string is not of that form. *)
Definition minutesOf (s : string) : option Z :=
  match JS.split ":" s with
  | [h; m] =>
      match JS.digitsValue 0 h, JS.digitsValue 0 m with
      | Some hv, Some mv =>
          if negb (String.eqb h "") && (String.length m =? 2)%nat
             && (hv <=? 23) && (mv <=? 59)
          then Some (60 * hv + mv) else None
      | _, _ => None
      end
  | _ => None
  end.

(** The decimal digit [n] as a character. *)
Definition digitChar (n : Z) : ascii := ascii_of_N (48 + Z.to_N (n mod 10)).

(** A number below 10000 in four decimal digits, and a number below 100
    in two. *)
Definition decimal4 (n : Z) : string :=
  String (digitChar (n / 1000)) (String (digitChar (n / 100))
  (String (digitChar (n / 10)) (String (digitChar n) EmptyString))).

Definition decimal2 (n : Z) : string :=
  String (digitChar (n / 10)) (String (digitChar n) EmptyString).

(** The ISO 8601 form [YYYY-MM-DD] of a civil date, [month] counted from
    1. *)
Definition isoDate (year month day : Z) : string :=
  decimal4 year ++ "-" ++ decimal2 month ++ "-" ++ decimal2 day.

(** The integers [first], [first + 1], ..., [n] of them. *)
Fixpoint zrange (first : Z) (n : nat) : list Z :=
  match n with
  | O => []
  | S k => first :: zrange (first + 1) k
  end.

(** The order the visible list is meant to have: by calendar day, then
    by minutes since midnight. *)
Definition dateThenMinutesLe (a b : Appointment) : Prop :=
  exists da db,
    dayOf (date a) = Some da /\ dayOf (date b) = Some db /\
    (da < db \/
     (da = db /\ exists ma mb,
        minutesOf (time a) = Some ma /\ minutesOf (time b) = Some mb /\
        ma <= mb)).

(** An appointment with the given id, date and time and nothing else of
    note, for examples. *)
Definition fixture (n : Z) (date time : string) : Appointment :=
  {| id := IdNum n; name := "Patient"; initials := "P";
     date := date; time := time; duration := 30;
     doctorName := "Dr. Who"; status := "Scheduled"; mode := "In-Person";
     reason := ""; note := ""; phone := ""; email := "" |}.

(** Decidable forms of [onOrAfter] and [after]. *)
Definition onOrAfterb (d1 d2 : string) : bool :=
  match dayOf d1, dayOf d2 with
  | Some n1, Some n2 => n2 <=? n1
  | _, _ => false
  end.

Definition afterb (d1 d2 : string) : bool :=
  match dayOf d1, dayOf d2 with
  | Some n1, Some n2 => n2 <? n1
  | _, _ => false
  end.

(** An appointment as the backend would send it, for examples. *)
Definition wireFixture (n : Z) (date time status : string)
  : Api.WireAppointment :=
  {| Api.id := IdNum n; Api.patient_name := "Sarah Johnson";
     Api.patient_initials := None;
     Api.appointment_date := date; Api.appointment_time := time;
     Api.duration := 30; Api.doctor_name := "Dr. Michael Chen";
     Api.status := status; Api.mode := "In-Person";
     Api.reason := None; Api.notes := None;
     Api.phone := None; Api.email := None |}.

(** Response bodies and responses, for examples. *)
Definition listBody (l : list Api.WireAppointment) : Api.Json :=
  {| Api.appointments := Some l; Api.appointment := None; Api.detail := None |}.

Definition itemBody (apt : Api.WireAppointment) : Api.Json :=
  {| Api.appointments := None; Api.appointment := Some apt; Api.detail := None |}.

Definition detailBody (msg : string) : Api.Json :=
  {| Api.appointments := None; Api.appointment := None; Api.detail := Some msg |}.

Definition respond (code : Z) (b : Api.Json) : Promise Api.Response :=
  Resolved {| Api.ok := (200 <=? code) && (code <=? 299);
              Api.httpStatus := code;
              Api.json := Resolved b |}.

(** A world over the API client with a stub [fetch]. *)
Definition stubWorld (local : list Appointment) (script : Api.Script)
  : World (Api.Client Api.Script) :=
  {| appointments := local;
     service := {| Api.transport := script; Api.console := [] |};
     alerts := [];
     consoleErrors := [] |}.

(** The alert shown when a status update fails. *)
Definition updateFailedAlert : string := "Failed to update appointment status".

(** What [fetch] gives when the network is unreachable. *)
Definition networkDown : Promise Api.Response := Rejected "Failed to fetch".

(** The statuses found in the initial contents of the mock's array. *)
Definition seedStatuses : list string :=
  ["Confirmed"; "Scheduled"; "Upcoming"; "Cancelled"].


(* ===================================================================== *)
(** * Part I, continued: the rest of the code *)
(* ===================================================================== *)

(** ** More JavaScript built-ins *)

Module JSMore.

(** The comparator of [sort()] without an argument: strings are ordered by
    their code units. *)
Definition defaultCompare (a b : string) : option Z :=
  match String.compare a b with
  | Lt => Some (-1)
  | Eq => Some 0
  | Gt => Some 1
  end.

(** [[...new Set(l)]]: the elements of [l] in the order of their first
    occurrence, [seen] being those met so far. *)
Fixpoint newSet (seen l : list string) : list string :=
  match l with
  | [] => []
  | x :: l' =>
      if existsb (String.eqb x) seen then newSet seen l'
      else x :: newSet (x :: seen) l'
  end.

(** The value of a hexadecimal digit. *)
Definition hexDigitValue (c : ascii) : option Z :=
  let n := N_of_ascii c in
  if ((48 <=? n) && (n <=? 57))%N then Some (Z.of_N n - 48)
  else if ((97 <=? n) && (n <=? 102))%N then Some (Z.of_N n - 87)
  else if ((65 <=? n) && (n <=? 70))%N then Some (Z.of_N n - 55)
  else None.

(** The value of the longest prefix of [s] made of digits of the radix;
    [None] when that prefix is empty. *)
Fixpoint digitsPrefix (radix : Z) (digit : ascii -> option Z)
    (acc : option Z) (s : string) : option Z :=
  match s with
  | EmptyString => acc
  | String c s' =>
      match digit c with
      | Some v =>
          digitsPrefix radix digit
            (Some (radix * match acc with Some a => a | None => 0 end + v)) s'
      | None => acc
      end
  end.

(** [parseInt(s)]: leading white space is skipped, a sign is read, a
    prefix [0x] or [0X] selects radix 16, and the longest run of digits is
    the result; [NaN] when there is no digit.  (Values beyond 2^53, which
    JavaScript rounds, do not arise from times of day.) *)
Definition parseInt (s : string) : option Z :=
  let s := JS.trimStart s in
  let (sign, s) :=
    match s with
    | String "-" s' => (-1, s')
    | String "+" s' => (1, s')
    | _ => (1, s)
    end in
  let magnitude :=
    match s with
    | String "0" (String "x" s') => digitsPrefix 16 hexDigitValue None s'
    | String "0" (String "X" s') => digitsPrefix 16 hexDigitValue None s'
    | _ => digitsPrefix 10 JS.digitValue None s
    end in
  match magnitude with
  | Some m => Some (sign * m)
  | None => None
  end.

(** [a % b] keeps the sign of [a]. *)
Definition remainder (a b : Z) : Z := Z.rem a b.

End JSMore.

(** ** appointmentService.js, continued *)

Module ApiMore.

(** [deleteAppointment(appointmentId)]: the body of the answer is returned
    as it is. *)
Definition deleteAppointment {T : Type} `{Api.Transport T}
    (appointmentId : Id) (c : Api.Client T)
  : Promise Api.Json * Api.Client T :=
  let request := {| Api.method := "DELETE";
                    Api.path := Api.API_BASE_URL ++ "/appointments/"
                                ++ Id_toString appointmentId;
                    Api.query := [];
                    Api.body := None |} in
  let label := "Error deleting appointment:" in
  match Api.fetch request (Api.transport c) with
  | (Rejected e, t) => Api.logAndRethrow label e t (Api.console c)
  | (Resolved response, t) =>
      if negb (Api.ok response) then
        match Api.json response with
        | Rejected e => Api.logAndRethrow label e t (Api.console c)
        | Resolved errorData =>
            Api.logAndRethrow label
              (orElse (Api.detail errorData) (Api.httpError response))
              t (Api.console c)
        end
      else
        match Api.json response with
        | Rejected e => Api.logAndRethrow label e t (Api.console c)
        | Resolved data =>
            (Resolved data,
             {| Api.transport := t; Api.console := Api.console c |})
        end
  end.

(** The request [getAppointments] sends for the given filters. *)
Definition listRequest (date status : option string) : Api.Request :=
  {| Api.method := "GET";
     Api.path := Api.API_BASE_URL ++ "/appointments";
     Api.query :=
       ((match date with
         | Some d => if JS.truthy d then [("date", d)] else []
         | None => []
         end) ++
        (match status with
         | Some s => if JS.truthy s then [("status", s)] else []
         | None => []
         end))%list;
     Api.body := None |}.

End ApiMore.

(** ** appointmentServiceMock.js, continued *)

Module MockMore.

(** [compareDates(date1, date2)] of the mock: [d1 < d2] and [d1 > d2] are
    both false when a date is invalid, which leaves 0. *)
Definition compareDates (date1 date2 : string) : Z :=
  let d1 := JS.parseDate date1 in
  let d2 := JS.parseDate date2 in
  let lt (a b : option Z) :=
    match a, b with
    | Some x, Some y => x <? y
    | _, _ => false
    end in
  if lt d1 d2 then -1
  else if lt d2 d1 then 1
  else 0.

End MockMore.

(** ** The view, continued *)

(** The doctors offered by the doctor filter. *)
Definition uniqueDoctors (appointments : list Appointment) : list string :=
  JS.sort JSMore.defaultCompare (JSMore.newSet [] (map doctorName appointments)).

(** [formatTime(time24)], of the view and of the day calendar alike.  A
    missing second part of the split is [undefined], printed as such. *)
Definition formatTime (time24 : string) : string :=
  let parts := JS.split ":" time24 in
  let hours := match parts with h :: _ => h | [] => "undefined" end in
  let minutes := match parts with _ :: m :: _ => m | _ => "undefined" end in
  let hour := JSMore.parseInt hours in
  let ampm :=
    match hour with
    | Some h => if 12 <=? h then "PM" else "AM"
    | None => "AM"
    end in
  let hour12 :=
    match hour with
    | Some h => if JSMore.remainder h 12 =? 0 then 12 else JSMore.remainder h 12
    | None => 12
    end in
  JS.numberToString hour12 ++ ":" ++ minutes ++ " " ++ ampm.

(** The component around the appointments: what is loaded, whether the
    loading screen is up, and the message of the error screen if any. *)
Record Screen (S : Type) := {
  world : World S;
  isLoading : bool;
  error : option string
}.

Arguments world {S} s.
Arguments isLoading {S} s.
Arguments error {S} s.

Definition loadFailedMessage : string :=
  "Failed to load appointments. Please check if the backend server is running.".

(** [fetchData], run when the component is mounted. *)
Definition fetchData {S : Type} `{AppointmentService S} (scr : Screen S)
  : Screen S :=
  let w := world scr in
  match getAppointments None None (service w) with
  | (Resolved data, s1) =>
      {| world := {| appointments := map transform data; service := s1;
                     alerts := alerts w; consoleErrors := consoleErrors w |};
         isLoading := false;
         error := None |}
  | (Rejected err, s1) =>
      {| world := {| appointments := appointments w; service := s1;
                     alerts := alerts w;
                     consoleErrors :=
                       (consoleErrors w
                        ++ [("Failed to fetch appointments:", err)])%list |};
         isLoading := false;
         error := Some loadFailedMessage |}
  end.

(** ** Further notions used to state the properties *)

(** The filter state with one tab, no selected date and every other
    filter off. *)
Definition onlyTab (tab : string) (month : JS.Date) : FilterState :=
  {| selectedDate := None;
     activeTab := tab;
     searchQuery := "";
     statusFilter := "All Status";
     doctorFilter := "All Doctors";
     currentMonth := month |}.

(** The characters of a string. *)
Fixpoint chars (s : string) : list ascii :=
  match s with
  | EmptyString => []
  | String c s' => c :: chars s'
  end.

(** Everything of a mock appointment but its status. *)
Definition withoutStatus (apt : Mock.Appointment) : Mock.Appointment :=
  Mock.withStatus apt "".

(** The position of a month on the time line, in months. *)
Definition monthIndex (d : JS.Date) : Z :=
  12 * JS.getFullYear d + JS.getMonth d.

(** Whether an appointment passes every active filter. *)
Definition visible (fs : FilterState) (today : string) (apt : Appointment)
  : bool :=
  (if String.eqb (activeTab fs) "Today" then String.eqb (date apt) today
   else if String.eqb (activeTab fs) "Upcoming"
   then JS.numGe0 (Api.compareDates (date apt) today)
   else if String.eqb (activeTab fs) "Past"
   then JS.numLt0 (Api.compareDates (date apt) today)
   else true)
  && match selectedDate fs with
     | Some d => if JS.truthy d then String.eqb (date apt) d else true
     | None => true
     end
  && (if JS.truthy (JS.trim (searchQuery fs))
      then JS.includes (JS.toLowerCase (name apt)) (JS.toLowerCase (searchQuery fs))
           || JS.includes (JS.toLowerCase (doctorName apt))
                          (JS.toLowerCase (searchQuery fs))
           || JS.includes (JS.toLowerCase (reason apt))
                          (JS.toLowerCase (searchQuery fs))
      else true)
  && (if String.eqb (statusFilter fs) "All Status" then true
      else String.eqb (status apt) (statusFilter fs))
  && (if String.eqb (doctorFilter fs) "All Doctors" then true
      else String.eqb (doctorName apt) (doctorFilter fs)).

(** Whether an appointment has the given date and time. *)
Definition sameSlot (d t : string) (apt : Appointment) : bool :=
  String.eqb (date apt) d && String.eqb (time apt) t.

(** The day entries of a calendar grid, the blank slots left out. *)
Definition dayEntries (days : list (option DayInfo)) : list DayInfo :=
  flat_map (fun slot => match slot with Some e => [e] | None => [] end) days.

(** The mock's array after one [updateAppointmentStatus] call. *)
Definition storeAfter (appointmentId : Id) (newStatus : string)
    (store : list Mock.Appointment) : list Mock.Appointment :=
  snd (Mock.updateAppointmentStatus appointmentId newStatus store).

(** The message of the mock's rejection for an unknown id. *)
Definition notFoundMessage (appointmentId : Id) : Error :=
  "Appointment with id '" ++ Id_toString appointmentId ++ "' not found".

(** The arguments of the events of one kind, in order. *)
Definition tabChanges (events : list Event) : list string :=
  flat_map (fun e => match e with TabChange tab => [tab] | _ => [] end) events.

Definition searchInputs (events : list Event) : list string :=
  flat_map (fun e => match e with SearchInput q => [q] | _ => [] end) events.

Definition statusSelections (events : list Event) : list string :=
  flat_map (fun e => match e with StatusSelect s => [s] | _ => [] end) events.

Definition doctorSelections (events : list Event) : list string :=
  flat_map (fun e => match e with DoctorSelect d => [d] | _ => [] end) events.
(* ===================================================================== *)
(** * Part II: properties *)
(* ===================================================================== *)

(** ** Strings *)

Lemma prefix_append (q s : string) :
  String.prefix q s = true <-> exists post, s = q ++ post.
Proof.
  revert s. induction q as [|c q IH]; intros s; simpl.
  - split; [exists s; reflexivity | destruct s; reflexivity].
  - destruct s as [|c' s].
    + split; [discriminate | intros [post H]; discriminate].
    + simpl. destruct (ascii_dec c c') as [->|Hne].
      * rewrite IH. split; intros [post H]; exists post.
        -- now rewrite H.
        -- now injection H.
      * split; [discriminate | intros [post H]; injection H; congruence].
Qed.

Lemma includes_isSubstring (s q : string) :
  JS.includes s q = true <-> isSubstring q s.
Proof.
  unfold isSubstring. induction s as [|c s IH].
  - cbn [JS.includes]. rewrite orb_false_r, prefix_append. split.
    + intros [post H]. now exists EmptyString, post.
    + intros [pre [post H]]. destruct pre; [now exists post | discriminate].
  - cbn [JS.includes]. rewrite orb_true_iff, prefix_append, IH. split.
    + intros [[post H] | [pre [post H]]].
      * now exists EmptyString, post.
      * exists (String c pre), post. simpl. now rewrite H.
    + intros [pre [post H]]. destruct pre as [|c' pre].
      * left. now exists post.
      * right. exists pre, post. simpl in H. now injection H.
Qed.

Lemma truthy_nonempty (s : string) : JS.truthy s = true <-> s <> "".
Proof. destruct s; simpl; split; congruence. Qed.

(** ** Sorting *)

Lemma sortInsert_perm {A : Type} (cmp : A -> A -> option Z) (x : A) (l : list A) :
  Permutation (x :: l) (JS.sortInsert cmp x l).
Proof.
  induction l as [|y l IH]; simpl.
  - apply Permutation_refl.
  - destruct (JS.numGt0 (cmp x y)).
    + eapply perm_trans; [apply perm_swap | now apply perm_skip].
    + apply Permutation_refl.
Qed.

Lemma sort_perm {A : Type} (cmp : A -> A -> option Z) (l : list A) :
  Permutation l (JS.sort cmp l).
Proof.
  induction l as [|x l IH]; simpl.
  - apply perm_nil.
  - eapply perm_trans; [apply perm_skip, IH | apply sortInsert_perm].
Qed.

Lemma sort_In {A : Type} (cmp : A -> A -> option Z) (l : list A) (x : A) :
  In x (JS.sort cmp l) <-> In x l.
Proof.
  split; apply Permutation_in;
    [apply Permutation_sym|]; apply sort_perm.
Qed.

(** [sortInsert] keeps a list sorted for any relation that the comparator
    decides between the pairs it is asked about. *)
Lemma sortInsert_sorted {A : Type} (cmp : A -> A -> option Z)
    (le : A -> A -> Prop) (x : A) (l : list A) :
  (forall y, In y l ->
     if JS.numGt0 (cmp x y) then le y x else le x y) ->
  Sorted le l -> Sorted le (JS.sortInsert cmp x l).
Proof.
  intros Hcmp Hs. induction Hs as [|y l Hs IH Hhd]; simpl.
  - repeat constructor.
  - pose proof (Hcmp y (or_introl eq_refl)) as Hy.
    destruct (JS.numGt0 (cmp x y)) eqn:E.
    + constructor.
      * apply IH. intros z Hz. apply Hcmp. now right.
      * destruct l as [|z l]; simpl.
        -- now constructor.
        -- destruct (JS.numGt0 (cmp x z)); constructor; trivial.
           now inversion Hhd.
    + constructor; [now constructor | now constructor].
Qed.

Lemma sort_sorted {A : Type} (cmp : A -> A -> option Z)
    (le : A -> A -> Prop) (l : list A) :
  (forall x y, In x l -> In y l ->
     if JS.numGt0 (cmp x y) then le y x else le x y) ->
  Sorted le (JS.sort cmp l).
Proof.
  induction l as [|x l IH]; intros Hcmp; simpl.
  - constructor.
  - apply sortInsert_sorted.
    + intros y Hy. apply Hcmp; [now left | right].
      now apply (sort_In cmp l y).
    + apply IH. intros a b Ha Hb. apply Hcmp; now right.
Qed.

(** ** Dates *)

Lemma parseDate_multiple (d : string) (t : Z) :
  JS.parseDate d = Some t -> exists n, t = n * JS.msPerDay.
Proof.
  unfold JS.parseDate. intros H.
  destruct (_ && _); [|discriminate].
  destruct (JS.digitsValue 0 (substring 0 4 d)) as [y|]; [|discriminate].
  destruct (JS.digitsValue 0 (substring 5 2 d)) as [m|]; [|discriminate].
  destruct (JS.digitsValue 0 (substring 8 2 d)) as [dd|]; [|discriminate].
  destruct (_ && _); [|discriminate].
  injection H as <-. now eexists.
Qed.

Lemma dayOf_parseDate (d : string) (t : Z) :
  JS.parseDate d = Some t ->
  exists n, dayOf d = Some n /\ t = n * JS.msPerDay.
Proof.
  intros H. destruct (parseDate_multiple d t H) as [n ->].
  exists n. split; [|reflexivity].
  unfold dayOf. rewrite H. f_equal. now apply Z.div_mul.
Qed.

(** The sign of [compareDates] is the order of the calendar days. *)
Lemma compareDates_ge0 (d1 d2 : string) :
  JS.numGe0 (Api.compareDates d1 d2) = true <-> onOrAfter d1 d2.
Proof.
  unfold Api.compareDates, onOrAfter. split.
  - destruct (JS.parseDate d1) as [t1|] eqn:E1; [|discriminate].
    destruct (JS.parseDate d2) as [t2|] eqn:E2; [|discriminate].
    destruct (dayOf_parseDate _ _ E1) as [n1 [H1 ->]].
    destruct (dayOf_parseDate _ _ E2) as [n2 [H2 ->]].
    simpl. intros H. exists n1, n2. repeat split; trivial.
    apply Z.leb_le in H. unfold JS.msPerDay in H. lia.
  - intros [n1 [n2 [H1 [H2 Hle]]]]. unfold dayOf in H1, H2.
    destruct (JS.parseDate d1) as [t1|] eqn:E1; [|discriminate].
    destruct (JS.parseDate d2) as [t2|] eqn:E2; [|discriminate].
    destruct (parseDate_multiple _ _ E1) as [k1 ->].
    destruct (parseDate_multiple _ _ E2) as [k2 ->].
    rewrite Z.div_mul in H1, H2 by discriminate.
    injection H1 as ->. injection H2 as ->.
    simpl. apply Z.leb_le. unfold JS.msPerDay. lia.
Qed.

Lemma compareDates_lt0 (d1 d2 : string) :
  JS.numLt0 (Api.compareDates d1 d2) = true <-> before d1 d2.
Proof.
  unfold Api.compareDates, before. split.
  - destruct (JS.parseDate d1) as [t1|] eqn:E1; [|discriminate].
    destruct (JS.parseDate d2) as [t2|] eqn:E2; [|discriminate].
    destruct (dayOf_parseDate _ _ E1) as [n1 [H1 ->]].
    destruct (dayOf_parseDate _ _ E2) as [n2 [H2 ->]].
    simpl. intros H. exists n1, n2. repeat split; trivial.
    apply Z.ltb_lt in H. unfold JS.msPerDay in H. lia.
  - intros [n1 [n2 [H1 [H2 Hle]]]]. unfold dayOf in H1, H2.
    destruct (JS.parseDate d1) as [t1|] eqn:E1; [|discriminate].
    destruct (JS.parseDate d2) as [t2|] eqn:E2; [|discriminate].
    destruct (parseDate_multiple _ _ E1) as [k1 ->].
    destruct (parseDate_multiple _ _ E2) as [k2 ->].
    rewrite Z.div_mul in H1, H2 by discriminate.
    injection H1 as ->. injection H2 as ->.
    simpl. apply Z.ltb_lt. unfold JS.msPerDay. lia.
Qed.

Lemma compareDates_gt0 (d1 d2 : string) :
  JS.numGt0 (Api.compareDates d1 d2) = true <-> after d1 d2.
Proof.
  unfold Api.compareDates, after. split.
  - destruct (JS.parseDate d1) as [t1|] eqn:E1; [|discriminate].
    destruct (JS.parseDate d2) as [t2|] eqn:E2; [|discriminate].
    destruct (dayOf_parseDate _ _ E1) as [n1 [H1 ->]].
    destruct (dayOf_parseDate _ _ E2) as [n2 [H2 ->]].
    simpl. intros H. exists n1, n2. repeat split; trivial.
    apply Z.ltb_lt in H. unfold JS.msPerDay in H. lia.
  - intros [n1 [n2 [H1 [H2 Hle]]]]. unfold dayOf in H1, H2.
    destruct (JS.parseDate d1) as [t1|] eqn:E1; [|discriminate].
    destruct (JS.parseDate d2) as [t2|] eqn:E2; [|discriminate].
    destruct (parseDate_multiple _ _ E1) as [k1 ->].
    destruct (parseDate_multiple _ _ E2) as [k2 ->].
    rewrite Z.div_mul in H1, H2 by discriminate.
    injection H1 as ->. injection H2 as ->.
    simpl. apply Z.ltb_lt. unfold JS.msPerDay. lia.
Qed.

(** ** The visible list *)

(** One stage of the filter pipeline: a filter applied under a condition. *)
Lemma In_filter_if {A : Type} (c : bool) (p : A -> bool) (l : list A) (x : A) :
  In x (if c then filter p l else l) ->
  In x l /\ (c = true -> p x = true).
Proof.
  destruct c; intros H.
  - apply filter_In in H. tauto.
  - split; [assumption | discriminate].
Qed.

Lemma In_filter_when {A : Type} (c : bool) (p : A -> bool) (l : list A) (x : A) :
  In x (if c then filter p l else l) -> In x l.
Proof. intros H. now apply In_filter_if in H. Qed.

(** Nothing enters the visible list that is not in the collection. *)
Lemma filteredAppointments_subset
    (appointments : list Appointment) (fs : FilterState) (today : string)
    (apt : Appointment) :
  In apt (filteredAppointments appointments fs today) -> In apt appointments.
Proof.
  unfold filteredAppointments. intros H.
  apply sort_In in H.
  do 3 apply In_filter_when in H.
  assert (H' : In apt
    (if (activeTab fs =? "Today")%string
     then filter (fun apt => (date apt =? today)%string) appointments
     else if (activeTab fs =? "Upcoming")%string
     then filter (fun apt => JS.numGe0 (Api.compareDates (date apt) today))
            appointments
     else if (activeTab fs =? "Past")%string
     then filter (fun apt => JS.numLt0 (Api.compareDates (date apt) today))
            appointments
     else appointments)).
  { destruct (selectedDate fs) as [d|]; [|exact H].
    now apply In_filter_when in H. }
  destruct (_ =? "Today")%string; [now apply filter_In in H'|].
  destruct (_ =? "Upcoming")%string; [now apply filter_In in H'|].
  destruct (_ =? "Past")%string; [now apply filter_In in H'|assumption].
Qed.

(** A query that occurs in a string, case disregarded, still does once
    trimmed. *)
Lemma toLowerCase_append (a b : string) :
  JS.toLowerCase (a ++ b) = JS.toLowerCase a ++ JS.toLowerCase b.
Proof. induction a as [|c a IH]; simpl; [reflexivity | now rewrite IH]. Qed.

Lemma append_assoc (a b c : string) : (a ++ b) ++ c = a ++ (b ++ c).
Proof. induction a as [|x a IH]; simpl; [reflexivity | now rewrite IH]. Qed.

Lemma append_empty_r (a : string) : a ++ "" = a.
Proof. induction a as [|x a IH]; simpl; [reflexivity | now rewrite IH]. Qed.

Lemma trimStart_suffix (s : string) : exists ws, s = ws ++ JS.trimStart s.
Proof.
  induction s as [|c s [ws IH]]; simpl.
  - now exists "".
  - destruct (JS.isWhiteSpace c).
    + exists (String c ws). simpl. now rewrite <- IH.
    + now exists "".
Qed.

Lemma trimEnd_prefix (s : string) : exists ws, s = JS.trimEnd s ++ ws.
Proof.
  induction s as [|c s [ws IH]]; simpl.
  - now exists "".
  - destruct (JS.trimEnd s) as [|c' r] eqn:E.
    + destruct (JS.isWhiteSpace c).
      * exists (String c s). reflexivity.
      * exists ws. simpl. now rewrite IH.
    + exists ws. simpl. now rewrite IH.
Qed.

Lemma trim_isSubstring (s : string) : isSubstring (JS.trim s) s.
Proof.
  unfold isSubstring, JS.trim.
  destruct (trimStart_suffix s) as [pre Hpre].
  destruct (trimEnd_prefix (JS.trimStart s)) as [post Hpost].
  exists pre, post. now rewrite <- Hpost.
Qed.

Lemma matchesIgnoringCase_trim (q s : string) :
  matchesIgnoringCase q s -> matchesIgnoringCase (JS.trim q) s.
Proof.
  unfold matchesIgnoringCase. intros [pre [post H]].
  destruct (trim_isSubstring q) as [a [b Hq]].
  rewrite Hq, !toLowerCase_append in H.
  exists (pre ++ JS.toLowerCase a), (JS.toLowerCase b ++ post).
  rewrite H. now rewrite !append_assoc.
Qed.

(** C1. For a valid today and a collection whose dates are valid, every
    appointment of the visible list is an appointment of the collection
    and satisfies every active filter at once: the tab (Today: the date is
    today; Upcoming: the date is today or later; Past: the date is before
    today; any other tab constrains nothing), the selected date when one
    is set, the search query when it is not blank (it occurs, case
    disregarded, in the patient name, the doctor name or the reason), the
    status filter unless it is 'All Status' and the doctor filter unless
    it is 'All Doctors'. *)
Theorem filteredAppointments_sound
    (appointments : list Appointment) (fs : FilterState) (today : string)
    (apt : Appointment) :
  JS.parseDate today <> None ->
  (forall a, In a appointments -> JS.parseDate (date a) <> None) ->
  In apt (filteredAppointments appointments fs today) ->
  In apt appointments
  /\ (activeTab fs = "Today" -> date apt = today)
  /\ (activeTab fs = "Upcoming" -> onOrAfter (date apt) today)
  /\ (activeTab fs = "Past" -> before (date apt) today)
  /\ (forall d, selectedDate fs = Some d -> d <> "" -> date apt = d)
  /\ (JS.trim (searchQuery fs) <> "" ->
      matchesIgnoringCase (searchQuery fs) (name apt)
      \/ matchesIgnoringCase (searchQuery fs) (doctorName apt)
      \/ matchesIgnoringCase (searchQuery fs) (reason apt))
  /\ (statusFilter fs <> "All Status" -> status apt = statusFilter fs)
  /\ (doctorFilter fs <> "All Doctors" -> doctorName apt = doctorFilter fs).
Proof.
  unfold filteredAppointments. intros _ _ H.
  apply sort_In in H.
  apply In_filter_if in H as [H Hdoctor].
  apply In_filter_if in H as [H Hstatus].
  apply In_filter_if in H as [H Hsearch].
  assert (Hsel : forall d, selectedDate fs = Some d -> d <> "" -> date apt = d).
  { intros d Hd Hne. rewrite Hd in H.
    apply truthy_nonempty in Hne. rewrite Hne in H.
    apply filter_In in H as [_ H]. now apply String.eqb_eq. }
  assert (H' : In apt
    (if (activeTab fs =? "Today")%string
     then filter (fun apt => (date apt =? today)%string) appointments
     else if (activeTab fs =? "Upcoming")%string
     then filter (fun apt => JS.numGe0 (Api.compareDates (date apt) today))
            appointments
     else if (activeTab fs =? "Past")%string
     then filter (fun apt => JS.numLt0 (Api.compareDates (date apt) today))
            appointments
     else appointments)).
  { destruct (selectedDate fs) as [d|]; [|exact H].
    destruct (JS.truthy d); [|exact H].
    now apply filter_In in H as [H _]. }
  clear H. rename H' into H.
  assert (Hin : In apt appointments).
  { destruct (_ =? "Today")%string; [now apply filter_In in H|].
    destruct (_ =? "Upcoming")%string; [now apply filter_In in H|].
    destruct (_ =? "Past")%string; [now apply filter_In in H|assumption]. }
  repeat split; trivial.
  - intros E. rewrite E in H. simpl in H.
    apply filter_In in H as [_ H]. now apply String.eqb_eq.
  - intros E. rewrite E in H. simpl in H.
    apply filter_In in H as [_ H]. now apply compareDates_ge0.
  - intros E. rewrite E in H. simpl in H.
    apply filter_In in H as [_ H]. now apply compareDates_lt0.
  - intros Hq. apply truthy_nonempty in Hq. specialize (Hsearch Hq).
    unfold matchesIgnoringCase.
    apply orb_true_iff in Hsearch as [Hsearch|Hsearch];
      [apply orb_true_iff in Hsearch as [Hsearch|Hsearch]|];
      apply includes_isSubstring in Hsearch; tauto.
  - intros Hs. apply String.eqb_eq, Hstatus.
    apply negb_true_iff, String.eqb_neq, Hs.
  - intros Hd. apply String.eqb_eq, Hdoctor.
    apply negb_true_iff, String.eqb_neq, Hd.
Qed.

Lemma filteredAppointments_sound_witness :
  let fs := handleAll [SearchInput "SAR"; StatusSelect "Confirmed"]
                      (initialFilterState (JS.mkDate 2025 11 15)) in
  JS.parseDate "2025-12-15" <> None
  /\ (forall a, In a MOCK_APPOINTMENTS -> JS.parseDate (date a) <> None)
  /\ In sample1 (filteredAppointments MOCK_APPOINTMENTS fs "2025-12-15")
  /\ In sample1 MOCK_APPOINTMENTS
  /\ onOrAfter (date sample1) "2025-12-15"
  /\ matchesIgnoringCase "SAR" (name sample1)
  /\ status sample1 = "Confirmed".
Proof.
  intros fs.
  assert (Ht : JS.parseDate "2025-12-15" <> None) by (vm_compute; discriminate).
  assert (Hd : forall a, In a MOCK_APPOINTMENTS -> JS.parseDate (date a) <> None).
  { intros a Hin. simpl in Hin.
    repeat (destruct Hin as [<-|Hin]; [vm_compute; discriminate|]).
    contradiction. }
  assert (H : In sample1 (filteredAppointments MOCK_APPOINTMENTS fs "2025-12-15")).
  { vm_compute. left. reflexivity. }
  split; [exact Ht|]. split; [exact Hd|]. split; [exact H|].
  destruct (filteredAppointments_sound MOCK_APPOINTMENTS fs "2025-12-15" sample1
              Ht Hd H)
    as [Hin [_ [Hup [_ [_ [Hq [Hst _]]]]]]].
  split; [exact Hin|]. split; [|split].
  - apply Hup. reflexivity.
  - exists "", "ah johnson". reflexivity.
  - apply Hst. discriminate.
Defined.

(** ** Times of day *)

Lemma digitValue_code (c : ascii) (a : Z) :
  JS.digitValue c = Some a ->
  0 <= a <= 9 /\ Z.of_N (N_of_ascii c) = 48 + a.
Proof.
  unfold JS.digitValue. intros H.
  destruct ((48 <=? N_of_ascii c)%N && (N_of_ascii c <=? 57)%N) eqn:E;
    [|discriminate].
  apply andb_true_iff in E as [E1 E2].
  apply N.leb_le in E1, E2. injection H as <-. lia.
Qed.

Lemma digit_not_colon (c : ascii) (a : Z) :
  JS.digitValue c = Some a -> Ascii.eqb c ":" = false.
Proof.
  intros H. apply digitValue_code in H as [Hr Hc].
  apply Ascii.eqb_neq. intros ->.
  change (Z.of_N (N_of_ascii ":")) with 58 in Hc. lia.
Qed.

Lemma minutesOf_timeOfDay (h1 h2 m1 m2 : ascii) (a b c d : Z) :
  JS.digitValue h1 = Some a -> JS.digitValue h2 = Some b ->
  JS.digitValue m1 = Some c -> JS.digitValue m2 = Some d ->
  10 * a + b <= 23 -> 10 * c + d <= 59 ->
  minutesOf (String h1 (String h2 (String ":" (String m1 (String m2 ""))))) =
  Some (60 * (10 * a + b) + (10 * c + d)).
Proof.
  intros Ha Hb Hc Hd Hh Hm. unfold minutesOf. cbn [JS.split].
  rewrite (digit_not_colon _ _ Ha), (digit_not_colon _ _ Hb),
          (digit_not_colon _ _ Hc), (digit_not_colon _ _ Hd).
  cbn [Ascii.eqb Bool.eqb]. cbn [JS.digitsValue].
  rewrite Ha, Hb, Hc, Hd. cbn [String.eqb negb String.length Nat.eqb andb].
  replace (10 * (10 * 0 + a) + b) with (10 * a + b) by lia.
  replace (10 * (10 * 0 + c) + d) with (10 * c + d) by lia.
  apply Z.leb_le in Hh, Hm. now rewrite Hh, Hm.
Qed.

Lemma weight_of_digit (c : ascii) (a : Z) :
  JS.digitValue c = Some a ->
  Z.of_N (JS.collationWeight c) = 2 * (48 + a).
Proof.
  intros H. unfold JS.collationWeight. rewrite (digit_not_colon _ _ H).
  apply digitValue_code in H as [_ Hc]. lia.
Qed.

Lemma weight_compare (c1 c2 : ascii) (a1 a2 : Z) :
  JS.digitValue c1 = Some a1 -> JS.digitValue c2 = Some a2 ->
  N.compare (JS.collationWeight c1) (JS.collationWeight c2) = (a1 ?= a2).
Proof.
  intros H1 H2. rewrite <- N2Z.inj_compare.
  rewrite (weight_of_digit _ _ H1), (weight_of_digit _ _ H2).
  destruct (Z.compare_spec a1 a2) as [E|E|E].
  - subst. apply Z.compare_refl.
  - apply Z.compare_lt_iff. lia.
  - apply Z.compare_gt_iff. lia.
Qed.

(** On zero-padded times [localeCompare] orders as the minutes since
    midnight do. *)
Lemma timeOfDay_localeCompare (s1 s2 : string) :
  isTimeOfDay s1 -> isTimeOfDay s2 ->
  exists n1 n2,
    minutesOf s1 = Some n1 /\ minutesOf s2 = Some n2
    /\ (0 <? JS.localeCompare s1 s2) = (n2 <? n1).
Proof.
  intros (h1 & h2 & m1 & m2 & -> & a & b & c & d & Ha & Hb & Hc & Hd & Hh & Hm).
  intros (k1 & k2 & l1 & l2 & -> & a' & b' & c' & d' & Ha' & Hb' & Hc' & Hd' & Hh' & Hm').
  rewrite (minutesOf_timeOfDay _ _ _ _ _ _ _ _ Ha Hb Hc Hd Hh Hm).
  rewrite (minutesOf_timeOfDay _ _ _ _ _ _ _ _ Ha' Hb' Hc' Hd' Hh' Hm').
  do 2 eexists. split; [reflexivity|]. split; [reflexivity|].
  unfold JS.localeCompare. cbn [JS.collate].
  rewrite (weight_compare _ _ _ _ Ha Ha'), (weight_compare _ _ _ _ Hb Hb'),
          (weight_compare _ _ _ _ Hc Hc'), (weight_compare _ _ _ _ Hd Hd').
  change (JS.collationWeight ":") with 95%N. cbn [N.compare Pos.compare Pos.compare_cont].
  apply digitValue_code in Ha as [Ra _], Hb as [Rb _], Hc as [Rc _], Hd as [Rd _].
  apply digitValue_code in Ha' as [Ra' _], Hb' as [Rb' _],
    Hc' as [Rc' _], Hd' as [Rd' _].
  symmetry.
  destruct (Z.compare_spec a a'); cbv iota;
    [| change (0 <? -1) with false; apply Z.ltb_ge; lia
     | change (0 <? 1) with true; apply Z.ltb_lt; lia].
  destruct (Z.compare_spec b b'); cbv iota;
    [| change (0 <? -1) with false; apply Z.ltb_ge; lia
     | change (0 <? 1) with true; apply Z.ltb_lt; lia].
  destruct (Z.compare_spec c c'); cbv iota;
    [| change (0 <? -1) with false; apply Z.ltb_ge; lia
     | change (0 <? 1) with true; apply Z.ltb_lt; lia].
  destruct (Z.compare_spec d d'); cbv iota;
    [| change (0 <? -1) with false; apply Z.ltb_ge; lia
     | change (0 <? 1) with true; apply Z.ltb_lt; lia].
  change (0 <? 0) with false. apply Z.ltb_ge. lia.
Qed.

(** ** The order of the visible list *)

(** On appointments with valid dates and zero-padded times the comparator
    decides the order by day and then by minutes since midnight. *)
Lemma byDateThenTime_decides (x y : Appointment) :
  JS.parseDate (date x) <> None -> JS.parseDate (date y) <> None ->
  isTimeOfDay (time x) -> isTimeOfDay (time y) ->
  if JS.numGt0 (byDateThenTime x y)
  then dateThenMinutesLe y x
  else dateThenMinutesLe x y.
Proof.
  intros Hx Hy Tx Ty. unfold byDateThenTime, Api.compareDates, dateThenMinutesLe.
  destruct (JS.parseDate (date x)) as [tx|] eqn:Ex; [|congruence].
  destruct (JS.parseDate (date y)) as [ty|] eqn:Ey; [|congruence].
  destruct (dayOf_parseDate _ _ Ex) as [nx [Dx ->]].
  destruct (dayOf_parseDate _ _ Ey) as [ny [Dy ->]].
  destruct (timeOfDay_localeCompare _ _ Tx Ty) as (mx & my & Mx & My & Hcmp).
  cbn [JS.numSub]. unfold JS.msPerDay.
  destruct (nx * 86400000 - ny * 86400000) as [|p|p] eqn:E.
  - cbn [JS.numGt0]. rewrite Hcmp.
    destruct (Z.ltb_spec my mx).
    + exists ny, nx. repeat split; trivial. right. split; [lia|].
      exists my, mx. repeat split; trivial. lia.
    + exists nx, ny. repeat split; trivial. right. split; [lia|].
      exists mx, my. repeat split; trivial.
  - cbn [JS.numGt0]. assert ((0 <? Z.pos p) = true) as -> by now apply Z.ltb_lt.
    exists ny, nx. repeat split; trivial. left. lia.
  - cbn [JS.numGt0]. assert ((0 <? Z.neg p) = false) as -> by now apply Z.ltb_ge.
    exists nx, ny. repeat split; trivial. left. lia.
Qed.

(** C2, as the code has it. When every date of the collection is a valid
    date and every time a zero-padded HH:MM, the visible list is sorted
    by date and then by minutes since midnight: each element is at most
    its successor in that order. *)
Theorem filteredAppointments_sorted
    (appointments : list Appointment) (fs : FilterState) (today : string) :
  (forall apt, In apt appointments -> JS.parseDate (date apt) <> None) ->
  (forall apt, In apt appointments -> isTimeOfDay (time apt)) ->
  Sorted dateThenMinutesLe (filteredAppointments appointments fs today).
Proof.
  intros Hvalid Htimes.
  assert (Hsub : forall apt,
            In apt (filteredAppointments appointments fs today) ->
            In apt appointments) by apply filteredAppointments_subset.
  unfold filteredAppointments in *. apply sort_sorted.
  intros x y Hx Hy.
  assert (Hx' : In x appointments) by (apply Hsub, sort_In, Hx).
  assert (Hy' : In y appointments) by (apply Hsub, sort_In, Hy).
  apply byDateThenTime_decides; auto.
Qed.

Lemma filteredAppointments_sorted_witness :
  let fs := initialFilterState (JS.mkDate 2025 11 15) in
  (forall apt, In apt MOCK_APPOINTMENTS -> JS.parseDate (date apt) <> None)
  /\ (forall apt, In apt MOCK_APPOINTMENTS -> isTimeOfDay (time apt))
  /\ Sorted dateThenMinutesLe
       (filteredAppointments MOCK_APPOINTMENTS fs "2025-12-15").
Proof.
  intros fs.
  assert (Hd : forall apt, In apt MOCK_APPOINTMENTS ->
                           JS.parseDate (date apt) <> None).
  { intros apt Hin. simpl in Hin.
    repeat (destruct Hin as [<-|Hin]; [vm_compute; discriminate|]).
    contradiction. }
  assert (Ht : forall apt, In apt MOCK_APPOINTMENTS -> isTimeOfDay (time apt)).
  { intros apt Hin. simpl in Hin.
    repeat (destruct Hin as [<-|Hin];
            [do 4 eexists; split; [reflexivity|];
             do 4 eexists; repeat split; try reflexivity; vm_compute;
             discriminate|]).
    contradiction. }
  split; [exact Hd|]. split; [exact Ht|].
  exact (filteredAppointments_sorted MOCK_APPOINTMENTS fs "2025-12-15" Hd Ht).
Defined.

(** C2, as stated, fails: an unpadded "9:00" is placed after "10:00" of
    the same day, against the order of the minutes since midnight. *)
Lemma filteredAppointments_not_sorted_by_minutes :
  let appointments :=
    [fixture 1 "2025-12-15" "9:00"; fixture 2 "2025-12-15" "10:00"] in
  let fs := initialFilterState (JS.mkDate 2025 11 15) in
  filteredAppointments appointments fs "2025-12-15" =
    [fixture 2 "2025-12-15" "10:00"; fixture 1 "2025-12-15" "9:00"]
  /\ ~ Sorted dateThenMinutesLe
         (filteredAppointments appointments fs "2025-12-15").
Proof.
  intros appointments fs.
  assert (E : filteredAppointments appointments fs "2025-12-15" =
              [fixture 2 "2025-12-15" "10:00"; fixture 1 "2025-12-15" "9:00"])
    by (vm_compute; reflexivity).
  split; [exact E|]. rewrite E. intros H.
  inversion H as [|x l _ Hhd]; subst.
  inversion Hhd as [|y l' Hle]; subst.
  destruct Hle as (da & db & Ha & Hb & [Hlt | [_ (ma & mb & Hma & Hmb & Hle)]]).
  - vm_compute in Ha, Hb. injection Ha as <-. injection Hb as <-. lia.
  - vm_compute in Hma, Hmb. injection Hma as <-. injection Hmb as <-. lia.
Qed.

(** ** Statistics *)

Lemma countWhere_filter {A : Type} (p : A -> bool) (l : list A) :
  List.length (filter p l) = countWhere p l.
Proof.
  induction l as [|x l IH]; simpl; [reflexivity|].
  destruct (p x); simpl; now rewrite IH.
Qed.

Lemma countWhere_ext {A : Type} (p q : A -> bool) (l : list A) :
  (forall x, p x = q x) -> countWhere p l = countWhere q l.
Proof.
  intros H. induction l as [|x l IH]; simpl; [reflexivity|].
  now rewrite H, IH.
Qed.

Lemma afterb_after (d1 d2 : string) : afterb d1 d2 = true <-> after d1 d2.
Proof.
  unfold afterb, after. split.
  - destruct (dayOf d1) as [n1|]; [|discriminate].
    destruct (dayOf d2) as [n2|]; [|discriminate].
    intros H. exists n1, n2. repeat split. now apply Z.ltb_lt.
  - intros (n1 & n2 & -> & -> & H). now apply Z.ltb_lt.
Qed.

Lemma compareDates_gt0_afterb (d1 d2 : string) :
  JS.numGt0 (Api.compareDates d1 d2) = afterb d1 d2.
Proof.
  apply Bool.eq_iff_eq_true. now rewrite compareDates_gt0, afterb_after.
Qed.

(** C3, as the code has it. For a valid today and a collection whose
    dates are valid, the four statistics are the number of appointments
    dated today, the number whose status is Confirmed, the number dated
    strictly after today, and the number whose mode is 'Video Call'. *)
Theorem stats_counts (appointments : list Appointment) (todayStr : string) :
  JS.parseDate todayStr <> None ->
  (forall apt, In apt appointments -> JS.parseDate (date apt) <> None) ->
  today (stats appointments todayStr) =
    countWhere (fun apt => String.eqb (date apt) todayStr) appointments
  /\ confirmed (stats appointments todayStr) =
    countWhere (fun apt => String.eqb (status apt) "Confirmed") appointments
  /\ upcoming (stats appointments todayStr) =
    countWhere (fun apt => afterb (date apt) todayStr) appointments
  /\ virtual (stats appointments todayStr) =
    countWhere (fun apt => String.eqb (mode apt) "Video Call") appointments.
Proof.
  intros _ _. unfold stats; cbn [today confirmed upcoming virtual].
  rewrite !countWhere_filter. repeat split.
  apply countWhere_ext. intros apt. apply compareDates_gt0_afterb.
Qed.

Lemma stats_counts_witness :
  JS.parseDate "2025-12-15" <> None
  /\ (forall apt, In apt MOCK_APPOINTMENTS -> JS.parseDate (date apt) <> None)
  /\ upcoming (stats MOCK_APPOINTMENTS "2025-12-15") = 1%nat
  /\ countWhere (fun apt => afterb (date apt) "2025-12-15") MOCK_APPOINTMENTS
     = 1%nat.
Proof.
  assert (Ht : JS.parseDate "2025-12-15" <> None) by (vm_compute; discriminate).
  assert (Hd : forall apt, In apt MOCK_APPOINTMENTS ->
                           JS.parseDate (date apt) <> None).
  { intros apt Hin. simpl in Hin.
    repeat (destruct Hin as [<-|Hin]; [vm_compute; discriminate|]).
    contradiction. }
  split; [exact Ht|]. split; [exact Hd|]. split; [reflexivity|].
  destruct (stats_counts MOCK_APPOINTMENTS "2025-12-15" Ht Hd)
    as (_ & _ & Hup & _).
  rewrite <- Hup. reflexivity.
Defined.

(** C3, as stated, fails: an appointment dated today is not counted among
    the upcoming ones. *)
Lemma stats_upcoming_excludes_today :
  let appointments := [fixture 1 "2025-12-15" "09:00"] in
  upcoming (stats appointments "2025-12-15") = 0%nat
  /\ countWhere (fun apt => onOrAfterb (date apt) "2025-12-15") appointments
     = 1%nat
  /\ upcoming (stats appointments "2025-12-15") <>
     countWhere (fun apt => onOrAfterb (date apt) "2025-12-15") appointments.
Proof. vm_compute. repeat split. discriminate. Qed.

(** ** Status updates *)

Lemma Id_eqb_eq (a b : Id) : Id_eqb a b = true <-> a = b.
Proof.
  destruct a as [x|x], b as [y|y]; simpl.
  - rewrite Z.eqb_eq. split; [now intros -> | now intros [= ->]].
  - split; discriminate.
  - split; discriminate.
  - rewrite String.eqb_eq. split; [now intros -> | now intros [= ->]].
Qed.

Lemma Id_eqb_neq (a b : Id) : Id_eqb a b = false <-> a <> b.
Proof.
  rewrite <- Id_eqb_eq. destruct (Id_eqb a b); split; congruence.
Qed.

Lemma applyStatus_length (appointmentId : Id) (newStatus : string)
    (l : list Appointment) :
  List.length (applyStatus appointmentId newStatus l) = List.length l.
Proof. apply length_map. Qed.

Lemma applyStatus_nth (appointmentId : Id) (newStatus : string)
    (l : list Appointment) (i : nat) (apt : Appointment) :
  nth_error l i = Some apt ->
  nth_error (applyStatus appointmentId newStatus l) i =
    Some (if Id_eqb (id apt) appointmentId
          then withStatus apt newStatus else apt).
Proof.
  intros H. unfold applyStatus. rewrite nth_error_map, H. reflexivity.
Qed.

Lemma applyStatus_absent (appointmentId : Id) (newStatus : string)
    (l : list Appointment) :
  (forall apt, In apt l -> id apt <> appointmentId) ->
  applyStatus appointmentId newStatus l = l.
Proof.
  intros H. unfold applyStatus. induction l as [|a l IH]; simpl.
  - reflexivity.
  - rewrite IH by (intros apt Hin; apply H; now right).
    assert (E : Id_eqb (id a) appointmentId = false)
      by (apply Id_eqb_neq, H; now left).
    now rewrite E.
Qed.

Section StatusUpdate.

(** The service module behind the view, whatever it is. *)
Context {S : Type} `{AppointmentService S}.

(** C5. When the remote call succeeds, the call resolves and the local
    collection afterwards has the same appointments at the same places,
    except that an appointment with the given id has the new status: every
    other appointment is unchanged, and so is every field other than the
    status of an appointment with that id. *)
Theorem handleStatusUpdate_success_frame
    (appointmentId : Id) (newStatus : string) (w : World S)
    (r : option Api.WireAppointment) (s1 : S) :
  updateAppointmentStatus appointmentId newStatus (service w) = (Resolved r, s1) ->
  let after := snd (handleStatusUpdate appointmentId newStatus w) in
  fst (handleStatusUpdate appointmentId newStatus w) = Resolved tt
  /\ List.length (appointments after) = List.length (appointments w)
  /\ forall i apt, nth_error (appointments w) i = Some apt ->
       exists apt', nth_error (appointments after) i = Some apt'
         /\ (id apt <> appointmentId -> apt' = apt)
         /\ (id apt = appointmentId ->
               status apt' = newStatus
               /\ id apt' = id apt /\ name apt' = name apt
               /\ initials apt' = initials apt
               /\ date apt' = date apt /\ time apt' = time apt
               /\ duration apt' = duration apt
               /\ doctorName apt' = doctorName apt /\ mode apt' = mode apt
               /\ reason apt' = reason apt /\ note apt' = note apt
               /\ phone apt' = phone apt /\ email apt' = email apt).
Proof.
  intros Hremote. unfold handleStatusUpdate. rewrite Hremote. cbn [fst snd appointments].
  split; [reflexivity|]. split; [apply applyStatus_length|].
  intros i apt Hi. eexists. split; [apply applyStatus_nth, Hi|]. split.
  - intros Hne. apply Id_eqb_neq in Hne. now rewrite Hne.
  - intros Heq. apply Id_eqb_eq in Heq. rewrite Heq. cbn. tauto.
Qed.

(** C4, as the code has it. When the remote call fails and the re-fetch
    that follows succeeds, the local collection is replaced as a whole by
    the fetched appointments (in the view's shape), the failure is written
    to the console and shown to the user in an alert, and the call itself
    resolves. *)
Theorem handleStatusUpdate_failure_resync
    (appointmentId : Id) (newStatus : string) (w : World S)
    (err : Error) (s1 s2 : S) (data : list Api.WireAppointment) :
  updateAppointmentStatus appointmentId newStatus (service w) = (Rejected err, s1) ->
  getAppointments None None s1 = (Resolved data, s2) ->
  let after := snd (handleStatusUpdate appointmentId newStatus w) in
  fst (handleStatusUpdate appointmentId newStatus w) = Resolved tt
  /\ appointments after = map transform data
  /\ alerts after = (alerts w ++ [updateFailedAlert])%list
  /\ consoleErrors after =
       (consoleErrors w ++ [("Failed to update appointment:", err)])%list
  /\ service after = s2.
Proof.
  intros Hremote Hfetch. unfold handleStatusUpdate.
  rewrite Hremote, Hfetch. cbn. repeat split.
Qed.

(** C10. When the remote call fails and the re-fetch fails as well, the
    call rejects with the error of the re-fetch, the local collection is
    the optimistically updated one, and no alert is shown; only the
    console records the first failure. *)
Theorem handleStatusUpdate_refetch_failure
    (appointmentId : Id) (newStatus : string) (w : World S)
    (err fetchErr : Error) (s1 s2 : S) :
  updateAppointmentStatus appointmentId newStatus (service w) = (Rejected err, s1) ->
  getAppointments None None s1 = (Rejected fetchErr, s2) ->
  let after := snd (handleStatusUpdate appointmentId newStatus w) in
  fst (handleStatusUpdate appointmentId newStatus w) = Rejected fetchErr
  /\ appointments after = applyStatus appointmentId newStatus (appointments w)
  /\ alerts after = alerts w
  /\ consoleErrors after =
       (consoleErrors w ++ [("Failed to update appointment:", err)])%list.
Proof.
  intros Hremote Hfetch. unfold handleStatusUpdate.
  rewrite Hremote, Hfetch. cbn. repeat split.
Qed.

(** C6, as the code has it. The controller never looks the id up: for an
    id absent from the local collection the optimistic step changes
    nothing, the remote call is made all the same, and the outcome is that
    of any other call -- resolved when the remote call succeeds, resolved
    after a re-fetch and the general failure alert when it fails, rejected
    only with the error of a failed re-fetch. *)
Theorem handleStatusUpdate_absent_id
    (appointmentId : Id) (newStatus : string) (w : World S) :
  (forall apt, In apt (appointments w) -> id apt <> appointmentId) ->
  let result := fst (handleStatusUpdate appointmentId newStatus w) in
  let after := snd (handleStatusUpdate appointmentId newStatus w) in
  applyStatus appointmentId newStatus (appointments w) = appointments w
  /\ (forall r s1,
        updateAppointmentStatus appointmentId newStatus (service w)
          = (Resolved r, s1) ->
        result = Resolved tt /\ appointments after = appointments w
        /\ alerts after = alerts w /\ consoleErrors after = consoleErrors w)
  /\ (forall err s1 data s2,
        updateAppointmentStatus appointmentId newStatus (service w)
          = (Rejected err, s1) ->
        getAppointments None None s1 = (Resolved data, s2) ->
        result = Resolved tt /\ appointments after = map transform data
        /\ alerts after = (alerts w ++ [updateFailedAlert])%list)
  /\ (forall err s1 fetchErr s2,
        updateAppointmentStatus appointmentId newStatus (service w)
          = (Rejected err, s1) ->
        getAppointments None None s1 = (Rejected fetchErr, s2) ->
        result = Rejected fetchErr /\ appointments after = appointments w
        /\ alerts after = alerts w).
Proof.
  intros Habsent result after.
  pose proof (applyStatus_absent appointmentId newStatus _ Habsent) as Hnoop.
  subst result after. unfold handleStatusUpdate. rewrite Hnoop.
  split; [reflexivity|]. split; [|split].
  - intros r s1 ->. cbn. repeat split.
  - intros err s1 data s2 -> ->. cbn. repeat split.
  - intros err s1 fetchErr s2 -> ->. cbn. repeat split.
Qed.

End StatusUpdate.

(** *** Runs against a stub [fetch] *)

Lemma handleStatusUpdate_success_frame_witness :
  let first := wireFixture 1 "2025-12-15" "09:00" "Confirmed" in
  let second := wireFixture 2 "2025-12-18" "10:30" "Scheduled" in
  let confirmation := wireFixture 1 "2025-12-15" "09:00" "Cancelled" in
  let w := stubWorld (map transform [first; second])
             [respond 200 (itemBody confirmation)] in
  let after := snd (handleStatusUpdate (IdNum 1) "Cancelled" w) in
  updateAppointmentStatus (IdNum 1) "Cancelled" (service w) =
    (Resolved (Some confirmation), {| Api.transport := []; Api.console := [] |})
  /\ fst (handleStatusUpdate (IdNum 1) "Cancelled" w) = Resolved tt
  /\ appointments after =
       [withStatus (transform first) "Cancelled"; transform second].
Proof.
  intros first second confirmation w after.
  assert (Hremote :
    updateAppointmentStatus (IdNum 1) "Cancelled" (service w) =
    (Resolved (Some confirmation), {| Api.transport := []; Api.console := [] |}))
    by reflexivity.
  split; [exact Hremote|].
  destruct (handleStatusUpdate_success_frame _ _ w _ _ Hremote) as [Hres _].
  split; [exact Hres | reflexivity].
Defined.

Lemma handleStatusUpdate_failure_resync_witness :
  let store := [wireFixture 1 "2025-12-15" "09:00" "Confirmed"] in
  let w := stubWorld (map transform store)
             [respond 500 (detailBody "Database error");
              respond 200 (listBody store)] in
  let after := snd (handleStatusUpdate (IdNum 1) "Cancelled" w) in
  fst (updateAppointmentStatus (IdNum 1) "Cancelled" (service w)) =
    Rejected "Database error"
  /\ fst (handleStatusUpdate (IdNum 1) "Cancelled" w) = Resolved tt
  /\ appointments after = map transform store
  /\ alerts after = [updateFailedAlert].
Proof.
  intros store w after.
  split; [reflexivity|].
  assert (Hremote :
    updateAppointmentStatus (IdNum 1) "Cancelled" (service w) =
    (Rejected "Database error",
     {| Api.transport := [respond 200 (listBody store)];
        Api.console := [("Error updating appointment status:",
                         "Database error")] |})) by reflexivity.
  assert (Hfetch :
    getAppointments None None
      {| Api.transport := [respond 200 (listBody store)];
         Api.console := [("Error updating appointment status:",
                          "Database error")] |} =
    (Resolved store,
     {| Api.transport := [];
        Api.console := [("Error updating appointment status:",
                         "Database error")] |})) by reflexivity.
  destruct (handleStatusUpdate_failure_resync _ _ w _ _ _ _ Hremote Hfetch)
    as (Hres & Happ & Hal & _).
  split; [exact Hres|]. split; [exact Happ | exact Hal].
Defined.

(** C4, as stated, fails: when the re-fetch fails too, the optimistic
    status stays in the local collection, which then differs from the
    collection a later fetch returns, and nothing is shown to the user. *)
Lemma handleStatusUpdate_failure_without_resync :
  let store := [wireFixture 1 "2025-12-15" "09:00" "Confirmed"] in
  let w := stubWorld (map transform store)
             [networkDown; networkDown; respond 200 (listBody store)] in
  let after := snd (handleStatusUpdate (IdNum 1) "Cancelled" w) in
  fst (updateAppointmentStatus (IdNum 1) "Cancelled" (service w)) =
    Rejected "Failed to fetch"
  /\ fst (getAppointments None None (service after)) = Resolved store
  /\ appointments after <> map transform store
  /\ map status (appointments after) = ["Cancelled"]
  /\ alerts after = [].
Proof.
  intros store w after. repeat split. discriminate.
Qed.

Lemma handleStatusUpdate_refetch_failure_witness :
  let store := [wireFixture 1 "2025-12-15" "09:00" "Confirmed"] in
  let w := stubWorld (map transform store) [networkDown; networkDown] in
  let after := snd (handleStatusUpdate (IdNum 1) "Cancelled" w) in
  fst (updateAppointmentStatus (IdNum 1) "Cancelled" (service w)) =
    Rejected "Failed to fetch"
  /\ fst (handleStatusUpdate (IdNum 1) "Cancelled" w) = Rejected "Failed to fetch"
  /\ map status (appointments after) = ["Cancelled"]
  /\ alerts after = [].
Proof.
  intros store w after.
  split; [reflexivity|].
  assert (Hremote :
    updateAppointmentStatus (IdNum 1) "Cancelled" (service w) =
    (Rejected "Failed to fetch",
     {| Api.transport := [networkDown];
        Api.console := [("Error updating appointment status:",
                         "Failed to fetch")] |})) by reflexivity.
  assert (Hfetch :
    getAppointments None None
      {| Api.transport := [networkDown];
         Api.console := [("Error updating appointment status:",
                          "Failed to fetch")] |} =
    (Rejected "Failed to fetch",
     {| Api.transport := [];
        Api.console := [("Error updating appointment status:",
                         "Failed to fetch");
                        ("Error fetching appointments:",
                         "Failed to fetch")] |})) by reflexivity.
  destruct (handleStatusUpdate_refetch_failure _ _ w _ _ _ _ Hremote Hfetch)
    as (Hres & Happ & Hal & _).
  split; [exact Hres|]. split; [reflexivity | exact Hal].
Defined.

Lemma handleStatusUpdate_absent_id_witness :
  let store := [wireFixture 1 "2025-12-15" "09:00" "Confirmed"] in
  let w := stubWorld (map transform store)
             [respond 404 (detailBody "Appointment not found");
              respond 200 (listBody store)] in
  (forall apt, In apt (appointments w) -> id apt <> IdNum 2)
  /\ applyStatus (IdNum 2) "Cancelled" (appointments w) = appointments w
  /\ fst (handleStatusUpdate (IdNum 2) "Cancelled" w) = Resolved tt.
Proof.
  intros store w.
  assert (Habsent : forall apt, In apt (appointments w) -> id apt <> IdNum 2).
  { intros apt [<-|[]]. discriminate. }
  split; [exact Habsent|].
  destruct (handleStatusUpdate_absent_id (IdNum 2) "Cancelled" w Habsent)
    as (Hnoop & _ & Hfail & _).
  split; [exact Hnoop|].
  assert (Hremote :
    updateAppointmentStatus (IdNum 2) "Cancelled" (service w) =
    (Rejected "Appointment not found",
     {| Api.transport := [respond 200 (listBody store)];
        Api.console := [("Error updating appointment status:",
                         "Appointment not found")] |})) by reflexivity.
  assert (Hfetch :
    getAppointments None None
      {| Api.transport := [respond 200 (listBody store)];
         Api.console := [("Error updating appointment status:",
                          "Appointment not found")] |} =
    (Resolved store,
     {| Api.transport := [];
        Api.console := [("Error updating appointment status:",
                         "Appointment not found")] |})) by reflexivity.
  exact (proj1 (Hfail _ _ _ _ Hremote Hfetch)).
Defined.

(** C6, as stated, fails: a call with an id absent from the local
    collection resolves, and signals no error, when the service accepts the
    update; the local collection is silently left as it was.  When the
    service answers that the appointment is not found, the call resolves
    too, after the general failure alert. *)
Lemma handleStatusUpdate_absent_id_not_signalled :
  let store := [wireFixture 1 "2025-12-15" "09:00" "Confirmed"] in
  let accepted := stubWorld (map transform store)
    [respond 200 (itemBody (wireFixture 2 "2025-12-16" "10:00" "Cancelled"))] in
  let refused := stubWorld (map transform store)
    [respond 404 (detailBody "Appointment not found");
     respond 200 (listBody store)] in
  (forall apt, In apt (map transform store) -> id apt <> IdNum 2)
  /\ handleStatusUpdate (IdNum 2) "Cancelled" accepted =
       (Resolved tt, stubWorld (map transform store) [])
  /\ fst (handleStatusUpdate (IdNum 2) "Cancelled" refused) = Resolved tt
  /\ alerts (snd (handleStatusUpdate (IdNum 2) "Cancelled" refused)) =
       [updateFailedAlert]
  /\ ~ (exists e, fst (handleStatusUpdate (IdNum 2) "Cancelled" accepted)
                  = Rejected e).
Proof.
  intros store accepted refused. repeat split.
  - intros apt [<-|[]]. discriminate.
  - intros [e He]. discriminate.
Qed.

(** ** The statuses held by the mock service *)

Lemma findAndSetStatus_status (appointmentId : Id) (newStatus : string)
    (store store' : list Mock.Appointment) (found apt : Mock.Appointment) :
  Mock.findAndSetStatus appointmentId newStatus store = Some (found, store') ->
  In apt store' ->
  In apt store \/ Mock.status apt = newStatus.
Proof.
  revert store' found. induction store as [|a store IH]; intros store' found; simpl.
  - discriminate.
  - destruct (Id_eqb (Mock.id a) appointmentId).
    + intros [= <- <-] [<-|Hin]; [now right | left; now right].
    + destruct (Mock.findAndSetStatus appointmentId newStatus store)
        as [[f rest]|] eqn:E; [|discriminate].
      intros [= <- <-] [<-|Hin]; [left; now left|].
      destruct (IH _ _ eq_refl Hin) as [H|H]; [left; now right | now right].
Qed.

Lemma updateAppointmentStatus_status (appointmentId : Id) (newStatus : string)
    (store : list Mock.Appointment) (apt : Mock.Appointment) :
  In apt (snd (Mock.updateAppointmentStatus appointmentId newStatus store)) ->
  In apt store \/ Mock.status apt = newStatus.
Proof.
  unfold Mock.updateAppointmentStatus.
  destruct (Mock.findAndSetStatus appointmentId newStatus store)
    as [[found store']|] eqn:E; simpl.
  - intros Hin. exact (findAndSetStatus_status _ _ _ _ _ _ E Hin).
  - now left.
Qed.

Lemma afterUpdates_status (calls : list (Id * string))
    (store : list Mock.Appointment) (apt : Mock.Appointment) :
  In apt (Mock.afterUpdates calls store) ->
  In apt store \/ In (Mock.status apt) (map snd calls).
Proof.
  revert store. induction calls as [|[i s] calls IH]; intros store; simpl.
  - now left.
  - intros Hin. destruct (IH _ Hin) as [H|H]; [|right; now right].
    destruct (updateAppointmentStatus_status _ _ _ _ H) as [H'|H'].
    + now left.
    + right. left. now symmetry.
Qed.

(** C7, as the code has it. The initial appointments of the mock have the
    statuses Confirmed, Scheduled, Upcoming and Cancelled, and an update
    stores the status it is given without any check: after any sequence of
    updates, each status is one of those four or a status passed to one of
    the updates. *)
Theorem Mock_statuses (calls : list (Id * string)) (apt : Mock.Appointment) :
  In apt (Mock.afterUpdates calls Mock.APPOINTMENTS) ->
  In (Mock.status apt) seedStatuses \/ In (Mock.status apt) (map snd calls).
Proof.
  intros Hin. destruct (afterUpdates_status _ _ _ Hin) as [H|H]; [left|now right].
  unfold Mock.APPOINTMENTS in H. simpl in H.
  repeat (destruct H as [<-|H]; [simpl; tauto|]). contradiction.
Qed.

Lemma Mock_statuses_witness :
  let calls := [(IdStr "apt004", "Completed")] in
  let apt := Mock.withStatus
               (Mock.mkAppointment (IdStr "apt004") "Lisa Anderson" "2025-12-20"
                  "11:00" 60 "Dr. Emily White" "Upcoming" "Video") "Completed" in
  In apt (Mock.afterUpdates calls Mock.APPOINTMENTS)
  /\ (In (Mock.status apt) seedStatuses \/ In (Mock.status apt) (map snd calls)).
Proof.
  intros calls apt.
  assert (Hin : In apt (Mock.afterUpdates calls Mock.APPOINTMENTS)).
  { vm_compute. do 3 right. left. reflexivity. }
  split; [exact Hin | exact (Mock_statuses calls apt Hin)].
Defined.

(** C7, as stated, fails: the initial contents of the mock already hold an
    appointment whose status, Upcoming, is none of the four, and an update
    stores any string. *)
Lemma Mock_status_outside_enum :
  (exists apt, In apt Mock.APPOINTMENTS
               /\ Mock.id apt = IdStr "apt004"
               /\ Mock.status apt = "Upcoming"
               /\ ~ In (Mock.status apt) statusEnum)
  /\ (exists apt,
        In apt (Mock.afterUpdates [(IdStr "apt001", "No-show")] Mock.APPOINTMENTS)
        /\ ~ In (Mock.status apt) statusEnum).
Proof.
  split.
  - exists (Mock.mkAppointment (IdStr "apt004") "Lisa Anderson" "2025-12-20"
              "11:00" 60 "Dr. Emily White" "Upcoming" "Video").
    split; [simpl; tauto|]. repeat split.
    simpl. intros [H|[H|[H|[H|[]]]]]; discriminate.
  - exists (Mock.mkAppointment (IdStr "apt001") "John Smith" "2025-12-10"
              "09:00" 30 "Dr. Sarah Johnson" "No-show" "In-Person").
    split; [vm_compute; now left|].
    simpl. intros [H|[H|[H|[H|[]]]]]; discriminate.
Qed.

(** ** The tab and the selected date *)

Lemma handleAll_snoc (events : list Event) (e : Event) (fs : FilterState) :
  handleAll (events ++ [e])%list fs = handle e (handleAll events fs).
Proof. unfold handleAll. now rewrite fold_left_app. Qed.

Lemma selectedDate_origin (events : list Event) (fs : FilterState) (d : string) :
  selectedDate fs = None ->
  selectedDate (handleAll events fs) = Some d ->
  exists earlier later,
    events = (earlier ++ DateSelect d :: later)%list
    /\ forall tab, ~ In (TabChange tab) later.
Proof.
  intros Hinit. induction events as [|e events IH] using rev_ind.
  - simpl. congruence.
  - rewrite handleAll_snoc. destruct e as [ds|tab0|offset|q|s|doc]; simpl.
    + destruct (selectedDate (handleAll events fs)) as [d'|].
      * destruct (String.eqb ds d'); [discriminate|].
        intros [= ->]. exists events, []. split; [reflexivity | intros tab []].
      * intros [= ->]. exists events, []. split; [reflexivity | intros tab []].
    + discriminate.
    + intros H. destruct (IH H) as (earlier & later & -> & Hno).
      exists earlier, (later ++ [MonthChange offset])%list.
      split; [now rewrite <- app_assoc|].
      intros tab Hin. apply in_app_or in Hin as [Hin|[Hin|[]]];
        [now apply (Hno tab) | discriminate].
    + intros H. destruct (IH H) as (earlier & later & -> & Hno).
      exists earlier, (later ++ [SearchInput q])%list.
      split; [now rewrite <- app_assoc|].
      intros tab Hin. apply in_app_or in Hin as [Hin|[Hin|[]]];
        [now apply (Hno tab) | discriminate].
    + intros H. destruct (IH H) as (earlier & later & -> & Hno).
      exists earlier, (later ++ [StatusSelect s])%list.
      split; [now rewrite <- app_assoc|].
      intros tab Hin. apply in_app_or in Hin as [Hin|[Hin|[]]];
        [now apply (Hno tab) | discriminate].
    + intros H. destruct (IH H) as (earlier & later & -> & Hno).
      exists earlier, (later ++ [DoctorSelect doc])%list.
      split; [now rewrite <- app_assoc|].
      intros tab Hin. apply in_app_or in Hin as [Hin|[Hin|[]]];
        [now apply (Hno tab) | discriminate].
Qed.

(** C9. A tab change always leaves no date selected.  Hence, whatever the
    user has done since the view was mounted, a date is selected only if
    it was selected by an event that no tab change has followed. *)
Theorem handleTabChange_clears_selectedDate :
  (forall tab fs, selectedDate (handleTabChange tab fs) = None)
  /\ (forall now events d,
        selectedDate (handleAll events (initialFilterState now)) = Some d ->
        exists earlier later,
          events = (earlier ++ DateSelect d :: later)%list
          /\ forall tab, ~ In (TabChange tab) later).
Proof.
  split.
  - reflexivity.
  - intros now events d. now apply selectedDate_origin.
Qed.

Lemma handleTabChange_clears_selectedDate_witness :
  let now := JS.mkDate 2025 11 15 in
  let events := [TabChange "Past"; DateSelect "2025-12-10"; SearchInput "tay"] in
  selectedDate (handleAll events (initialFilterState now)) = Some "2025-12-10"
  /\ selectedDate (handleAll (events ++ [TabChange "All"])
                             (initialFilterState now)) = None
  /\ exists earlier later,
       events = (earlier ++ DateSelect "2025-12-10" :: later)%list
       /\ forall tab, ~ In (TabChange tab) later.
Proof.
  intros now events.
  split; [reflexivity|]. split; [reflexivity|].
  exact (proj2 handleTabChange_clears_selectedDate now events "2025-12-10" eq_refl).
Defined.

(** ** The calendar *)

Lemma pushBlanks_repeat (n : nat) (days : list (option DayInfo)) :
  pushBlanks n days = (days ++ repeat None n)%list.
Proof.
  revert days. induction n as [|n IH]; intros days; simpl.
  - now rewrite app_nil_r.
  - rewrite IH, <- app_assoc. reflexivity.
Qed.

Lemma pushDays_map (n : nat) (first : Z) (entry : Z -> DayInfo)
    (days : list (option DayInfo)) :
  pushDays n first entry days =
  (days ++ map Some (map entry (zrange first n)))%list.
Proof.
  revert first days. induction n as [|n IH]; intros first days; simpl.
  - now rewrite app_nil_r.
  - rewrite IH, <- app_assoc. reflexivity.
Qed.

Lemma In_zrange (first : Z) (n : nat) (z : Z) :
  In z (zrange first n) <-> first <= z < first + Z.of_nat n.
Proof.
  revert first. induction n as [|n IH]; intros first.
  - simpl. lia.
  - cbn [zrange In]. rewrite IH. lia.
Qed.

Lemma zrange_length (first : Z) (n : nat) : List.length (zrange first n) = n.
Proof.
  revert first. induction n as [|n IH]; intros first; simpl; [|rewrite IH];
    reflexivity.
Qed.

Lemma forallb_zrange (p : Z -> bool) (first : Z) (n : nat) :
  forallb p (zrange first n) = true ->
  forall z, first <= z < first + Z.of_nat n -> p z = true.
Proof.
  intros H z Hz. rewrite forallb_forall in H. apply H. now apply In_zrange.
Qed.

(** [String(n)] of a four-digit number is its four digits; padded to two
    places, a number below 100 is its two digits. *)
Lemma numberToString_decimal4 (n : Z) :
  1000 <= n <= 9999 -> JS.numberToString n = decimal4 n.
Proof.
  intros Hn. apply String.eqb_eq.
  apply (forallb_zrange
           (fun z => String.eqb (JS.numberToString z) (decimal4 z))
           1000 (Z.to_nat 9000)).
  - vm_compute. reflexivity.
  - rewrite Z2Nat.id; lia.
Qed.

Lemma padStart_decimal2 (n : Z) :
  0 <= n <= 99 -> JS.padStart (JS.numberToString n) 2 "0" = decimal2 n.
Proof.
  intros Hn. apply String.eqb_eq.
  apply (forallb_zrange
           (fun z => String.eqb (JS.padStart (JS.numberToString z) 2 "0")
                                (decimal2 z)) 0 (Z.to_nat 100)).
  - vm_compute. reflexivity.
  - rewrite Z2Nat.id; lia.
Qed.

Lemma daysInMonth_bounds (y m : Z) : 28 <= JS.daysInMonth y m <= 31.
Proof.
  unfold JS.daysInMonth.
  destruct (m =? 1); [destruct (JS.isLeapYear y); lia|].
  destruct ((m =? 3) || (m =? 5) || (m =? 8) || (m =? 10)); lia.
Qed.

Lemma dayInfo_dateStr (year month : Z) (appointments : list Appointment) (d : Z) :
  1000 <= year <= 9999 -> 0 <= month <= 11 -> 1 <= d <= 31 ->
  dateStr (dayInfo year month appointments d) = isoDate year (month + 1) d.
Proof.
  intros Hy Hm Hd. unfold dayInfo, isoDate. cbn [dateStr].
  rewrite numberToString_decimal4 by assumption.
  rewrite !padStart_decimal2 by lia. reflexivity.
Qed.

(** A date that needs no normalization is built as it is. *)
Lemma makeDate_valid (y m d : Z) :
  0 <= m <= 11 -> 1 <= d <= JS.daysInMonth y m ->
  JS.makeDate y m d = JS.mkDate y m d.
Proof.
  intros Hm Hd. unfold JS.makeDate.
  rewrite Z.div_small, Z.mod_small, Z.add_0_r by lia.
  replace (Z.to_nat (Z.abs d) + 1)%nat with (S (Z.to_nat (Z.abs d))) by lia.
  cbn [JS.normalizeDay].
  assert ((d <? 1) = false) as -> by (apply Z.ltb_ge; lia).
  assert ((JS.daysInMonth y m <? d) = false) as -> by (apply Z.ltb_ge; lia).
  reflexivity.
Qed.

(** Day 0 of the following month is the last day of the month. *)
Lemma makeDate_last_day (y m : Z) :
  0 <= m <= 11 ->
  JS.makeDate y (m + 1) 0 = JS.mkDate y m (JS.daysInMonth y m).
Proof.
  intros Hm. unfold JS.makeDate. cbn [Z.abs Z.to_nat Nat.add JS.normalizeDay].
  cbn [Z.ltb Z.compare]. destruct (Z.eq_dec m 11) as [->|Hne].
  - change ((11 + 1) mod 12) with 0. change ((11 + 1) / 12) with 1.
    cbn [Z.eqb]. replace (y + 1 - 1) with y by lia. reflexivity.
  - rewrite Z.div_small, Z.mod_small, Z.add_0_r by lia.
    assert ((m + 1 =? 0) = false) as -> by (apply Z.eqb_neq; lia).
    replace (m + 1 - 1) with m by lia. reflexivity.
Qed.

Lemma newDate_year (y m d : Z) :
  1000 <= y <= 9999 -> JS.newDate y m d = JS.makeDate y m d.
Proof.
  intros Hy. unfold JS.newDate.
  assert ((y <=? 99) = false) as -> by (apply Z.leb_gt; lia).
  now rewrite andb_false_r.
Qed.

(** The digits of a number read back as the number. *)
Lemma digitsValue_decimal4 (n : Z) :
  0 <= n <= 9999 -> JS.digitsValue 0 (decimal4 n) = Some n.
Proof.
  intros Hn.
  assert (H : match JS.digitsValue 0 (decimal4 n) with
              | Some v => v =? n
              | None => false
              end = true).
  { apply (forallb_zrange
             (fun z => match JS.digitsValue 0 (decimal4 z) with
                       | Some v => v =? z
                       | None => false
                       end) 0 (Z.to_nat 10000)).
    - vm_compute. reflexivity.
    - rewrite Z2Nat.id; lia. }
  destruct (JS.digitsValue 0 (decimal4 n)) as [v|]; [|discriminate].
  apply Z.eqb_eq in H. now subst.
Qed.

Lemma digitsValue_decimal2 (n : Z) :
  0 <= n <= 99 -> JS.digitsValue 0 (decimal2 n) = Some n.
Proof.
  intros Hn.
  assert (H : match JS.digitsValue 0 (decimal2 n) with
              | Some v => v =? n
              | None => false
              end = true).
  { apply (forallb_zrange
             (fun z => match JS.digitsValue 0 (decimal2 z) with
                       | Some v => v =? z
                       | None => false
                       end) 0 (Z.to_nat 100)).
    - vm_compute. reflexivity.
    - rewrite Z2Nat.id; lia. }
  destruct (JS.digitsValue 0 (decimal2 n)) as [v|]; [|discriminate].
  apply Z.eqb_eq in H. now subst.
Qed.

(** The ISO form of a date is read back by [new Date] as that day. *)
Lemma dayOf_isoDate (y m d : Z) :
  0 <= y <= 9999 -> 1 <= m <= 12 -> 1 <= d <= JS.daysInMonth y (m - 1) ->
  dayOf (isoDate y m d) = Some (JS.MakeDay y (m - 1) d).
Proof.
  intros Hy Hm Hd. pose proof (daysInMonth_bounds y (m - 1)) as Hb.
  unfold dayOf, JS.parseDate.
  change (String.length (isoDate y m d)) with 10%nat.
  change (String.get 4 (isoDate y m d)) with (Some "-"%char).
  change (String.get 7 (isoDate y m d)) with (Some "-"%char).
  change (substring 0 4 (isoDate y m d)) with (decimal4 y).
  change (substring 5 2 (isoDate y m d)) with (decimal2 m).
  change (substring 8 2 (isoDate y m d)) with (decimal2 d).
  cbn [Nat.eqb Ascii.eqb Bool.eqb andb].
  rewrite digitsValue_decimal4, !digitsValue_decimal2 by lia.
  assert ((1 <=? m) = true) as -> by (apply Z.leb_le; lia).
  assert ((m <=? 12) = true) as -> by (apply Z.leb_le; lia).
  assert ((1 <=? d) = true) as -> by (apply Z.leb_le; lia).
  assert ((d <=? JS.daysInMonth y (m - 1)) = true) as -> by (apply Z.leb_le; lia).
  cbn [andb]. f_equal. now apply Z.div_mul.
Qed.

(** The day numbers agree with the lengths of the months: the 1st of the
    next month comes [daysInMonth] days after the 1st of the month, also
    from December to January.  With 1 January 1970 a Thursday, this fixes
    the weekday of the 1st of every month. *)
Lemma DayFromYear_next (y : Z) :
  JS.DayFromYear (y + 1) =
  JS.DayFromYear y + 365 + (if JS.isLeapYear y then 1 else 0).
Proof.
  unfold JS.DayFromYear, JS.isLeapYear.
  destruct (Z.eqb_spec (y mod 4) 0) as [H4|H4];
    destruct (Z.eqb_spec (y mod 100) 0) as [H100|H100];
    destruct (Z.eqb_spec (y mod 400) 0) as [H400|H400];
    cbn [negb andb orb]; Z.div_mod_to_equations; lia.
Qed.

Lemma MakeDay_next_month (y m : Z) :
  0 <= m <= 11 ->
  JS.MakeDay y (m + 1) 1 = JS.MakeDay y m 1 + JS.daysInMonth y m.
Proof.
  intros Hm. unfold JS.MakeDay. destruct (Z.eq_dec m 11) as [->|Hne].
  - change ((11 + 1) / 12) with 1. change ((11 + 1) mod 12) with 0.
    change (11 / 12) with 0. change (11 mod 12) with 11.
    rewrite DayFromYear_next, !Z.add_0_r.
    change (Z.to_nat 11) with 11%nat. change (Z.to_nat 0) with 0%nat.
    cbn [JS.daysBeforeMonth]. unfold JS.daysInMonth. cbn.
    destruct (JS.isLeapYear y); lia.
  - rewrite !Z.div_small, !Z.mod_small, !Z.add_0_r by lia.
    replace (Z.to_nat (m + 1)) with (S (Z.to_nat m)) by lia.
    cbn [JS.daysBeforeMonth]. rewrite Z2Nat.id by lia. lia.
Qed.

Lemma WeekDay_epoch : JS.WeekDay (JS.MakeDay 1970 0 1) = 4.
Proof. reflexivity. Qed.

Lemma calendarDays_unfold (cm : JS.Date) (appointments : list Appointment) :
  1000 <= JS.getFullYear cm <= 9999 -> 0 <= JS.getMonth cm <= 11 ->
  calendarDays cm appointments =
  (repeat None
     (Z.to_nat (JS.WeekDay (JS.MakeDay (JS.getFullYear cm) (JS.getMonth cm) 1)))
   ++ map Some
        (map (dayInfo (JS.getFullYear cm) (JS.getMonth cm) appointments)
           (zrange 1 (Z.to_nat (JS.daysInMonth (JS.getFullYear cm)
                                               (JS.getMonth cm))))))%list.
Proof.
  intros Hy Hm. unfold calendarDays.
  rewrite pushDays_map, pushBlanks_repeat, !newDate_year by assumption.
  rewrite makeDate_last_day by assumption.
  pose proof (daysInMonth_bounds (JS.getFullYear cm) (JS.getMonth cm)).
  rewrite makeDate_valid by lia. reflexivity.
Qed.

(** Going one month forward from December, or one month back from
    January, changes the year. *)
Lemma setMonth_december (cm : JS.Date) :
  JS.getMonth cm = 11 -> 1 <= JS.getDate cm <= 31 ->
  JS.setMonth cm (JS.getMonth cm + 1) =
  JS.mkDate (JS.getFullYear cm + 1) 0 (JS.getDate cm).
Proof.
  intros Hm Hd. unfold JS.setMonth, JS.makeDate. rewrite Hm.
  change ((11 + 1) / 12) with 1. change ((11 + 1) mod 12) with 0.
  replace (Z.to_nat (Z.abs (JS.getDate cm)) + 1)%nat
    with (S (Z.to_nat (Z.abs (JS.getDate cm)))) by lia.
  cbn [JS.normalizeDay].
  assert ((JS.getDate cm <? 1) = false) as -> by (apply Z.ltb_ge; lia).
  change (JS.daysInMonth (JS.getFullYear cm + 1) 0) with 31.
  assert ((31 <? JS.getDate cm) = false) as -> by (apply Z.ltb_ge; lia).
  reflexivity.
Qed.

Lemma setMonth_january (cm : JS.Date) :
  JS.getMonth cm = 0 -> 1 <= JS.getDate cm <= 31 ->
  JS.setMonth cm (JS.getMonth cm + -1) =
  JS.mkDate (JS.getFullYear cm - 1) 11 (JS.getDate cm).
Proof.
  intros Hm Hd. unfold JS.setMonth, JS.makeDate. rewrite Hm.
  change ((0 + -1) / 12) with (-1). change ((0 + -1) mod 12) with 11.
  replace (Z.to_nat (Z.abs (JS.getDate cm)) + 1)%nat
    with (S (Z.to_nat (Z.abs (JS.getDate cm)))) by lia.
  cbn [JS.normalizeDay].
  assert ((JS.getDate cm <? 1) = false) as -> by (apply Z.ltb_ge; lia).
  change (JS.daysInMonth (JS.getFullYear cm + -1) 11) with 31.
  assert ((31 <? JS.getDate cm) = false) as -> by (apply Z.ltb_ge; lia).
  reflexivity.
Qed.

(** C8. For a visible month of a four-digit year, the calendar is, in this
    order, as many blank slots as the weekday of the 1st of the month
    (0 = Sunday) and then one entry for each day 1, 2, ... of the month.
    An entry carries its day number, the ISO date of the day (a string
    that [new Date] reads back as that day), a flag that is set exactly
    when some appointment has that date, and the appointments of that
    date, all of them and in their order.  The number
    of entries is the length of the month: 29 or 28 for February according
    to the leap year, 30 for April, June, September and November, 31
    otherwise.  One month forward from December is January of the next
    year, and one month back from January is December of the year
    before. *)
Theorem calendarDays_month (cm : JS.Date) (appointments : list Appointment) :
  1000 <= JS.getFullYear cm <= 9999 ->
  0 <= JS.getMonth cm <= 11 ->
  1 <= JS.getDate cm <= JS.daysInMonth (JS.getFullYear cm) (JS.getMonth cm) ->
  let year := JS.getFullYear cm in
  let month := JS.getMonth cm in
  (exists entries : list DayInfo,
     calendarDays cm appointments =
       (repeat None (Z.to_nat (JS.WeekDay (JS.MakeDay year month 1)))
        ++ map Some entries)%list
     /\ map day entries = zrange 1 (Z.to_nat (JS.daysInMonth year month))
     /\ (forall e, In e entries ->
           dateStr e = isoDate year (month + 1) (day e)
           /\ dayOf (dateStr e) = Some (JS.MakeDay year month (day e))
           /\ (hasAppointments e = true <->
               exists apt, In apt appointments /\ date apt = dateStr e)
           /\ dayAppointments e =
                filter (fun apt => String.eqb (date apt) (dateStr e)) appointments)
     /\ (month = 1 ->
         List.length entries = if JS.isLeapYear year then 29%nat else 28%nat)
     /\ (In month [3; 5; 8; 10] -> List.length entries = 30%nat)
     /\ (In month [0; 2; 4; 6; 7; 9; 11] -> List.length entries = 31%nat))
  /\ (forall fs, currentMonth fs = cm -> month = 11 ->
        currentMonth (changeMonth 1 fs) = JS.mkDate (year + 1) 0 (JS.getDate cm))
  /\ (forall fs, currentMonth fs = cm -> month = 0 ->
        currentMonth (changeMonth (-1) fs) = JS.mkDate (year - 1) 11 (JS.getDate cm)).
Proof.
  intros Hy Hm Hd year month.
  pose proof (daysInMonth_bounds year month) as Hdim.
  unfold year, month in *. clear year month.
  set (year := JS.getFullYear cm) in *. set (month := JS.getMonth cm) in *.
  split; [|split].
  - exists (map (dayInfo year month appointments)
                (zrange 1 (Z.to_nat (JS.daysInMonth year month)))).
    split; [now apply calendarDays_unfold|].
    split; [rewrite map_map; cbn [dayInfo day]; apply map_id|].
    split.
    + intros e He. apply in_map_iff in He as [d [<- Hin]].
      apply In_zrange in Hin.
      assert (Hday : 1 <= d <= 31) by (clearbody year month; lia).
      split; [now apply dayInfo_dateStr|].
      split.
      { rewrite dayInfo_dateStr by assumption. cbn [dayInfo day].
        rewrite dayOf_isoDate; clearbody year month;
          replace (month + 1 - 1) with month by lia;
          [reflexivity | lia | lia | lia]. }
      split; [|reflexivity].
      cbn [dayInfo hasAppointments dateStr]. rewrite existsb_exists.
      split; intros [apt [Hin' Heq]]; exists apt; split; trivial;
        now apply String.eqb_eq.
    + rewrite !length_map, zrange_length. unfold JS.daysInMonth.
      split; [intros ->; cbn [Z.eqb]; now destruct (JS.isLeapYear year)|].
      split; intros Hin; simpl in Hin;
        repeat (destruct Hin as [<-|Hin]; [reflexivity|]); contradiction.
  - intros fs <- Hdec. unfold changeMonth. cbn [currentMonth].
    apply setMonth_december; [exact Hdec | lia].
  - intros fs <- Hjan. unfold changeMonth. cbn [currentMonth].
    apply setMonth_january; [exact Hjan | lia].
Qed.

Lemma calendarDays_month_witness :
  let cm := JS.mkDate 2024 1 10 in
  (1000 <= JS.getFullYear cm <= 9999)
  /\ (0 <= JS.getMonth cm <= 11)
  /\ (1 <= JS.getDate cm <= JS.daysInMonth (JS.getFullYear cm) (JS.getMonth cm))
  /\ exists entries : list DayInfo,
       calendarDays cm MOCK_APPOINTMENTS =
         (repeat None 4 ++ map Some entries)%list
       /\ List.length entries = 29%nat.
Proof.
  intros cm.
  assert (Hy : 1000 <= JS.getFullYear cm <= 9999) by (simpl; lia).
  assert (Hm : 0 <= JS.getMonth cm <= 11) by (simpl; lia).
  assert (Hd : 1 <= JS.getDate cm
                 <= JS.daysInMonth (JS.getFullYear cm) (JS.getMonth cm))
    by (vm_compute; split; discriminate).
  split; [exact Hy|]. split; [exact Hm|]. split; [exact Hd|].
  destruct (calendarDays_month cm MOCK_APPOINTMENTS Hy Hm Hd)
    as [(entries & Hcal & _ & _ & Hfeb & _) _].
  exists entries. split; [exact Hcal | exact (Hfeb eq_refl)].
Defined.

(** ** Worked examples *)

(** A search in lower case finds the patient Sarah Johnson and the
    appointment with Dr. Sarah Johnson, the earlier date first. *)
Example search_matches_mid_string :
  filteredAppointments MOCK_APPOINTMENTS
    (handleAll [TabChange "All"; SearchInput "sar"]
               (initialFilterState (JS.mkDate 2025 11 15)))
    "2025-12-15"
  = [sample4; sample1].
Proof. reflexivity. Qed.

(** A selected date with no appointment empties the list, also under the
    tab that shows everything. *)
Example selected_date_narrows_to_nothing :
  filteredAppointments MOCK_APPOINTMENTS
    (handleAll [TabChange "All"; DateSelect "2025-12-16"]
               (initialFilterState (JS.mkDate 2025 11 15)))
    "2025-12-15"
  = [].
Proof. reflexivity. Qed.

(** Two appointments today, one of them confirmed and by video, and three
    later ones. *)
Example stats_of_five :
  let confirmedVideo :=
    {| id := IdNum 2; name := "Patient"; initials := "P";
       date := "2025-12-15"; time := "11:00"; duration := 30;
       doctorName := "Dr. Who"; status := "Confirmed"; mode := "Video Call";
       reason := ""; note := ""; phone := ""; email := "" |} in
  stats [fixture 1 "2025-12-15" "09:00"; confirmedVideo;
         fixture 3 "2025-12-16" "09:00"; fixture 4 "2025-12-20" "09:00";
         fixture 5 "2026-01-02" "09:00"] "2025-12-15"
  = {| today := 2; confirmed := 1; upcoming := 3; virtual := 1 |}.
Proof. reflexivity. Qed.

(** February 2026 starts on a Sunday: no blank slot, 28 entries. *)
Example month_starting_on_sunday :
  map (option_map day) (calendarDays (JS.mkDate 2026 1 1) [])
  = map Some (zrange 1 28).
Proof. reflexivity. Qed.

(** From 31 January one month forward is 3 March: February has no 31st. *)
Example changeMonth_from_end_of_january :
  currentMonth (changeMonth 1 (initialFilterState (JS.mkDate 2025 0 31)))
  = JS.mkDate 2025 2 3.
Proof. reflexivity. Qed.

(* ===================================================================== *)
(** * Part II, continued: properties of the rest of the code *)
(* ===================================================================== *)

(** ** The visible list as one filter *)

Lemma filter_when {A : Type} (c : bool) (p : A -> bool) (l : list A) :
  (if c then filter p l else l) = filter (fun x => if c then p x else true) l.
Proof.
  destruct c; [reflexivity|].
  induction l as [|x l IH]; simpl; [reflexivity | now rewrite <- IH].
Qed.

Lemma filter_twice {A : Type} (p q : A -> bool) (l : list A) :
  filter q (filter p l) = filter (fun x => p x && q x) l.
Proof.
  induction l as [|x l IH]; simpl; [reflexivity|].
  destruct (p x); simpl; [destruct (q x)|]; now rewrite IH.
Qed.

(** Before it is sorted, the visible list is the collection filtered by
    the conjunction of the active filters. *)
Lemma filteredAppointments_filter
    (appointments : list Appointment) (fs : FilterState) (today : string) :
  filteredAppointments appointments fs today =
  JS.sort byDateThenTime (filter (visible fs today) appointments).
Proof.
  unfold filteredAppointments. f_equal.
  rewrite (filter_when (negb (doctorFilter fs =? "All Doctors")%string)).
  rewrite (filter_when (negb (statusFilter fs =? "All Status")%string)).
  rewrite (filter_when (JS.truthy (JS.trim (searchQuery fs)))).
  assert (Hsel : forall l : list Appointment,
    match selectedDate fs with
    | Some d => if JS.truthy d
                then filter (fun apt => (date apt =? d)%string) l else l
    | None => l
    end =
    filter (fun apt => match selectedDate fs with
                       | Some d => if JS.truthy d
                                   then (date apt =? d)%string else true
                       | None => true
                       end) l).
  { intros l. destruct (selectedDate fs) as [d|].
    - apply filter_when.
    - apply (filter_when false (fun _ => true)). }
  rewrite Hsel.
  assert (Htab :
    (if (activeTab fs =? "Today")%string
     then filter (fun apt => (date apt =? today)%string) appointments
     else if (activeTab fs =? "Upcoming")%string
     then filter (fun apt => JS.numGe0 (Api.compareDates (date apt) today))
            appointments
     else if (activeTab fs =? "Past")%string
     then filter (fun apt => JS.numLt0 (Api.compareDates (date apt) today))
            appointments
     else appointments) =
    filter (fun apt =>
      if (activeTab fs =? "Today")%string then (date apt =? today)%string
      else if (activeTab fs =? "Upcoming")%string
      then JS.numGe0 (Api.compareDates (date apt) today)
      else if (activeTab fs =? "Past")%string
      then JS.numLt0 (Api.compareDates (date apt) today)
      else true) appointments).
  { destruct (activeTab fs =? "Today")%string; [reflexivity|].
    destruct (activeTab fs =? "Upcoming")%string; [reflexivity|].
    destruct (activeTab fs =? "Past")%string; [reflexivity|].
    apply (filter_when false (fun _ => true)). }
  rewrite Htab, !filter_twice.
  apply filter_ext. intros apt. unfold visible.
  destruct (statusFilter fs =? "All Status")%string,
           (doctorFilter fs =? "All Doctors")%string;
    cbn [negb]; rewrite !andb_assoc; reflexivity.
Qed.

Lemma filteredAppointments_In
    (appointments : list Appointment) (fs : FilterState) (today : string)
    (apt : Appointment) :
  In apt (filteredAppointments appointments fs today) <->
  In apt appointments /\ visible fs today apt = true.
Proof.
  rewrite filteredAppointments_filter, sort_In. apply filter_In.
Qed.

Lemma filteredAppointments_length
    (appointments : list Appointment) (fs : FilterState) (today : string) :
  List.length (filteredAppointments appointments fs today) =
  countWhere (visible fs today) appointments.
Proof.
  rewrite filteredAppointments_filter, <- countWhere_filter.
  symmetry. apply Permutation_length, sort_perm.
Qed.

(** X1. Nothing that passes the filters is left out: an appointment of
    the collection that satisfies every active predicate is in the visible
    list. *)
Theorem filteredAppointments_complete
    (appointments : list Appointment) (fs : FilterState) (today : string)
    (apt : Appointment) :
  In apt appointments ->
  (activeTab fs = "Today" -> date apt = today) ->
  (activeTab fs = "Upcoming" -> onOrAfter (date apt) today) ->
  (activeTab fs = "Past" -> before (date apt) today) ->
  (forall d, selectedDate fs = Some d -> d <> "" -> date apt = d) ->
  (JS.trim (searchQuery fs) <> "" ->
   matchesIgnoringCase (searchQuery fs) (name apt)
   \/ matchesIgnoringCase (searchQuery fs) (doctorName apt)
   \/ matchesIgnoringCase (searchQuery fs) (reason apt)) ->
  (statusFilter fs <> "All Status" -> status apt = statusFilter fs) ->
  (doctorFilter fs <> "All Doctors" -> doctorName apt = doctorFilter fs) ->
  In apt (filteredAppointments appointments fs today).
Proof.
  intros Hin Htoday Hup Hpast Hsel Hsearch Hstatus Hdoctor.
  apply filteredAppointments_In. split; [exact Hin|]. unfold visible.
  repeat (apply andb_true_iff; split).
  - destruct (String.eqb_spec (activeTab fs) "Today") as [E|_];
      [apply String.eqb_eq; auto|].
    destruct (String.eqb_spec (activeTab fs) "Upcoming") as [E|_];
      [apply compareDates_ge0; auto|].
    destruct (String.eqb_spec (activeTab fs) "Past") as [E|_];
      [apply compareDates_lt0; auto | reflexivity].
  - destruct (selectedDate fs) as [d|]; [|reflexivity].
    destruct (JS.truthy d) eqn:E; [|reflexivity].
    apply String.eqb_eq, Hsel; [reflexivity | now apply truthy_nonempty].
  - destruct (JS.truthy (JS.trim (searchQuery fs))) eqn:E; [|reflexivity].
    apply truthy_nonempty in E. unfold matchesIgnoringCase in Hsearch.
    rewrite !orb_true_iff, !includes_isSubstring. tauto.
  - destruct (String.eqb_spec (statusFilter fs) "All Status") as [_|E];
      [reflexivity | apply String.eqb_eq; auto].
  - destruct (String.eqb_spec (doctorFilter fs) "All Doctors") as [_|E];
      [reflexivity | apply String.eqb_eq; auto].
Qed.

Lemma filteredAppointments_complete_witness :
  let fs := handleAll [TabChange "Past"; StatusSelect "Completed"]
                      (initialFilterState (JS.mkDate 2025 11 15)) in
  In sample4 MOCK_APPOINTMENTS
  /\ before (date sample4) "2025-12-15"
  /\ In sample4 (filteredAppointments MOCK_APPOINTMENTS fs "2025-12-15").
Proof.
  intros fs.
  assert (Hin : In sample4 MOCK_APPOINTMENTS) by (simpl; tauto).
  assert (Hpast : before (date sample4) "2025-12-15").
  { exists 20432, 20437. repeat split. }
  split; [exact Hin|]. split; [exact Hpast|].
  apply (filteredAppointments_complete MOCK_APPOINTMENTS fs "2025-12-15" sample4 Hin).
  - discriminate.
  - discriminate.
  - intros _. exact Hpast.
  - discriminate.
  - intros H. exfalso. apply H. reflexivity.
  - reflexivity.
  - intros H. exfalso. apply H. reflexivity.
Defined.

(** ** Stability of the order *)

Lemma sortInsert_filter {A : Type} (cmp : A -> A -> option Z) (p : A -> bool)
    (x : A) (l : list A) :
  (forall y, In y l -> p x = true -> p y = true -> JS.numGt0 (cmp x y) = false) ->
  filter p (JS.sortInsert cmp x l) = filter p (x :: l).
Proof.
  induction l as [|y l IH]; intros H; [reflexivity|].
  cbn [JS.sortInsert]. destruct (JS.numGt0 (cmp x y)) eqn:E; [|reflexivity].
  cbn [filter]. rewrite IH by (intros z Hz; apply H; now right).
  cbn [filter]. destruct (p x) eqn:Px, (p y) eqn:Py; try reflexivity.
  rewrite (H y (or_introl eq_refl) eq_refl Py) in E. discriminate.
Qed.

Lemma sort_filter {A : Type} (cmp : A -> A -> option Z) (p : A -> bool)
    (l : list A) :
  (forall x y, p x = true -> p y = true -> JS.numGt0 (cmp x y) = false) ->
  filter p (JS.sort cmp l) = filter p l.
Proof.
  intros H. induction l as [|x l IH]; [reflexivity|].
  cbn [JS.sort fold_right]. fold (JS.sort cmp l).
  rewrite sortInsert_filter by (intros y _; apply H).
  cbn [filter]. now rewrite IH.
Qed.

Lemma collate_refl (s : string) : JS.collate s s = Eq.
Proof.
  induction s as [|c s IH]; simpl; [reflexivity|].
  now rewrite N.compare_refl.
Qed.

Lemma byDateThenTime_sameSlot (d t : string) (x y : Appointment) :
  sameSlot d t x = true -> sameSlot d t y = true ->
  JS.numGt0 (byDateThenTime x y) = false.
Proof.
  unfold sameSlot. intros Hx Hy.
  apply andb_true_iff in Hx as [Hx1 Hx2], Hy as [Hy1 Hy2].
  apply String.eqb_eq in Hx1, Hx2, Hy1, Hy2.
  unfold byDateThenTime, Api.compareDates. rewrite Hx1, Hx2, Hy1, Hy2.
  destruct (JS.parseDate d) as [v|]; [|reflexivity].
  cbn [JS.numSub]. rewrite Z.sub_diag.
  unfold JS.localeCompare. now rewrite collate_refl.
Qed.

(** X2. The sort is stable: for a valid today and a collection whose
    dates are valid, appointments with the same date and the same time
    appear in the visible list in the order they have in the
    collection. *)
Theorem filteredAppointments_stable
    (appointments : list Appointment) (fs : FilterState) (today d t : string) :
  JS.parseDate today <> None ->
  (forall apt, In apt appointments -> JS.parseDate (date apt) <> None) ->
  filter (sameSlot d t) (filteredAppointments appointments fs today) =
  filter (sameSlot d t) (filter (visible fs today) appointments).
Proof.
  intros _ _. rewrite filteredAppointments_filter. apply sort_filter.
  apply byDateThenTime_sameSlot.
Qed.

Lemma filteredAppointments_stable_witness :
  let appointments :=
    [fixture 1 "2025-12-16" "09:00"; fixture 2 "2025-12-15" "10:00";
     fixture 3 "2025-12-16" "09:00"; fixture 4 "2025-12-15" "10:00"] in
  let fs := onlyTab "All" (JS.mkDate 2025 11 15) in
  JS.parseDate "2025-12-15" <> None
  /\ (forall apt, In apt appointments -> JS.parseDate (date apt) <> None)
  /\ filteredAppointments appointments fs "2025-12-15" =
       [fixture 2 "2025-12-15" "10:00"; fixture 4 "2025-12-15" "10:00";
        fixture 1 "2025-12-16" "09:00"; fixture 3 "2025-12-16" "09:00"]
  /\ filter (sameSlot "2025-12-16" "09:00")
        (filteredAppointments appointments fs "2025-12-15") =
      [fixture 1 "2025-12-16" "09:00"; fixture 3 "2025-12-16" "09:00"].
Proof.
  intros appointments fs.
  assert (Ht : JS.parseDate "2025-12-15" <> None) by (vm_compute; discriminate).
  assert (Hd : forall apt, In apt appointments -> JS.parseDate (date apt) <> None).
  { intros apt Hin. simpl in Hin.
    repeat (destruct Hin as [<-|Hin]; [vm_compute; discriminate|]).
    contradiction. }
  split; [exact Ht|]. split; [exact Hd|]. split; [reflexivity|].
  rewrite (filteredAppointments_stable appointments fs "2025-12-15"
             "2025-12-16" "09:00" Ht Hd).
  reflexivity.
Defined.

(** ** The tabs *)

Lemma visible_onlyTab (tab today : string) (month : JS.Date) (apt : Appointment) :
  visible (onlyTab tab month) today apt =
  if String.eqb tab "Today" then String.eqb (date apt) today
  else if String.eqb tab "Upcoming"
  then JS.numGe0 (Api.compareDates (date apt) today)
  else if String.eqb tab "Past"
  then JS.numLt0 (Api.compareDates (date apt) today)
  else true.
Proof.
  unfold visible, onlyTab.
  cbn [activeTab selectedDate searchQuery statusFilter doctorFilter].
  cbn [JS.trim JS.trimStart JS.trimEnd JS.truthy].
  change ("All Status" =? "All Status")%string with true.
  change ("All Doctors" =? "All Doctors")%string with true.
  now rewrite !andb_true_r.
Qed.

(** X3. With a valid today and no other filter, the tabs Upcoming and
    Past split the appointments whose date is valid: each is under
    exactly one of the two, and under a tab that filters nothing. *)
Theorem tabs_partition
    (appointments : list Appointment) (today : string) (month : JS.Date)
    (apt : Appointment) :
  JS.parseDate today <> None ->
  In apt appointments ->
  JS.parseDate (date apt) <> None ->
  let upcoming := filteredAppointments appointments (onlyTab "Upcoming" month) today in
  let past := filteredAppointments appointments (onlyTab "Past" month) today in
  let all := filteredAppointments appointments (onlyTab "All" month) today in
  (In apt upcoming \/ In apt past)
  /\ ~ (In apt upcoming /\ In apt past)
  /\ In apt all.
Proof.
  intros Htoday Hin Hv upcoming past all. subst upcoming past all.
  rewrite !filteredAppointments_In, !visible_onlyTab.
  cbn [String.eqb Ascii.eqb Bool.eqb andb].
  unfold Api.compareDates.
  destruct (JS.parseDate today) as [t|]; [|congruence].
  destruct (JS.parseDate (date apt)) as [v|]; [|congruence].
  cbn [JS.numSub JS.numGe0 JS.numLt0].
  destruct (Z.leb_spec 0 (v - t)), (Z.ltb_spec (v - t) 0); try lia.
  - split; [now left|]. split; [intros [_ [_ H']]; discriminate|].
    split; [exact Hin | reflexivity].
  - split; [now right|]. split; [intros [[_ H'] _]; discriminate|].
    split; [exact Hin | reflexivity].
Qed.

Lemma tabs_partition_witness :
  let month := JS.mkDate 2025 11 15 in
  JS.parseDate "2025-12-15" <> None
  /\ In sample5 MOCK_APPOINTMENTS
  /\ JS.parseDate (date sample5) <> None
  /\ In sample5 (filteredAppointments MOCK_APPOINTMENTS (onlyTab "Past" month)
                   "2025-12-15")
  /\ ~ In sample5 (filteredAppointments MOCK_APPOINTMENTS
                     (onlyTab "Upcoming" month) "2025-12-15").
Proof.
  intros month.
  assert (Ht : JS.parseDate "2025-12-15" <> None) by (vm_compute; discriminate).
  assert (Hin : In sample5 MOCK_APPOINTMENTS) by (simpl; tauto).
  assert (Hd : JS.parseDate (date sample5) <> None) by (vm_compute; discriminate).
  split; [exact Ht|]. split; [exact Hin|]. split; [exact Hd|].
  destruct (tabs_partition MOCK_APPOINTMENTS "2025-12-15" month sample5 Ht Hin Hd)
    as (_ & Hnot & _).
  assert (Hpast : In sample5 (filteredAppointments MOCK_APPOINTMENTS
                                (onlyTab "Past" month) "2025-12-15")).
  { vm_compute. left. reflexivity. }
  split; [exact Hpast|]. intros Hup. apply Hnot. now split.
Defined.

(** ** The statistics and the tabs *)

Lemma countWhere_sum_le {A : Type} (p q r : A -> bool) (l : list A) :
  (forall x, p x = true -> r x = true) ->
  (forall x, q x = true -> r x = true) ->
  (forall x, p x = true -> q x = true -> False) ->
  (countWhere p l + countWhere q l <= countWhere r l)%nat.
Proof.
  intros Hp Hq Hpq. induction l as [|x l IH]; simpl; [lia|].
  specialize (Hp x). specialize (Hq x). specialize (Hpq x).
  destruct (p x), (q x), (r x); try lia;
    try (exfalso; now apply Hpq);
    try (specialize (Hp eq_refl); discriminate);
    try (specialize (Hq eq_refl); discriminate).
Qed.

Lemma countWhere_le_length {A : Type} (p : A -> bool) (l : list A) :
  (countWhere p l <= List.length l)%nat.
Proof. induction l as [|x l IH]; simpl; [lia | destruct (p x); lia]. Qed.

Lemma compareDates_same_not_gt0 (d : string) :
  JS.numGt0 (Api.compareDates d d) = false.
Proof.
  unfold Api.compareDates. destruct (JS.parseDate d); [|reflexivity].
  cbn. now rewrite Z.sub_diag.
Qed.

Lemma compareDates_same_ge0 (d : string) :
  JS.parseDate d <> None -> JS.numGe0 (Api.compareDates d d) = true.
Proof.
  unfold Api.compareDates. destruct (JS.parseDate d); [|congruence].
  intros _. cbn. now rewrite Z.sub_diag.
Qed.

Lemma numGt0_numGe0 (v : option Z) : JS.numGt0 v = true -> JS.numGe0 v = true.
Proof.
  destruct v as [n|]; [|discriminate]. cbn. rewrite Z.ltb_lt, Z.leb_le. lia.
Qed.

(** X4. The cards agree with the list.  The Today card counts exactly the
    rows of the Today tab (no other filter being set); the appointments
    counted by the Today card and by the Upcoming card are different
    appointments, all of them rows of the Upcoming tab, so the two cards
    together never exceed its length. *)
Theorem stats_agree_with_tabs
    (appointments : list Appointment) (todayStr : string) (month : JS.Date) :
  JS.parseDate todayStr <> None ->
  today (stats appointments todayStr) =
    List.length (filteredAppointments appointments (onlyTab "Today" month) todayStr)
  /\ (today (stats appointments todayStr) + upcoming (stats appointments todayStr)
      <= List.length (filteredAppointments appointments
                        (onlyTab "Upcoming" month) todayStr))%nat
  /\ (today (stats appointments todayStr) + upcoming (stats appointments todayStr)
      <= List.length appointments)%nat.
Proof.
  intros Hvalid. unfold stats. cbn [today upcoming].
  rewrite !filteredAppointments_length, !countWhere_filter.
  rewrite (countWhere_ext _ _ _ (visible_onlyTab "Today" todayStr month)).
  rewrite (countWhere_ext _ _ _ (visible_onlyTab "Upcoming" todayStr month)).
  cbn [String.eqb Ascii.eqb Bool.eqb andb].
  split; [reflexivity|].
  assert (Hsum :
    (countWhere (fun apt => (date apt =? todayStr)%string) appointments
     + countWhere (fun apt => JS.numGt0 (Api.compareDates (date apt) todayStr))
         appointments
     <= countWhere (fun apt => JS.numGe0 (Api.compareDates (date apt) todayStr))
          appointments)%nat).
  { apply countWhere_sum_le.
    - intros apt E. apply String.eqb_eq in E. rewrite E.
      now apply compareDates_same_ge0.
    - intros apt. apply numGt0_numGe0.
    - intros apt E Hgt. apply String.eqb_eq in E. rewrite E in Hgt.
      rewrite compareDates_same_not_gt0 in Hgt. discriminate. }
  split; [exact Hsum|].
  eapply Nat.le_trans; [exact Hsum | apply countWhere_le_length].
Qed.

Lemma stats_agree_with_tabs_witness :
  let month := JS.mkDate 2025 11 15 in
  JS.parseDate "2025-12-15" <> None
  /\ today (stats MOCK_APPOINTMENTS "2025-12-15") = 2%nat
  /\ List.length (filteredAppointments MOCK_APPOINTMENTS (onlyTab "Today" month)
                    "2025-12-15") = 2%nat.
Proof.
  intros month.
  assert (Ht : JS.parseDate "2025-12-15" <> None) by (vm_compute; discriminate).
  split; [exact Ht|]. split; [reflexivity|].
  rewrite <- (proj1 (stats_agree_with_tabs MOCK_APPOINTMENTS "2025-12-15" month Ht)).
  reflexivity.
Defined.

(** ** The doctor filter *)

Lemma newSet_In (seen l : list string) (x : string) :
  In x (JSMore.newSet seen l) <-> In x l /\ ~ In x seen.
Proof.
  revert seen. induction l as [|y l IH]; intros seen; simpl.
  - tauto.
  - destruct (existsb (String.eqb y) seen) eqn:E.
    + apply existsb_exists in E as [z [Hz Heq]]. apply String.eqb_eq in Heq.
      subst z. rewrite IH. split.
      * intros [H1 H2]. tauto.
      * intros [[->|H1] H2]; [contradiction | tauto].
    + assert (Hy : ~ In y seen).
      { intros Hy. apply Bool.not_true_iff_false in E. apply E.
        apply existsb_exists. exists y. split; [exact Hy | apply String.eqb_refl]. }
      cbn [In]. rewrite IH. cbn [In]. split.
      * intros [<-|[H1 H2]]; [tauto|]. split; [tauto|]. tauto.
      * intros [[<-|H1] H2]; [now left|].
        destruct (String.eqb_spec y x) as [->|Hne]; [now left|].
        right. split; [exact H1|]. intros [H3|H3]; tauto.
Qed.

Lemma newSet_NoDup (seen l : list string) : NoDup (JSMore.newSet seen l).
Proof.
  revert seen. induction l as [|y l IH]; intros seen; simpl.
  - constructor.
  - destruct (existsb (String.eqb y) seen); [apply IH|].
    constructor; [|apply IH].
    rewrite newSet_In. intros [_ H]. apply H. now left.
Qed.

Lemma defaultCompare_decides (x y : string) :
  if JS.numGt0 (JSMore.defaultCompare x y)
  then String.leb y x = true else String.leb x y = true.
Proof.
  unfold JSMore.defaultCompare, String.leb.
  pose proof (String.compare_antisym y x) as Hanti.
  destruct (String.compare x y); cbn [JS.numGt0 Z.ltb Z.compare];
    [reflexivity | reflexivity |].
  rewrite Hanti. reflexivity.
Qed.

Lemma uniqueDoctors_In (appointments : list Appointment) (doctor : string) :
  In doctor (uniqueDoctors appointments) <->
  exists apt, In apt appointments /\ doctorName apt = doctor.
Proof.
  unfold uniqueDoctors. rewrite sort_In, newSet_In, in_map_iff. cbn [In].
  split.
  - intros [[apt [E Hin]] _]. now exists apt.
  - intros [apt [Hin E]]. split; [now exists apt | tauto].
Qed.

(** X5. The doctor filter offers each doctor of the collection exactly
    once, in ascending order of the names. *)
Theorem uniqueDoctors_spec (appointments : list Appointment) :
  (forall doctor, In doctor (uniqueDoctors appointments) <->
                  exists apt, In apt appointments /\ doctorName apt = doctor)
  /\ NoDup (uniqueDoctors appointments)
  /\ Sorted (fun a b => String.leb a b = true) (uniqueDoctors appointments).
Proof.
  split; [|unfold uniqueDoctors; split].
  - intros doctor. apply uniqueDoctors_In.
  - eapply Permutation_NoDup; [apply sort_perm | apply newSet_NoDup].
  - apply sort_sorted. intros x y _ _. apply defaultCompare_decides.
Qed.

(** X6. Every doctor the filter offers has something to show: chosen on a
    tab that filters nothing, with no other filter set, a doctor of the
    list (other than the entry that switches the filter off) gives a
    visible list that is not empty and holds that doctor's appointments
    only. *)
Theorem doctor_option_shows_appointments
    (appointments : list Appointment) (today doctor : string) (month : JS.Date) :
  In doctor (uniqueDoctors appointments) ->
  doctor <> "All Doctors" ->
  let rows := filteredAppointments appointments
                (setDoctorFilter doctor (onlyTab "All" month)) today in
  rows <> [] /\ forall apt, In apt rows -> doctorName apt = doctor.
Proof.
  intros Hin Hne rows. subst rows.
  apply uniqueDoctors_In in Hin as [apt [Hapt Hdoc]].
  assert (Hvis : forall a,
    visible (setDoctorFilter doctor (onlyTab "All" month)) today a =
    String.eqb (doctorName a) doctor).
  { intros a. unfold visible, setDoctorFilter, onlyTab.
    cbn [activeTab selectedDate searchQuery statusFilter doctorFilter].
    cbn [JS.trim JS.trimStart JS.trimEnd JS.truthy].
    apply String.eqb_neq in Hne. rewrite Hne. reflexivity. }
  split.
  - intros E.
    assert (H : In apt (filteredAppointments appointments
                          (setDoctorFilter doctor (onlyTab "All" month)) today)).
    { apply filteredAppointments_In. split; [exact Hapt|].
      rewrite Hvis. now apply String.eqb_eq. }
    rewrite E in H. destruct H.
  - intros a Ha. apply filteredAppointments_In in Ha as [_ Ha].
    rewrite Hvis in Ha. now apply String.eqb_eq.
Qed.

Lemma doctor_option_shows_appointments_witness :
  let month := JS.mkDate 2025 11 15 in
  In "Dr. Emily White" (uniqueDoctors MOCK_APPOINTMENTS)
  /\ filteredAppointments MOCK_APPOINTMENTS
       (setDoctorFilter "Dr. Emily White" (onlyTab "All" month)) "2025-12-15"
     <> [].
Proof.
  intros month.
  assert (Hin : In "Dr. Emily White" (uniqueDoctors MOCK_APPOINTMENTS)).
  { vm_compute. left. reflexivity. }
  split; [exact Hin|].
  apply (doctor_option_shows_appointments MOCK_APPOINTMENTS "2025-12-15"
           "Dr. Emily White" month Hin).
  discriminate.
Defined.

(** ** More on the calendar *)

Lemma dayEntries_app (a b : list (option DayInfo)) :
  dayEntries (a ++ b)%list = (dayEntries a ++ dayEntries b)%list.
Proof. unfold dayEntries. apply flat_map_app. Qed.

Lemma dayEntries_blanks (n : nat) : dayEntries (repeat None n) = [].
Proof. induction n as [|n IH]; [reflexivity | exact IH]. Qed.

Lemma dayEntries_Some (l : list DayInfo) : dayEntries (map Some l) = l.
Proof.
  induction l as [|e l IH]; [reflexivity|].
  unfold dayEntries in *. simpl. now rewrite IH.
Qed.

Lemma dayEntries_calendarDays (cm : JS.Date) (appointments : list Appointment) :
  1000 <= JS.getFullYear cm <= 9999 -> 0 <= JS.getMonth cm <= 11 ->
  dayEntries (calendarDays cm appointments) =
  map (dayInfo (JS.getFullYear cm) (JS.getMonth cm) appointments)
      (zrange 1 (Z.to_nat (JS.daysInMonth (JS.getFullYear cm) (JS.getMonth cm)))).
Proof.
  intros Hy Hm. rewrite calendarDays_unfold by assumption.
  now rewrite dayEntries_app, dayEntries_blanks, dayEntries_Some.
Qed.

Lemma NoDup_zrange (first : Z) (n : nat) : NoDup (zrange first n).
Proof.
  revert first. induction n as [|n IH]; intros first; simpl; constructor.
  - rewrite In_zrange. lia.
  - apply IH.
Qed.

Lemma decimal2_injective (a b : Z) :
  0 <= a <= 99 -> 0 <= b <= 99 -> decimal2 a = decimal2 b -> a = b.
Proof.
  intros Ha Hb E.
  pose proof (digitsValue_decimal2 a Ha) as Da.
  pose proof (digitsValue_decimal2 b Hb) as Db.
  rewrite E in Da. congruence.
Qed.

Lemma isoDate_day_injective (y m a b : Z) :
  0 <= a <= 99 -> 0 <= b <= 99 -> isoDate y m a = isoDate y m b -> a = b.
Proof.
  intros Ha Hb E. apply (f_equal (String.substring 8 2)) in E.
  change (substring 8 2 (isoDate y m a)) with (decimal2 a) in E.
  change (substring 8 2 (isoDate y m b)) with (decimal2 b) in E.
  now apply decimal2_injective.
Qed.

(** X7. The grid of a month (of a four-digit year) has at most six blank
    slots and at most 37 slots in all, so it fits six rows of seven, and
    no two of its entries carry the same date string (the entries are
    keyed by it). *)
Theorem calendarDays_grid (cm : JS.Date) (appointments : list Appointment) :
  1000 <= JS.getFullYear cm <= 9999 -> 0 <= JS.getMonth cm <= 11 ->
  (List.length (calendarDays cm appointments) <= 37)%nat
  /\ (List.length (calendarDays cm appointments)
      - List.length (dayEntries (calendarDays cm appointments)) <= 6)%nat
  /\ NoDup (map dateStr (dayEntries (calendarDays cm appointments))).
Proof.
  intros Hy Hm.
  pose proof (daysInMonth_bounds (JS.getFullYear cm) (JS.getMonth cm)) as Hdim.
  rewrite dayEntries_calendarDays by assumption.
  rewrite calendarDays_unfold by assumption.
  rewrite length_app, repeat_length, !length_map, zrange_length.
  assert (Hwd : 0 <= JS.WeekDay (JS.MakeDay (JS.getFullYear cm) (JS.getMonth cm) 1) < 7)
    by (unfold JS.WeekDay; apply Z.mod_pos_bound; lia).
  split; [lia|]. split; [lia|].
  rewrite map_map. apply NoDup_map_NoDup_ForallPairs; [|apply NoDup_zrange].
  intros d1 d2 H1 H2 E. apply In_zrange in H1, H2.
  rewrite !dayInfo_dateStr in E by (assumption || lia).
  apply isoDate_day_injective in E; [exact E | lia | lia].
Qed.

Lemma calendarDays_grid_witness :
  let cm := JS.mkDate 2025 11 15 in
  (1000 <= JS.getFullYear cm <= 9999) /\ (0 <= JS.getMonth cm <= 11)
  /\ List.length (calendarDays cm MOCK_APPOINTMENTS) = 32%nat
  /\ NoDup (map dateStr (dayEntries (calendarDays cm MOCK_APPOINTMENTS))).
Proof.
  intros cm.
  assert (Hy : 1000 <= JS.getFullYear cm <= 9999) by (simpl; lia).
  assert (Hm : 0 <= JS.getMonth cm <= 11) by (simpl; lia).
  split; [exact Hy|]. split; [exact Hm|]. split; [reflexivity|].
  exact (proj2 (proj2 (calendarDays_grid cm MOCK_APPOINTMENTS Hy Hm))).
Defined.

(** X8. The calendar and the list agree.  When a day of the grid is
    clicked with nothing selected before, on a tab that filters nothing
    and with no other filter set, the visible list is made of the
    appointments the grid holds for that day, each as often; so it is
    empty exactly when the day is not marked as having appointments. *)
Theorem calendar_day_click
    (cm : JS.Date) (appointments : list Appointment) (today : string)
    (e : DayInfo) :
  1000 <= JS.getFullYear cm <= 9999 -> 0 <= JS.getMonth cm <= 11 ->
  In e (dayEntries (calendarDays cm appointments)) ->
  let rows := filteredAppointments appointments
                (handleDateSelect (dateStr e) (onlyTab "All" cm)) today in
  Permutation rows (dayAppointments e)
  /\ (hasAppointments e = true <-> rows <> []).
Proof.
  intros Hy Hm He rows.
  rewrite dayEntries_calendarDays in He by assumption.
  apply in_map_iff in He as [d [<- Hd]]. apply In_zrange in Hd.
  pose proof (daysInMonth_bounds (JS.getFullYear cm) (JS.getMonth cm)) as Hdim.
  assert (Hday : 1 <= d <= 31) by lia.
  set (y := JS.getFullYear cm) in *. set (m := JS.getMonth cm) in *.
  assert (Hstr : JS.truthy (dateStr (dayInfo y m appointments d)) = true).
  { rewrite dayInfo_dateStr by assumption. reflexivity. }
  assert (Hvis : forall a,
    visible (handleDateSelect (dateStr (dayInfo y m appointments d))
               (onlyTab "All" cm)) today a =
    String.eqb (date a) (dateStr (dayInfo y m appointments d))).
  { intros a. unfold visible, handleDateSelect, onlyTab.
    cbn [activeTab selectedDate searchQuery statusFilter doctorFilter].
    rewrite Hstr. cbn [JS.trim JS.trimStart JS.trimEnd JS.truthy].
    change ("All" =? "Today")%string with false.
    change ("All" =? "Upcoming")%string with false.
    change ("All" =? "Past")%string with false.
    change ("All Status" =? "All Status")%string with true.
    change ("All Doctors" =? "All Doctors")%string with true.
    now rewrite !andb_true_r. }
  assert (Hperm : Permutation rows (dayAppointments (dayInfo y m appointments d))).
  { subst rows. rewrite filteredAppointments_filter.
    rewrite (filter_ext _ _ Hvis). apply Permutation_sym, sort_perm. }
  split; [exact Hperm|].
  assert (Hhas : hasAppointments (dayInfo y m appointments d) = true <->
                 dayAppointments (dayInfo y m appointments d) <> []).
  { cbn [dayInfo hasAppointments dayAppointments dateStr].
    rewrite existsb_exists. split.
    - intros [a [Hin E]] Hnil.
      assert (Hf : In a (filter (fun apt => (date apt =? _)%string) appointments))
        by (apply filter_In; split; eassumption).
      rewrite Hnil in Hf. destruct Hf.
    - intros Hne.
      destruct (filter _ appointments) as [|a l] eqn:E; [congruence|].
      assert (Hf : In a (filter (fun apt => (date apt =? JS.numberToString y ++ "-"
                   ++ JS.padStart (JS.numberToString (m + 1)) 2 "0" ++ "-"
                   ++ JS.padStart (JS.numberToString d) 2 "0")%string) appointments))
        by (rewrite E; now left).
      apply filter_In in Hf as [Hin Heq]. now exists a. }
  rewrite Hhas. split; intros Hne Hnil; apply Hne.
  - rewrite Hnil in Hperm. now apply Permutation_nil in Hperm.
  - rewrite Hnil in Hperm. now apply Permutation_sym, Permutation_nil in Hperm.
Qed.

Lemma calendar_day_click_witness :
  let cm := JS.mkDate 2025 11 1 in
  let e := dayInfo 2025 11 MOCK_APPOINTMENTS 15 in
  (1000 <= JS.getFullYear cm <= 9999) /\ (0 <= JS.getMonth cm <= 11)
  /\ In e (dayEntries (calendarDays cm MOCK_APPOINTMENTS))
  /\ Permutation
       (filteredAppointments MOCK_APPOINTMENTS
          (handleDateSelect (dateStr e) (onlyTab "All" cm)) "2025-12-15")
       [sample1; sample2].
Proof.
  intros cm e.
  assert (Hy : 1000 <= JS.getFullYear cm <= 9999) by (simpl; lia).
  assert (Hm : 0 <= JS.getMonth cm <= 11) by (simpl; lia).
  assert (He : In e (dayEntries (calendarDays cm MOCK_APPOINTMENTS))).
  { vm_compute. do 14 right. left. reflexivity. }
  split; [exact Hy|]. split; [exact Hm|]. split; [exact He|].
  exact (proj1 (calendar_day_click cm MOCK_APPOINTMENTS "2025-12-15" e Hy Hm He)).
Defined.

(** ** Month navigation *)

Lemma makeDate_no_overflow (y m d : Z) :
  1 <= d <= 28 ->
  JS.makeDate y m d = JS.mkDate (y + m / 12) (m mod 12) d.
Proof.
  intros Hd. unfold JS.makeDate.
  replace (Z.to_nat (Z.abs d) + 1)%nat with (S (Z.to_nat (Z.abs d))) by lia.
  cbn [JS.normalizeDay].
  pose proof (daysInMonth_bounds (y + m / 12) (m mod 12)) as Hb.
  assert ((d <? 1) = false) as -> by (apply Z.ltb_ge; lia).
  assert ((JS.daysInMonth (y + m / 12) (m mod 12) <? d) = false) as ->
    by (apply Z.ltb_ge; lia).
  reflexivity.
Qed.

(** X9. From a day that every month has (the 1st to the 28th), moving by
    [k] months lands [k] months away on the same day of the month,
    across years in either direction, and moving back by [k] restores the
    filter state. *)
Theorem changeMonth_round_trip (k : Z) (fs : FilterState) :
  0 <= JS.getMonth (currentMonth fs) <= 11 ->
  1 <= JS.getDate (currentMonth fs) <= 28 ->
  monthIndex (currentMonth (changeMonth k fs)) = monthIndex (currentMonth fs) + k
  /\ 0 <= JS.getMonth (currentMonth (changeMonth k fs)) <= 11
  /\ JS.getDate (currentMonth (changeMonth k fs)) = JS.getDate (currentMonth fs)
  /\ changeMonth (- k) (changeMonth k fs) = fs.
Proof.
  intros Hm Hd. destruct fs as [sel tab q st doc [y m d]].
  unfold changeMonth, monthIndex, JS.setMonth in *.
  cbn [currentMonth selectedDate activeTab searchQuery statusFilter doctorFilter
       JS.getFullYear JS.getMonth JS.getDate] in *.
  rewrite makeDate_no_overflow by assumption.
  cbn [JS.getFullYear JS.getMonth JS.getDate].
  rewrite makeDate_no_overflow by assumption.
  split; [|split; [|split]].
  - Z.div_mod_to_equations. lia.
  - Z.div_mod_to_equations. lia.
  - reflexivity.
  - do 2 f_equal; Z.div_mod_to_equations; lia.
Qed.

Lemma changeMonth_round_trip_witness :
  let fs := initialFilterState (JS.mkDate 2025 10 15) in
  (0 <= JS.getMonth (currentMonth fs) <= 11)
  /\ (1 <= JS.getDate (currentMonth fs) <= 28)
  /\ currentMonth (changeMonth 3 fs) = JS.mkDate 2026 1 15
  /\ changeMonth (-3) (changeMonth 3 fs) = fs.
Proof.
  intros fs.
  assert (Hm : 0 <= JS.getMonth (currentMonth fs) <= 11) by (simpl; lia).
  assert (Hd : 1 <= JS.getDate (currentMonth fs) <= 28) by (simpl; lia).
  split; [exact Hm|]. split; [exact Hd|]. split; [reflexivity|].
  exact (proj2 (proj2 (proj2 (changeMonth_round_trip 3 fs Hm Hd)))).
Defined.

(** ** The mock service *)

Lemma toLowerCase_idempotent (s : string) :
  JS.toLowerCase (JS.toLowerCase s) = JS.toLowerCase s.
Proof.
  induction s as [|c s IH]; simpl; [reflexivity|]. rewrite IH. f_equal.
  unfold JS.lowerChar.
  destruct ((65 <=? N_of_ascii c)%N && (N_of_ascii c <=? 90)%N) eqn:E.
  - apply andb_true_iff in E as [E1 E2]. apply N.leb_le in E1, E2.
    rewrite N_ascii_embedding by lia.
    assert ((N_of_ascii c + 32 <=? 90)%N = false) as -> by (apply N.leb_gt; lia).
    now rewrite andb_false_r.
  - now rewrite E.
Qed.

(** X10. [getAppointments] of the mock never rejects and leaves the array
    as it is.  It returns the appointments that have the given date, when
    one is given, and the given status up to the case of letters, when one
    is given; with neither, all of them.  Two statuses that differ in
    case only give the same answer. *)
Theorem Mock_getAppointments_spec
    (date status : option string) (store : list Mock.Appointment) :
  exists result,
    Mock.getAppointments date status store = (Resolved result, store)
    /\ (forall apt, In apt result <->
          In apt store
          /\ (forall d, date = Some d -> Mock.date apt = d)
          /\ (forall s, status = Some s ->
                JS.toLowerCase (Mock.status apt) = JS.toLowerCase s))
    /\ (date = None -> status = None -> result = store)
    /\ (forall s, status = Some s ->
          Mock.getAppointments date (Some (JS.toLowerCase s)) store =
          Mock.getAppointments date status store).
Proof.
  unfold Mock.getAppointments. eexists. split; [reflexivity|]. split; [|split].
  - intros apt. destruct status as [s|], date as [d|];
      rewrite ?filter_In, ?String.eqb_eq; split.
    + intros [[H1 H2] H3]. repeat split; trivial; congruence.
    + intros (H1 & H2 & H3). auto.
    + intros [H1 H2]. repeat split; trivial; congruence.
    + intros (H1 & H2 & H3). auto.
    + intros [H1 H2]. repeat split; trivial; congruence.
    + intros (H1 & H2 & H3). auto.
    + intros H1. repeat split; trivial; congruence.
    + tauto.
  - now intros -> ->.
  - intros s ->. now rewrite toLowerCase_idempotent.
Qed.

Lemma findAndSetStatus_None (appointmentId : Id) (newStatus : string)
    (store : list Mock.Appointment) :
  Mock.findAndSetStatus appointmentId newStatus store = None <->
  forall apt, In apt store -> Mock.id apt <> appointmentId.
Proof.
  induction store as [|a store IH]; simpl.
  - split; [intros _ apt [] | reflexivity].
  - destruct (Id_eqb (Mock.id a) appointmentId) eqn:E.
    + apply Id_eqb_eq in E. split; [discriminate|].
      intros H. exfalso. apply (H a); [now left | exact E].
    + apply Id_eqb_neq in E.
      destruct (Mock.findAndSetStatus appointmentId newStatus store)
        as [[f rest]|]; split.
      * discriminate.
      * intros H. assert (Some (f, rest) = None) as H'; [|discriminate H'].
        apply IH. intros apt Hin. apply H. now right.
      * intros _ apt [<-|Hin]; [exact E | now apply (proj1 IH)].
      * reflexivity.
Qed.

Lemma findAndSetStatus_Some (appointmentId : Id) (newStatus : string)
    (store store' : list Mock.Appointment) (found : Mock.Appointment) :
  Mock.findAndSetStatus appointmentId newStatus store = Some (found, store') ->
  exists earlier old later,
    store = (earlier ++ old :: later)%list
    /\ store' = (earlier ++ found :: later)%list
    /\ found = Mock.withStatus old newStatus
    /\ Mock.id old = appointmentId
    /\ forall apt, In apt earlier -> Mock.id apt <> appointmentId.
Proof.
  revert store' found. induction store as [|a store IH]; intros store' found;
    simpl; [discriminate|].
  destruct (Id_eqb (Mock.id a) appointmentId) eqn:E.
  - intros [= <- <-]. apply Id_eqb_eq in E.
    exists [], a, store. repeat split; trivial. intros apt [].
  - apply Id_eqb_neq in E.
    destruct (Mock.findAndSetStatus appointmentId newStatus store)
      as [[f rest]|]; [|discriminate].
    intros [= <- <-].
    destruct (IH _ _ eq_refl) as (earlier & old & later & -> & -> & Hf & Hid & Hno).
    exists (a :: earlier), old, later. repeat split; trivial.
    intros apt [<-|Hin]; [exact E | now apply Hno].
Qed.

(** X11. [updateAppointmentStatus] of the mock rejects exactly when no
    appointment of the array has the id; the rejection names the id and
    the array is left as it was. *)
Theorem Mock_update_rejects_iff
    (appointmentId : Id) (newStatus : string) (store : list Mock.Appointment) :
  ((forall apt, In apt store -> Mock.id apt <> appointmentId) <->
   Mock.updateAppointmentStatus appointmentId newStatus store =
     (Rejected (notFoundMessage appointmentId), store))
  /\ ((exists apt, In apt store /\ Mock.id apt = appointmentId) <->
      exists updated store',
        Mock.updateAppointmentStatus appointmentId newStatus store =
          (Resolved updated, store')).
Proof.
  unfold Mock.updateAppointmentStatus, notFoundMessage.
  destruct (Mock.findAndSetStatus appointmentId newStatus store)
    as [[found store']|] eqn:E.
  - destruct (findAndSetStatus_Some _ _ _ _ _ E)
      as (earlier & old & later & -> & _ & _ & Hid & _).
    split; split.
    + intros H. exfalso. apply (H old); [|exact Hid].
      apply in_or_app. right. now left.
    + discriminate.
    + intros _. now exists found, store'.
    + intros _. exists old. split; [|exact Hid].
      apply in_or_app. right. now left.
  - pose proof (proj1 (findAndSetStatus_None _ _ _) E) as Hno.
    split; split.
    + reflexivity.
    + intros _. exact Hno.
    + intros [apt [Hin Hid]]. exfalso. now apply (Hno apt).
    + intros [u [s' H]]. discriminate.
Qed.

(** X12. A successful update of the mock returns an appointment with the
    given id and the new status, and changes one appointment of the array
    only: the first with that id, of which only the status changes. *)
Theorem Mock_update_effect
    (appointmentId : Id) (newStatus : string)
    (store store' : list Mock.Appointment) (updated : Mock.Appointment) :
  Mock.updateAppointmentStatus appointmentId newStatus store =
    (Resolved updated, store') ->
  Mock.id updated = appointmentId
  /\ Mock.status updated = newStatus
  /\ exists earlier old later,
       store = (earlier ++ old :: later)%list
       /\ store' = (earlier ++ updated :: later)%list
       /\ withoutStatus updated = withoutStatus old
       /\ forall apt, In apt earlier -> Mock.id apt <> appointmentId.
Proof.
  unfold Mock.updateAppointmentStatus.
  destruct (Mock.findAndSetStatus appointmentId newStatus store)
    as [[found s']|] eqn:E; [|discriminate].
  intros [= <- <-].
  destruct (findAndSetStatus_Some _ _ _ _ _ E)
    as (earlier & old & later & -> & -> & -> & Hid & Hno).
  split; [exact Hid|]. split; [reflexivity|].
  exists earlier, old, later. repeat split; trivial.
Qed.

Lemma Mock_update_effect_witness :
  exists updated store',
    Mock.updateAppointmentStatus (IdStr "apt002") "Confirmed" Mock.APPOINTMENTS
      = (Resolved updated, store')
    /\ Mock.id updated = IdStr "apt002"
    /\ Mock.status updated = "Confirmed".
Proof.
  eexists. eexists.
  assert (H : Mock.updateAppointmentStatus (IdStr "apt002") "Confirmed"
                Mock.APPOINTMENTS =
              (Resolved (Mock.withStatus (nth 1 Mock.APPOINTMENTS
                           (Mock.mkAppointment (IdNum 0) "" "" "" 0 "" "" ""))
                           "Confirmed"),
               storeAfter (IdStr "apt002") "Confirmed" Mock.APPOINTMENTS))
    by reflexivity.
  split; [exact H|].
  destruct (Mock_update_effect _ _ _ _ _ H) as (Hid & Hst & _).
  split; [exact Hid | exact Hst].
Defined.

(** X13. What is written is read back: after a successful update,
    [getAppointments] filtered by the new status returns the updated
    appointment. *)
Theorem Mock_update_then_get
    (appointmentId : Id) (newStatus : string)
    (store store' : list Mock.Appointment) (updated : Mock.Appointment) :
  Mock.updateAppointmentStatus appointmentId newStatus store =
    (Resolved updated, store') ->
  exists result,
    Mock.getAppointments None (Some newStatus) store' = (Resolved result, store')
    /\ In updated result.
Proof.
  unfold Mock.updateAppointmentStatus.
  destruct (Mock.findAndSetStatus appointmentId newStatus store)
    as [[found s']|] eqn:E; [|discriminate].
  intros [= <- <-].
  destruct (findAndSetStatus_Some _ _ _ _ _ E)
    as (earlier & old & later & -> & -> & -> & Hid & Hno).
  unfold Mock.getAppointments. eexists. split; [reflexivity|].
  apply filter_In. split.
  - apply in_or_app. right. now left.
  - apply String.eqb_eq. reflexivity.
Qed.

Lemma Mock_update_then_get_witness :
  exists updated store' result,
    Mock.updateAppointmentStatus (IdStr "apt002") "Confirmed" Mock.APPOINTMENTS
      = (Resolved updated, store')
    /\ Mock.getAppointments None (Some "Confirmed") store'
       = (Resolved result, store')
    /\ In updated result.
Proof.
  assert (H : Mock.updateAppointmentStatus (IdStr "apt002") "Confirmed"
                Mock.APPOINTMENTS =
              (Resolved (Mock.withStatus (nth 1 Mock.APPOINTMENTS
                           (Mock.mkAppointment (IdNum 0) "" "" "" 0 "" "" ""))
                           "Confirmed"),
               storeAfter (IdStr "apt002") "Confirmed" Mock.APPOINTMENTS))
    by reflexivity.
  destruct (Mock_update_then_get _ _ _ _ _ H) as [result [Hget Hin]].
  eexists. eexists. exists result. split; [exact H|]. split; [exact Hget | exact Hin].
Defined.

Lemma storeAfter_cons (appointmentId : Id) (newStatus : string)
    (a : Mock.Appointment) (store : list Mock.Appointment) :
  storeAfter appointmentId newStatus (a :: store) =
  if Id_eqb (Mock.id a) appointmentId
  then Mock.withStatus a newStatus :: store
  else a :: storeAfter appointmentId newStatus store.
Proof.
  unfold storeAfter, Mock.updateAppointmentStatus. cbn [Mock.findAndSetStatus].
  destruct (Id_eqb (Mock.id a) appointmentId); [reflexivity|].
  destruct (Mock.findAndSetStatus appointmentId newStatus store) as [[f rest]|];
    reflexivity.
Qed.

Lemma storeAfter_nil (appointmentId : Id) (newStatus : string) :
  storeAfter appointmentId newStatus [] = [].
Proof. reflexivity. Qed.

(** X14. The last write wins: two updates of the same appointment leave
    the array as the second alone would (so repeating an update changes
    nothing further). *)
Theorem Mock_update_last_write_wins
    (appointmentId : Id) (first second : string) (store : list Mock.Appointment) :
  storeAfter appointmentId second (storeAfter appointmentId first store) =
  storeAfter appointmentId second store.
Proof.
  induction store as [|a store IH]; [reflexivity|].
  rewrite (storeAfter_cons _ first), (storeAfter_cons _ second a).
  destruct (Id_eqb (Mock.id a) appointmentId) eqn:E.
  - rewrite storeAfter_cons. cbn [Mock.withStatus Mock.id]. now rewrite E.
  - rewrite storeAfter_cons, E, IH. reflexivity.
Qed.

(** X15. Updates of different appointments do not interfere: they may be
    applied in either order. *)
Theorem Mock_updates_commute
    (id1 id2 : Id) (status1 status2 : string) (store : list Mock.Appointment) :
  id1 <> id2 ->
  storeAfter id1 status1 (storeAfter id2 status2 store) =
  storeAfter id2 status2 (storeAfter id1 status1 store).
Proof.
  intros Hne. induction store as [|a store IH]; [reflexivity|].
  rewrite (storeAfter_cons id2 status2 a), (storeAfter_cons id1 status1 a).
  destruct (Id_eqb (Mock.id a) id1) eqn:E1, (Id_eqb (Mock.id a) id2) eqn:E2.
  - apply Id_eqb_eq in E1, E2. congruence.
  - rewrite !storeAfter_cons. cbn [Mock.withStatus Mock.id]. now rewrite E1, E2.
  - rewrite !storeAfter_cons. cbn [Mock.withStatus Mock.id]. now rewrite E1, E2.
  - rewrite !storeAfter_cons, E1, E2, IH. reflexivity.
Qed.

Lemma Mock_updates_commute_witness :
  IdStr "apt001" <> IdStr "apt002"
  /\ storeAfter (IdStr "apt001") "Cancelled"
       (storeAfter (IdStr "apt002") "Confirmed" Mock.APPOINTMENTS) =
     storeAfter (IdStr "apt002") "Confirmed"
       (storeAfter (IdStr "apt001") "Cancelled" Mock.APPOINTMENTS).
Proof.
  assert (Hne : IdStr "apt001" <> IdStr "apt002") by discriminate.
  split; [exact Hne|].
  exact (Mock_updates_commute _ _ "Cancelled" "Confirmed" Mock.APPOINTMENTS Hne).
Defined.

Lemma storeAfter_withoutStatus (appointmentId : Id) (newStatus : string)
    (store : list Mock.Appointment) :
  map withoutStatus (storeAfter appointmentId newStatus store) =
  map withoutStatus store.
Proof.
  induction store as [|a store IH]; [reflexivity|].
  rewrite storeAfter_cons.
  destruct (Id_eqb (Mock.id a) appointmentId); cbn [map].
  - reflexivity.
  - now rewrite IH.
Qed.

(** X16. Status updates touch nothing but statuses: after any sequence of
    updates the array has the same appointments in the same order, with
    the ids, names, dates, times, durations, doctors and modes they had. *)
Theorem Mock_updates_keep_everything_else
    (calls : list (Id * string)) (store : list Mock.Appointment) :
  map withoutStatus (Mock.afterUpdates calls store) = map withoutStatus store
  /\ map Mock.id (Mock.afterUpdates calls store) = map Mock.id store
  /\ List.length (Mock.afterUpdates calls store) = List.length store.
Proof.
  assert (H : map withoutStatus (Mock.afterUpdates calls store) =
              map withoutStatus store).
  { revert store. induction calls as [|[i s] calls IH]; intros store;
      [reflexivity|].
    cbn [Mock.afterUpdates]. rewrite IH. apply storeAfter_withoutStatus. }
  split; [exact H|]. split.
  - apply (f_equal (map Mock.id)) in H. rewrite !map_map in H. exact H.
  - apply (f_equal (@List.length _)) in H. now rewrite !length_map in H.
Qed.

(** X17. On valid dates [compareDates] of the mock is antisymmetric; it
    is -1 exactly when the first date is the earlier day, 1 exactly when
    it is the later and 0 exactly when the two are the same day; and it is
    the sign of what the API client's [compareDates] gives. *)
Theorem Mock_compareDates_spec (date1 date2 : string) :
  JS.parseDate date1 <> None -> JS.parseDate date2 <> None ->
  MockMore.compareDates date1 date2 = - MockMore.compareDates date2 date1
  /\ (MockMore.compareDates date1 date2 = -1 <-> before date1 date2)
  /\ (MockMore.compareDates date1 date2 = 1 <-> after date1 date2)
  /\ (MockMore.compareDates date1 date2 = 0 <-> dayOf date1 = dayOf date2)
  /\ exists v, Api.compareDates date1 date2 = Some v
               /\ MockMore.compareDates date1 date2 = Z.sgn v.
Proof.
  intros H1 H2.
  unfold MockMore.compareDates, Api.compareDates, before, after, dayOf.
  destruct (JS.parseDate date1) as [t1|] eqn:E1; [|congruence].
  destruct (JS.parseDate date2) as [t2|] eqn:E2; [|congruence].
  destruct (parseDate_multiple _ _ E1) as [n1 ->].
  destruct (parseDate_multiple _ _ E2) as [n2 ->].
  rewrite !Z.div_mul by discriminate. unfold JS.msPerDay.
  assert (Hb : (exists a b : Z, Some n1 = Some a /\ Some n2 = Some b /\ a < b)
               <-> n1 < n2).
  { split; [intros (a & b & [= <-] & [= <-] & H); exact H
           | intros H; now exists n1, n2]. }
  assert (Ha : (exists a b : Z, Some n1 = Some a /\ Some n2 = Some b /\ b < a)
               <-> n2 < n1).
  { split; [intros (a & b & [= <-] & [= <-] & H); exact H
           | intros H; now exists n1, n2]. }
  assert (He : Some n1 = Some n2 <-> n1 = n2)
    by (split; [now intros [= ->] | now intros ->]).
  rewrite Hb, Ha, He. cbn [JS.numSub].
  destruct (Z.ltb_spec (n1 * 86400000) (n2 * 86400000)),
           (Z.ltb_spec (n2 * 86400000) (n1 * 86400000)); try lia;
    (split; [reflexivity|]); (split; [split; intros; (lia || discriminate)|]);
    (split; [split; intros; (lia || discriminate)|]);
    (split; [split; intros; (lia || discriminate)|]);
    eexists; (split; [reflexivity|]).
  - symmetry. apply Z.sgn_neg. lia.
  - symmetry. apply Z.sgn_pos. lia.
  - symmetry. apply Z.sgn_null_iff. lia.
Qed.

Lemma Mock_compareDates_spec_witness :
  JS.parseDate "2025-12-15" <> None /\ JS.parseDate "2025-12-18" <> None
  /\ MockMore.compareDates "2025-12-15" "2025-12-18" = -1
  /\ before "2025-12-15" "2025-12-18".
Proof.
  assert (H1 : JS.parseDate "2025-12-15" <> None) by (vm_compute; discriminate).
  assert (H2 : JS.parseDate "2025-12-18" <> None) by (vm_compute; discriminate).
  split; [exact H1|]. split; [exact H2|]. split; [reflexivity|].
  destruct (Mock_compareDates_spec "2025-12-15" "2025-12-18" H1 H2)
    as (_ & Hb & _).
  apply Hb. reflexivity.
Defined.

(** ** The API client *)

Section ApiClient.

Context {T : Type} `{Api.Transport T}.

(** X18. [getAppointments] of the API client sends one request, the one
    for its filters.  It resolves only on an answer that is ok and whose
    body can be read, with the appointments of the body or none if the
    body has no such field, and then writes nothing to the console.
    Otherwise it rejects -- with the error of [fetch], with the HTTP
    status when the answer is not ok, or with the error of reading the
    body -- and writes that one error to the console. *)
Theorem Api_getAppointments_outcome
    (date status : option string) (c : Api.Client T) :
  let result := fst (Api.getAppointments date status c) in
  let c' := snd (Api.getAppointments date status c) in
  let answer := fst (Api.fetch (ApiMore.listRequest date status) (Api.transport c)) in
  Api.transport c' =
    snd (Api.fetch (ApiMore.listRequest date status) (Api.transport c))
  /\ (forall l, result = Resolved l ->
        Api.console c' = Api.console c
        /\ exists response data,
             answer = Resolved response /\ Api.ok response = true
             /\ Api.json response = Resolved data
             /\ l = match Api.appointments data with Some l' => l' | None => [] end)
  /\ (forall e, result = Rejected e ->
        Api.console c' =
          (Api.console c ++ [("Error fetching appointments:", e)])%list
        /\ (answer = Rejected e
            \/ (exists response, answer = Resolved response
                  /\ Api.ok response = false /\ e = Api.httpError response)
            \/ (exists response, answer = Resolved response
                  /\ Api.ok response = true /\ Api.json response = Rejected e))).
Proof.
  unfold Api.getAppointments, ApiMore.listRequest, Api.logAndRethrow.
  destruct (Api.fetch _ (Api.transport c)) as [[response|e0] t] eqn:E;
    cbn [fst snd].
  - destruct (Api.ok response) eqn:Hok; cbn [negb].
    + destruct (Api.json response) as [data|e1] eqn:Hj; cbn [fst snd Api.transport Api.console].
      * split; [reflexivity|]. split.
        -- intros l [= <-]. split; [reflexivity|]. now exists response, data.
        -- intros e [=].
      * split; [reflexivity|]. split.
        -- intros l [=].
        -- intros e [= <-]. split; [reflexivity|]. right. right.
           now exists response.
    + cbn [fst snd Api.transport Api.console]. split; [reflexivity|]. split.
      * intros l [=].
      * intros e [= <-]. split; [reflexivity|]. right. left. now exists response.
  - cbn [fst snd Api.transport Api.console]. split; [reflexivity|]. split.
    + intros l [=].
    + intros e [= <-]. split; [reflexivity|]. now left.
Qed.

(** X19. When the server answers with a status that is not ok and a
    readable body, [updateAppointmentStatus] and [deleteAppointment]
    reject with the detail of the body if it has one that is not empty,
    and with the HTTP status otherwise; [getAppointments] rejects with the
    HTTP status whatever the body says. *)
Theorem Api_error_messages
    (appointmentId : Id) (newStatus : string) (c : Api.Client T)
    (response : Api.Response) (errorData : Api.Json) :
  (forall request, fst (Api.fetch request (Api.transport c)) = Resolved response) ->
  Api.ok response = false ->
  Api.json response = Resolved errorData ->
  let message :=
    match Api.detail errorData with
    | Some d => if String.eqb d "" then Api.httpError response else d
    | None => Api.httpError response
    end in
  fst (Api.updateAppointmentStatus appointmentId newStatus c) = Rejected message
  /\ fst (ApiMore.deleteAppointment appointmentId c) = Rejected message
  /\ fst (Api.getAppointments None None c) = Rejected (Api.httpError response).
Proof.
  intros Hfetch Hok Hjson message.
  assert (Hmsg : orElse (Api.detail errorData) (Api.httpError response) = message).
  { subst message. unfold orElse. destruct (Api.detail errorData) as [d|];
      [|reflexivity]. now destruct d. }
  unfold Api.updateAppointmentStatus, ApiMore.deleteAppointment,
    Api.getAppointments, Api.logAndRethrow.
  repeat split.
  - match goal with |- context [Api.fetch ?r ?t] =>
      pose proof (Hfetch r) as Hr; destruct (Api.fetch r t) as [res t'] end.
    cbn [fst] in Hr. subst res. rewrite Hok, Hjson, Hmsg. reflexivity.
  - match goal with |- context [Api.fetch ?r ?t] =>
      pose proof (Hfetch r) as Hr; destruct (Api.fetch r t) as [res t'] end.
    cbn [fst] in Hr. subst res. rewrite Hok, Hjson, Hmsg. reflexivity.
  - match goal with |- context [Api.fetch ?r ?t] =>
      pose proof (Hfetch r) as Hr; destruct (Api.fetch r t) as [res t'] end.
    cbn [fst] in Hr. subst res. rewrite Hok. reflexivity.
Qed.

End ApiClient.

Lemma Api_error_messages_witness :
  let response := {| Api.ok := false; Api.httpStatus := 404;
                     Api.json := Resolved (detailBody "Appointment not found") |} in
  let c := {| Api.transport := [Resolved response];
              Api.console := [] |} in
  fst (Api.updateAppointmentStatus (IdNum 7) "Confirmed" c)
    = Rejected "Appointment not found"
  /\ fst (Api.getAppointments None None c) = Rejected "HTTP error! status: 404".
Proof.
  intros response c.
  assert (Hfetch : forall request,
            fst (Api.fetch request (Api.transport c)) = Resolved response)
    by (intros request; reflexivity).
  destruct (Api_error_messages (IdNum 7) "Confirmed" c response
              (detailBody "Appointment not found") Hfetch eq_refl eq_refl)
    as (Hupdate & _ & Hget).
  split; [exact Hupdate | exact Hget].
Defined.

(** ** The initial load *)

Section InitialLoad.

Context {S : Type} `{AppointmentService S}.

(** X20. After the initial load the loading screen is down and no alert
    has been shown.  The error screen is up exactly when the fetch was
    rejected, and then the appointments are those held before; when the
    fetch resolves, the appointments are the fetched ones in the view's
    shape. *)
Theorem fetchData_outcome (scr : Screen S) :
  let after := fetchData scr in
  isLoading after = false
  /\ alerts (world after) = alerts (world scr)
  /\ (error after = None <->
      exists data s1,
        getAppointments None None (service (world scr)) = (Resolved data, s1))
  /\ (forall data s1,
        getAppointments None None (service (world scr)) = (Resolved data, s1) ->
        appointments (world after) = map transform data)
  /\ (forall err s1,
        getAppointments None None (service (world scr)) = (Rejected err, s1) ->
        error after = Some loadFailedMessage
        /\ appointments (world after) = appointments (world scr)
        /\ consoleErrors (world after) =
             (consoleErrors (world scr)
              ++ [("Failed to fetch appointments:", err)])%list).
Proof.
  unfold fetchData.
  destruct (getAppointments None None (service (world scr))) as [[data|err] s1];
    cbn; repeat split; try discriminate; try congruence.
  - intros _. now exists data, s1.
  - intros (d & s & [=]).
Qed.

End InitialLoad.

Lemma fetchData_outcome_witness :
  let scr := {| world := stubWorld MOCK_APPOINTMENTS
                           [respond 503 (detailBody "Service unavailable")];
                isLoading := true;
                error := None |} in
  error (fetchData scr) = Some loadFailedMessage
  /\ isLoading (fetchData scr) = false
  /\ appointments (world (fetchData scr)) = MOCK_APPOINTMENTS.
Proof.
  intros scr.
  destruct (fetchData_outcome scr) as (Hload & _ & _ & _ & Hfail).
  assert (Hget :
    getAppointments None None (service (world scr)) =
    (Rejected "HTTP error! status: 503",
     {| Api.transport := [];
        Api.console := [("Error fetching appointments:",
                         "HTTP error! status: 503")] |})) by reflexivity.
  destruct (Hfail _ _ Hget) as (Herr & Happ & _).
  split; [exact Herr|]. split; [exact Hload | exact Happ].
Defined.

(** ** Optimistic updates *)

(** X21. In the local collection the last write wins: two optimistic
    updates of the same id leave it as the second alone would.  An
    optimistic update changes statuses only: ids and places stay. *)
Theorem applyStatus_last_write_wins
    (appointmentId : Id) (first second : string) (l : list Appointment) :
  applyStatus appointmentId second (applyStatus appointmentId first l) =
    applyStatus appointmentId second l
  /\ map id (applyStatus appointmentId first l) = map id l
  /\ map (fun apt => withStatus apt "") (applyStatus appointmentId first l) =
     map (fun apt => withStatus apt "") l.
Proof.
  unfold applyStatus. rewrite !map_map. repeat split; apply map_ext; intros apt;
    destruct (Id_eqb (id apt) appointmentId) eqn:E; cbn [withStatus id];
    rewrite ?E; reflexivity.
Qed.

(** X22. Optimistic updates of different ids do not interfere: they may
    be applied in either order. *)
Theorem applyStatus_commute
    (id1 id2 : Id) (status1 status2 : string) (l : list Appointment) :
  id1 <> id2 ->
  applyStatus id1 status1 (applyStatus id2 status2 l) =
  applyStatus id2 status2 (applyStatus id1 status1 l).
Proof.
  intros Hne. unfold applyStatus. rewrite !map_map. apply map_ext. intros apt.
  destruct (Id_eqb (id apt) id1) eqn:E1, (Id_eqb (id apt) id2) eqn:E2;
    cbn [withStatus id]; rewrite ?E1, ?E2; try reflexivity.
  apply Id_eqb_eq in E1, E2. congruence.
Qed.

Lemma applyStatus_commute_witness :
  IdStr "apt001" <> IdStr "apt003"
  /\ applyStatus (IdStr "apt001") "Cancelled"
       (applyStatus (IdStr "apt003") "Confirmed" MOCK_APPOINTMENTS) =
     applyStatus (IdStr "apt003") "Confirmed"
       (applyStatus (IdStr "apt001") "Cancelled" MOCK_APPOINTMENTS).
Proof.
  assert (Hne : IdStr "apt001" <> IdStr "apt003") by discriminate.
  split; [exact Hne|].
  exact (applyStatus_commute _ _ "Cancelled" "Confirmed" MOCK_APPOINTMENTS Hne).
Defined.

(** ** Initials *)

Lemma split_no_separator (sep : ascii) (s w : string) :
  In w (JS.split sep s) -> ~ In sep (chars w).
Proof.
  revert w. induction s as [|c s IH]; intros w; cbn [JS.split].
  - intros [<-|[]] [].
  - destruct (Ascii.eqb c sep) eqn:E.
    + intros [<-|Hin]; [intros [] | now apply IH].
    + apply Ascii.eqb_neq in E.
      destruct (JS.split sep s) as [|w0 ws] eqn:Es.
      * intros [<-|[]] [H|[]]. congruence.
      * intros [<-|Hin].
        -- intros [H|H]; [congruence|]. apply (IH w0); [now left | exact H].
        -- apply IH. now right.
Qed.

Lemma chars_append (a b : string) : chars (a ++ b) = (chars a ++ chars b)%list.
Proof. induction a as [|c a IH]; simpl; [reflexivity | now rewrite IH]. Qed.

Lemma chars_join_firstChar (l : list string) (c : ascii) :
  In c (chars (JS.join (map JS.firstChar l))) ->
  exists w, In w l /\ In c (chars w).
Proof.
  induction l as [|w l IH]; cbn [map JS.join fold_right]; [intros []|].
  fold (JS.join (map JS.firstChar l)). rewrite chars_append.
  intros Hin. apply in_app_or in Hin as [Hin|Hin].
  - exists w. split; [now left|]. destruct w as [|c0 w]; [destruct Hin|].
    cbn in Hin. destruct Hin as [<-|[]]. now left.
  - destruct (IH Hin) as [w' [Hw Hc]]. exists w'. split; [now right | exact Hc].
Qed.

Lemma join_firstChar_length (l : list string) :
  (String.length (JS.join (map JS.firstChar l)) <= List.length l)%nat.
Proof.
  induction l as [|w l IH]; cbn [map JS.join fold_right List.length]; [simpl; lia|].
  fold (JS.join (map JS.firstChar l)).
  destruct w; cbn [JS.firstChar String.append String.length]; lia.
Qed.

(** X23. The initials of a fetched appointment are the ones the backend
    sent, when it sent some; otherwise they are made of the first letters
    of the words of the patient name, so they hold no space and are no
    longer than the name has parts between spaces. *)
Theorem transform_initials (apt : Api.WireAppointment) :
  (forall s, Api.patient_initials apt = Some s -> s <> "" ->
             initials (transform apt) = s)
  /\ (Api.patient_initials apt = None \/ Api.patient_initials apt = Some "" ->
      ~ In " "%char (chars (initials (transform apt)))
      /\ (String.length (initials (transform apt))
          <= List.length (JS.split " " (Api.patient_name apt)))%nat).
Proof.
  unfold transform. cbn [initials]. split.
  - intros s -> Hs. unfold orElse. apply truthy_nonempty in Hs. now rewrite Hs.
  - intros Hnone.
    assert (E : orElse (Api.patient_initials apt)
                  (JS.join (map JS.firstChar (JS.split " " (Api.patient_name apt))))
                = JS.join (map JS.firstChar (JS.split " " (Api.patient_name apt))))
      by (destruct Hnone as [-> | ->]; reflexivity).
    rewrite E. split; [|apply join_firstChar_length].
    intros Hin. apply chars_join_firstChar in Hin as [w [Hw Hc]].
    exact (split_no_separator _ _ _ Hw Hc).
Qed.

(** ** The filter controls *)

(** X24. Clicking a date selects it, unless it is the selected one, in
    which case nothing is selected any more; nothing else of the filter
    state changes.  So clicking a date twice, with nothing or that date
    selected before, restores the filter state. *)
Theorem handleDateSelect_toggle (dateStr : string) (fs : FilterState) :
  (selectedDate fs = Some dateStr ->
   selectedDate (handleDateSelect dateStr fs) = None)
  /\ (selectedDate fs <> Some dateStr ->
      selectedDate (handleDateSelect dateStr fs) = Some dateStr)
  /\ (activeTab (handleDateSelect dateStr fs) = activeTab fs
      /\ searchQuery (handleDateSelect dateStr fs) = searchQuery fs
      /\ statusFilter (handleDateSelect dateStr fs) = statusFilter fs
      /\ doctorFilter (handleDateSelect dateStr fs) = doctorFilter fs
      /\ currentMonth (handleDateSelect dateStr fs) = currentMonth fs)
  /\ (selectedDate fs = None \/ selectedDate fs = Some dateStr ->
      handleDateSelect dateStr (handleDateSelect dateStr fs) = fs).
Proof.
  destruct fs as [sel tab q st doc cm]. unfold handleDateSelect.
  cbn [selectedDate activeTab searchQuery statusFilter doctorFilter currentMonth].
  split; [|split; [|split]].
  - intros ->. now rewrite String.eqb_refl.
  - intros Hne. destruct sel as [d|]; [|reflexivity].
    destruct (String.eqb_spec dateStr d) as [->|_]; [congruence | reflexivity].
  - repeat split.
  - intros [-> | ->]; rewrite ?String.eqb_refl;
      cbn [selectedDate]; rewrite ?String.eqb_refl; reflexivity.
Qed.

Lemma handleDateSelect_toggle_witness :
  let fs := handleDateSelect "2025-12-15"
              (initialFilterState (JS.mkDate 2025 11 15)) in
  (selectedDate fs = None \/ selectedDate fs = Some "2025-12-15")
  /\ selectedDate (handleDateSelect "2025-12-15" fs) = None
  /\ selectedDate (handleDateSelect "2025-12-18" fs) = Some "2025-12-18"
  /\ handleDateSelect "2025-12-15" (handleDateSelect "2025-12-15" fs) = fs.
Proof.
  intros fs.
  assert (H : selectedDate fs = None \/ selectedDate fs = Some "2025-12-15")
    by (right; reflexivity).
  split; [exact H|].
  destruct (handleDateSelect_toggle "2025-12-15" fs) as (Hsame & _ & _ & Hround).
  destruct (handleDateSelect_toggle "2025-12-18" fs) as (_ & Hother & _).
  split; [exact (Hsame eq_refl)|].
  split; [apply Hother; discriminate | exact (Hround H)].
Defined.

Lemma flat_map_snoc {A B : Type} (f : A -> list B) (l : list A) (x : A) :
  flat_map f (l ++ [x])%list = (flat_map f l ++ f x)%list.
Proof. rewrite flat_map_app. simpl. now rewrite app_nil_r. Qed.

(** X25. Each filter control remembers its last use, whatever the other
    controls do: after any sequence of events the tab, the search query,
    the status filter and the doctor filter are those of the last event of
    their kind, or the initial ones if there was none. *)
Theorem filters_keep_last_choice (now : JS.Date) (events : list Event) :
  let fs := handleAll events (initialFilterState now) in
  activeTab fs = last (tabChanges events) "Upcoming"
  /\ searchQuery fs = last (searchInputs events) ""
  /\ statusFilter fs = last (statusSelections events) "All Status"
  /\ doctorFilter fs = last (doctorSelections events) "All Doctors".
Proof.
  induction events as [|e events IH] using rev_ind; [repeat split|].
  cbn zeta in *. rewrite handleAll_snoc.
  unfold tabChanges, searchInputs, statusSelections, doctorSelections in *.
  rewrite !flat_map_snoc.
  destruct IH as (Htab & Hq & Hs & Hd).
  destruct e as [ds|tab|offset|q|s|doc]; cbn [handle];
    unfold handleDateSelect, handleTabChange, changeMonth, setSearchQuery,
      setStatusFilter, setDoctorFilter;
    cbn [activeTab searchQuery statusFilter doctorFilter];
    rewrite ?app_nil_r, ?last_last; auto.
Qed.

(** ** Times on the twelve-hour clock *)

Lemma digit_is_digitChar (c : ascii) (a : Z) :
  JS.digitValue c = Some a -> c = digitChar a /\ 0 <= a <= 9.
Proof.
  intros H. apply digitValue_code in H as [Hr Hc]. split; [|exact Hr].
  unfold digitChar. rewrite Z.mod_small by lia.
  replace (48 + Z.to_N a)%N with (N_of_ascii c) by lia.
  symmetry. apply ascii_N_embedding.
Qed.

Lemma parseInt_two_digits (h1 h2 : ascii) (a b : Z) :
  JS.digitValue h1 = Some a -> JS.digitValue h2 = Some b ->
  JSMore.parseInt (String h1 (String h2 "")) = Some (10 * a + b).
Proof.
  intros Ha Hb.
  apply digit_is_digitChar in Ha as [-> Ha], Hb as [-> Hb].
  assert (Ea : a = 0 \/ a = 1 \/ a = 2 \/ a = 3 \/ a = 4 \/ a = 5 \/ a = 6
               \/ a = 7 \/ a = 8 \/ a = 9) by lia.
  assert (Eb : b = 0 \/ b = 1 \/ b = 2 \/ b = 3 \/ b = 4 \/ b = 5 \/ b = 6
               \/ b = 7 \/ b = 8 \/ b = 9) by lia.
  clear Ha Hb.
  repeat (destruct Ea as [->|Ea]); try subst a;
    repeat (destruct Eb as [->|Eb]); try subst b; reflexivity.
Qed.

(** X26. A zero-padded time of day is shown on the twelve-hour clock: the
    hour is the hour modulo 12, with 12 for midnight and noon, the minutes
    are kept, and the suffix is AM before noon and PM from noon on. *)
Theorem formatTime_timeOfDay (s : string) :
  isTimeOfDay s ->
  exists hour minute,
    minutesOf s = Some (60 * hour + minute)
    /\ 0 <= hour <= 23 /\ 0 <= minute <= 59
    /\ formatTime s =
         JS.numberToString (if hour mod 12 =? 0 then 12 else hour mod 12)
         ++ ":" ++ decimal2 minute ++ (if hour <? 12 then " AM" else " PM").
Proof.
  intros (h1 & h2 & m1 & m2 & -> & a & b & c & d & Ha & Hb & Hc & Hd & Hh & Hm).
  exists (10 * a + b), (10 * c + d).
  split; [now apply minutesOf_timeOfDay|].
  pose proof (digit_is_digitChar _ _ Hc) as [Ec Rc].
  pose proof (digit_is_digitChar _ _ Hd) as [Ed Rd].
  pose proof (digitValue_code _ _ Ha) as [Ra _].
  pose proof (digitValue_code _ _ Hb) as [Rb _].
  split; [lia|]. split; [lia|].
  unfold formatTime. cbn [JS.split].
  rewrite (digit_not_colon _ _ Ha), (digit_not_colon _ _ Hb),
          (digit_not_colon _ _ Hc), (digit_not_colon _ _ Hd).
  cbn [Ascii.eqb Bool.eqb].
  rewrite (parseInt_two_digits _ _ _ _ Ha Hb).
  unfold JSMore.remainder. rewrite Z.rem_mod_nonneg by lia.
  assert (Emin : String m1 (String m2 "") = decimal2 (10 * c + d)).
  { unfold decimal2. rewrite Ec, Ed. unfold digitChar.
    replace ((10 * c + d) / 10) with c by (Z.div_mod_to_equations; lia).
    replace ((10 * c + d) mod 10) with d by (Z.div_mod_to_equations; lia).
    rewrite (Z.mod_small d 10) by lia. reflexivity. }
  rewrite Emin. f_equal. f_equal. unfold decimal2. cbn [String.append].
  do 2 f_equal.
  destruct (Z.leb_spec 12 (10 * a + b)), (Z.ltb_spec (10 * a + b) 12);
    try lia; reflexivity.
Qed.

Lemma formatTime_timeOfDay_witness :
  isTimeOfDay "00:30"
  /\ formatTime "00:30" = "12:30 AM"
  /\ exists hour minute, minutesOf "00:30" = Some (60 * hour + minute)
                         /\ 0 <= hour <= 23 /\ 0 <= minute <= 59.
Proof.
  assert (H : isTimeOfDay "00:30").
  { do 4 eexists. split; [reflexivity|].
    exists 0, 0, 3, 0. repeat split; try reflexivity; vm_compute; discriminate. }
  split; [exact H|]. split; [reflexivity|].
  destruct (formatTime_timeOfDay "00:30" H) as (hour & minute & Hmin & Hh & Hm & _).
  now exists hour, minute.
Defined.

(** ** The search box *)

Lemma isWhiteSpace_lowerChar (c : ascii) :
  JS.isWhiteSpace (JS.lowerChar c) = JS.isWhiteSpace c.
Proof.
  unfold JS.lowerChar.
  destruct ((65 <=? N_of_ascii c)%N && (N_of_ascii c <=? 90)%N) eqn:E;
    [|reflexivity].
  apply andb_true_iff in E as [E1 E2]. apply N.leb_le in E1, E2.
  unfold JS.isWhiteSpace. rewrite N_ascii_embedding by lia.
  assert ((N_of_ascii c + 32 <=? 13)%N = false) as -> by (apply N.leb_gt; lia).
  assert ((N_of_ascii c + 32 =? 32)%N = false) as -> by (apply N.eqb_neq; lia).
  assert ((N_of_ascii c <=? 13)%N = false) as -> by (apply N.leb_gt; lia).
  assert ((N_of_ascii c =? 32)%N = false) as -> by (apply N.eqb_neq; lia).
  now rewrite !andb_false_r.
Qed.

Lemma trimStart_toLowerCase (s : string) :
  JS.trimStart (JS.toLowerCase s) = JS.toLowerCase (JS.trimStart s).
Proof.
  induction s as [|c s IH]; [reflexivity|].
  cbn [JS.toLowerCase JS.trimStart]. rewrite isWhiteSpace_lowerChar.
  destruct (JS.isWhiteSpace c); [exact IH | reflexivity].
Qed.

Lemma trimEnd_toLowerCase (s : string) :
  JS.trimEnd (JS.toLowerCase s) = JS.toLowerCase (JS.trimEnd s).
Proof.
  induction s as [|c s IH]; [reflexivity|].
  cbn [JS.toLowerCase JS.trimEnd]. rewrite IH, isWhiteSpace_lowerChar.
  destruct (JS.trimEnd s); cbn [JS.toLowerCase];
    [destruct (JS.isWhiteSpace c)|]; reflexivity.
Qed.

Lemma truthy_trim_toLowerCase (s : string) :
  JS.truthy (JS.trim (JS.toLowerCase s)) = JS.truthy (JS.trim s).
Proof.
  unfold JS.trim. rewrite trimStart_toLowerCase, trimEnd_toLowerCase.
  now destruct (JS.trimEnd (JS.trimStart s)).
Qed.

(** X27. The search does not depend on the case of the query: a query
    and its lower-case form give the same visible list.  A query made of
    white space only filters nothing: it gives the list of the empty
    query. *)
Theorem search_query_case_and_blank
    (appointments : list Appointment) (fs : FilterState) (today q : string) :
  filteredAppointments appointments (setSearchQuery (JS.toLowerCase q) fs) today =
    filteredAppointments appointments (setSearchQuery q fs) today
  /\ (JS.trim q = "" ->
      filteredAppointments appointments (setSearchQuery q fs) today =
      filteredAppointments appointments (setSearchQuery "" fs) today).
Proof.
  rewrite !filteredAppointments_filter. split.
  - f_equal. apply filter_ext. intros apt. unfold visible, setSearchQuery.
    cbn [activeTab selectedDate searchQuery statusFilter doctorFilter].
    now rewrite truthy_trim_toLowerCase, toLowerCase_idempotent.
  - intros Hblank. f_equal. apply filter_ext. intros apt.
    unfold visible, setSearchQuery.
    cbn [activeTab selectedDate searchQuery statusFilter doctorFilter].
    rewrite Hblank. reflexivity.
Qed.

Lemma search_query_case_and_blank_witness :
  let fs := onlyTab "All" (JS.mkDate 2025 11 15) in
  JS.trim "   " = ""
  /\ filteredAppointments MOCK_APPOINTMENTS (setSearchQuery "   " fs) "2025-12-15"
     = filteredAppointments MOCK_APPOINTMENTS (setSearchQuery "" fs) "2025-12-15"
  /\ filteredAppointments MOCK_APPOINTMENTS (setSearchQuery "emily" fs) "2025-12-15"
     = filteredAppointments MOCK_APPOINTMENTS (setSearchQuery "EMILY" fs) "2025-12-15".
Proof.
  intros fs.
  assert (Hb : JS.trim "   " = "") by reflexivity.
  split; [exact Hb|].
  destruct (search_query_case_and_blank MOCK_APPOINTMENTS fs "2025-12-15" "   ")
    as [_ Hblank].
  split; [exact (Hblank Hb)|].
  exact (proj1 (search_query_case_and_blank MOCK_APPOINTMENTS fs "2025-12-15" "EMILY")).
Defined.

Lemma transform_initials_witness :
  let apt := wireFixture 1 "2025-12-15" "09:00" "Confirmed" in
  Api.patient_initials apt = None
  /\ initials (transform apt) = "SJ"
  /\ ~ In " "%char (chars (initials (transform apt))).
Proof.
  intros apt.
  assert (Hnone : Api.patient_initials apt = None) by reflexivity.
  split; [exact Hnone|]. split; [reflexivity|].
  exact (proj1 (proj2 (transform_initials apt) (or_introl Hnone))).
Defined.

(** The colon sorts before the digits: an unpadded "1:00" comes before
    "10:00", and "9:00" after it. *)
Example localeCompare_unpadded :
  JS.localeCompare "1:00" "10:00" = -1 /\ JS.localeCompare "9:00" "10:00" = 1.
Proof. split; reflexivity. Qed.
